(** * Station dashboard: ingestion, lookup and selection logic

    A shallow embedding of the two Streamlit dashboards
    [Peta-Selection.py] and [Peta-Selection-v4.py].  Both scripts share
    the loader [load_site_metadata] and the body of [main]; they differ
    in the order of the tabs (the detail panel is rendered in the first
    tab of [Peta-Selection.py] and in the last tab of
    [Peta-Selection-v4.py]).

    Conventions of the embedding:
    - the workbook is given as [xls.parse] returns its sheets, cell
      types decided;
    - a pandas cell that may be missing is an [option]; [None] is NaN/NaT;
    - a float64 is the rational it denotes ([Q]); the arithmetic of the
      map-click lookup rounds every result to the nearest double;
    - Python strings are [string]s of UTF-8 bytes; case is folded where
      pattern and text are ASCII, and the regular-expression engine of
      the runtime is a parameter beyond that;
    - the dtypes pandas gives to the columns of the loaded table are
      computed from the sheets, where a script depends on them;
    - a DataFrame is an object on a heap of frames, so that two names
      bound to one frame see each other's column assignments;
    - [st.session_state] is a finite map from keys to Python values;
    - a script run either returns, raises a Python exception, or asks
      for a rerun ([st.rerun]); writes made before that point persist;
    - calls that only draw (maps, charts, metrics, the directory table,
      download buttons) read the table and write nothing; they are left
      out, except the detail panel of the selected station. *)

From Stdlib Require Import ZArith QArith Strings.String Strings.Ascii.
From Stdlib Require Import Numbers.DecimalString Lists.List Bool Lia.
From stdpp Require Import gmap strings list sorting.
Import ListNotations.

Open Scope string_scope.

(** ** Python strings *)

(** [str(n)] for a Python int. *)
Definition str_of_Z (z : Z) : string := NilZero.string_of_int (Z.to_int z).

(** [x in s] for strings: [sub] occurs somewhere in [s]. *)
Fixpoint contains_sub (sub s : string) : bool :=
  String.prefix sub s ||
  match s with
  | EmptyString => false
  | String _ s' => contains_sub sub s'
  end.

(** [s.split(sep)] for a non-empty separator: scan left to right; at an
    occurrence of [sep] close the current token and skip the separator.
    [skip] counts the separator characters still to jump over, [cur] is
    the token being built. *)
Fixpoint split_go (sep : string) (skip : nat) (cur s : string) : list string :=
  match s with
  | EmptyString => [cur]
  | String c s' =>
      match skip with
      | S k => split_go sep k cur s'
      | O =>
          if String.prefix sep s
          then cur :: split_go sep (String.length sep - 1) "" s'
          else split_go sep 0 (cur ++ String c "") s'
      end
  end.

Definition split (sep s : string) : list string := split_go sep 0 "" s.

(** [xs[0]] on a list of strings that [split] returned (never empty). *)
Definition first_token (xs : list string) : string := hd "" xs.

Definition lower_ascii (c : ascii) : ascii :=
  let n := nat_of_ascii c in
  if (65 <=? n)%nat && (n <=? 90)%nat then ascii_of_nat (n + 32) else c.

Fixpoint lower (s : string) : string :=
  match s with
  | EmptyString => EmptyString
  | String c s' => String (lower_ascii c) (lower s')
  end.

Definition pad2 (n : nat) : string :=
  let s := NilZero.string_of_uint (Nat.to_uint n) in
  if (String.length s <? 2)%nat then "0" ++ s else s.

(** ** Data model *)

(** A station id as [xls.parse] returns it: a number or a text. *)
Inductive IdCell :=
| IdInt (n : Z)
| IdStr (s : string).

(** [str(id)] / [astype(str)]. *)
Definition id_str (i : IdCell) : string :=
  match i with
  | IdInt n => str_of_Z n
  | IdStr s => s
  end.

Record Timestamp := mkTimestamp { ts_year : nat; ts_month : nat; ts_day : nat }.

(** [ts.strftime("%m/%d/%Y")] and [ts.strftime("%d/%m/%Y")]. *)
Definition strftime_mdY (t : Timestamp) : string :=
  pad2 (ts_month t) ++ "/" ++ pad2 (ts_day t) ++ "/"
  ++ NilZero.string_of_uint (Nat.to_uint (ts_year t)).

Definition strftime_dmY (t : Timestamp) : string :=
  pad2 (ts_day t) ++ "/" ++ pad2 (ts_month t) ++ "/"
  ++ NilZero.string_of_uint (Nat.to_uint (ts_year t)).

(** One row of a sheet, restricted to the sixteen projected columns. *)
Record SheetRow := mkSheetRow {
  id_station : IdCell;
  name_station : option string;
  nama_propinsi : option string;
  nama_kota : option string;
  kecamatan : option string;
  kelurahan : option string;
  latt_station : option Q;
  long_station : option Q;
  elv_station : option Q;
  status_operasional : option string;
  hp_petugas : option string;
  tgl_pasang : option Timestamp;
  addr_instansi : option string;
  data_transport : option string;
  instansi : option string;
  nama_vendor : option string
}.

(** A row of the unified table: the projected columns and [JENIS]. *)
Record Station := mkStation { site : SheetRow; JENIS : string }.

Record Sheet := mkSheet {
  sheet_name : string;
  sheet_columns : list string;
  sheet_rows : list SheetRow
}.

(** The workbook: its sheets in file order, each as [xls.parse]
    returns it.  Sheet names are the keys of the dict that
    [pd.read_excel(sheet_name=None)] returns, hence pairwise distinct,
    so the dict comprehension of the loader visits each sheet once and
    [dfs.values()] lists the frames in sheet order. *)
Definition Workbook := list Sheet.

(** [xls.parse] decides the type of a column from its cells: a column
    whose text cells all read as numbers comes back as numbers (an id
    typed as the text [10001] in every row is read as the number
    10001), and a text that reads as a missing-value token comes back
    missing.  A text that starts with a capital letter and holds a
    hyphen reads as neither, and keeps the column it stands in as
    stored. *)
Definition text_id_kept (s : string) : bool :=
  match s with
  | String c _ =>
      (65 <=? nat_of_ascii c)%nat && (nat_of_ascii c <=? 90)%nat && contains_sub "-" s
  | EmptyString => false
  end.

(** A sheet whose ids [xls.parse] returns as the cells store them:
    numbers, and texts of the kind above. *)
Definition ids_as_stored (s : Sheet) : bool :=
  forallb (fun r => match id_station r with
                    | IdInt _ => true
                    | IdStr t => text_id_kept t
                    end) (sheet_rows s).

(** A DataFrame: the rows, and the columns assigned after the load
    (name and one value per row).  The row index is [0..n-1]
    ([ignore_index=True]), so labels and positions coincide. *)
Record DataFrame := mkDataFrame {
  df_rows : list Station;
  df_assigned : list (string * list (option string))
}.

Definition base_columns : list string :=
  [ "id_station"; "name_station"; "nama_propinsi"; "nama_kota"; "kecamatan";
    "kelurahan"; "latt_station"; "long_station"; "elv_station";
    "status_operasional"; "hp_petugas"; "tgl_pasang"; "addr_instansi";
    "data_transport"; "instansi"; "nama_vendor" ].

Definition df_columns (df : DataFrame) : list string :=
  base_columns ++ ["JENIS"] ++ map fst (df_assigned df).

(** ** [load_site_metadata] *)

Definition has_column (s : Sheet) (c : string) : bool :=
  existsb (String.eqb c) (sheet_columns s).

(** [xls.parse(sheet)[[...]]], the projection of the parsed sheet: a
    [KeyError] when a column is absent. *)
Definition project (s : Sheet) : option (list SheetRow) :=
  if forallb (has_column s) base_columns then Some (sheet_rows s) else None.

Definition notna {A} (c : option A) : bool :=
  match c with Some _ => true | None => false end.

Definition has_coordinates (r : SheetRow) : bool :=
  notna (latt_station r) && notna (long_station r).

(** [.dropna(subset=['latt_station', 'long_station'])]. *)
Definition dropna_coords (rows : list SheetRow) : list SheetRow :=
  List.filter has_coordinates rows.

(** [.assign(JENIS=sheet)]. *)
Definition assign_JENIS (name : string) (rows : list SheetRow) : list Station :=
  map (fun r => mkStation r name) rows.

Definition sheet_frame (s : Sheet) : option (list Station) :=
  match project s with
  | Some rows => Some (assign_JENIS (sheet_name s) (dropna_coords rows))
  | None => None
  end.

Fixpoint sheet_frames (wb : Workbook) : option (list (list Station)) :=
  match wb with
  | [] => Some []
  | s :: rest =>
      match sheet_frame s, sheet_frames rest with
      | Some f, Some fs => Some (f :: fs)
      | _, _ => None
      end
  end.

(** The loader.  Any exception inside the [try] (a missing column, or
    [pd.concat] on no frame at all) is reported and turned into [None]. *)
Definition load_site_metadata (wb : Workbook) : option DataFrame :=
  match sheet_frames wb with
  | Some [] => None
  | Some fs => Some (mkDataFrame (List.concat fs) [])
  | None => None
  end.

(** Number of rows of a sheet that carry both coordinates. *)
Fixpoint count_valid (rows : list SheetRow) : nat :=
  match rows with
  | [] => 0
  | r :: rest =>
      match latt_station r, long_station r with
      | Some _, Some _ => S (count_valid rest)
      | _, _ => count_valid rest
      end
  end.

Definition well_formed_sheet (s : Sheet) : Prop :=
  forall c, In c base_columns -> In c (sheet_columns s).

(** ** Double precision *)

(** [n / d] rounded to the nearest integer, ties to the even one, for
    [n >= 0] and [d > 0]. *)
Definition round_half_even (n d : Z) : Z :=
  let q := (n / d)%Z in
  let r := (n mod d)%Z in
  if (2 * r <? d)%Z then q
  else if (d <? 2 * r)%Z then (q + 1)%Z
  else if Z.even q then q else (q + 1)%Z.

(** [n / d < 2 ^ e], for positive [n] and [d]. *)
Definition below_pow2 (n d e : Z) : bool :=
  if (0 <=? e)%Z then (n <? d * 2 ^ e)%Z else (n * 2 ^ (- e) <? d)%Z.

(** The exponent [e] with [2 ^ e <= n / d < 2 ^ (e + 1)], for positive
    [n] and [d]. *)
Definition binary_exponent (n d : Z) : Z :=
  let e0 := (Z.log2 n - Z.log2 d)%Z in
  if below_pow2 n d e0 then (e0 - 1)%Z else e0.

(** The double nearest to [q] (IEEE 754 binary64, round to nearest,
    ties to even): a significand of 53 bits at the exponent of [q],
    the spacing [2 ^ -1074] of the subnormal numbers at the least;
    [None] when the result is beyond the largest double, that is, an
    infinity. *)
Definition float64 (q : Q) : option Q :=
  let n := Z.abs (Qnum q) in
  let d := Z.pos (Qden q) in
  if (n =? 0)%Z then Some 0%Q
  else
    let e := Z.max (binary_exponent n d - 52) (-1074) in
    let m := if (0 <=? e)%Z then round_half_even n (d * 2 ^ e)
             else round_half_even (n * 2 ^ (- e)) d in
    if (0 <=? e)%Z && (2 ^ 1024 <=? m * 2 ^ e)%Z then None
    else
      let v := if (0 <=? e)%Z then inject_Z (m * 2 ^ e)
               else Qred (m # Z.to_pos (2 ^ (- e))) in
      Some (if (Qnum q <? 0)%Z then Qopp v else v).

(** The result of an operation on doubles, up to the sign of an
    infinity: the lookup squares every difference. *)
Inductive F64 :=
| Num (q : Q)
| Inf.

Definition f64_round (q : Q) : F64 :=
  match float64 q with
  | Some v => Num v
  | None => Inf
  end.

Definition f64_sub (a b : Q) : F64 := f64_round (a - b).

(** [x ** 2] is [x * x]. *)
Definition f64_sq (x : F64) : F64 :=
  match x with
  | Num v => f64_round (v * v)
  | Inf => Inf
  end.

(** The sum of two squares. *)
Definition f64_add (x y : F64) : F64 :=
  match x, y with
  | Num u, Num v => f64_round (u + v)
  | _, _ => Inf
  end.

Definition f64_leb (x y : F64) : bool :=
  match x, y with
  | Num u, Num v => Qle_bool u v
  | Num _, Inf => true
  | Inf, Num _ => false
  | Inf, Inf => true
  end.

(** ** [nearest]: the map-click lookup *)

(** [Series.idxmin()]: position of the first occurrence of the least
    value, missing values skipped; [None] when there is no value at all
    (pandas raises [ValueError]).  The result carries the least value. *)
Fixpoint idxmin (xs : list (option F64)) : option (nat * F64) :=
  match xs with
  | [] => None
  | x :: rest =>
      match x, idxmin rest with
      | Some d, Some (j, m) => if f64_leb d m then Some (O, d) else Some (S j, m)
      | Some d, None => Some (O, d)
      | None, Some (j, m) => Some (S j, m)
      | None, None => None
      end
  end.

(** [(df['latt_station'] - lat) ** 2 + (df['long_station'] - lon) ** 2]
    for one row, every difference, square and sum a float64 operation;
    missing when a coordinate is. *)
Definition sq_dist (lat lon : Q) (r : Station) : option F64 :=
  match latt_station (site r), long_station (site r) with
  | Some a, Some b => Some (f64_add (f64_sq (f64_sub a lat)) (f64_sq (f64_sub b lon)))
  | _, _ => None
  end.

(** [df.loc[(...).idxmin()]]: [None] stands for the [ValueError]. *)
Definition nearest (rows : list Station) (lat lon : Q) : option Station :=
  match idxmin (map (sq_dist lat lon) rows) with
  | Some (i, _) => nth_error rows i
  | None => None
  end.

(** ** [str.contains(term, case=False, na=False)] *)

(** pandas compiles the term as a regular expression ([regex=True] is
    the default) with [re.IGNORECASE] and keeps the rows where
    [search] finds a match.  ASCII patterns made of ordinary characters
    and of [.] are interpreted here on ASCII text, where a byte is a
    character and case is that of the 26 letters.  Everything else is
    the engine of the Python runtime, a parameter: [re_engine] for
    every other pattern ([None] when the pattern does not compile), and
    [re_search_unicode] for an interpreted pattern on a text that holds
    a character beyond ASCII. *)
Inductive Atom :=
| Lit (c : ascii)
| Dot.

Definition re_special (c : ascii) : bool :=
  existsb (Ascii.eqb c) (list_ascii_of_string ".^$*+?{}[]\|()").

Fixpoint simple_pattern (pat : string) : option (list Atom) :=
  match pat with
  | EmptyString => Some []
  | String c rest =>
      match simple_pattern rest with
      | Some atoms =>
          if Ascii.eqb c "." then Some (Dot :: atoms)
          else if re_special c then None
          else Some (Lit c :: atoms)
      | None => None
      end
  end.

Definition atom_matches (a : Atom) (c : ascii) : bool :=
  match a with
  | Lit x => Ascii.eqb (lower_ascii x) (lower_ascii c)
  | Dot => negb (Ascii.eqb c "010")
  end.

Fixpoint match_here (atoms : list Atom) (s : string) : bool :=
  match atoms with
  | [] => true
  | a :: atoms' =>
      match s with
      | EmptyString => false
      | String c s' => atom_matches a c && match_here atoms' s'
      end
  end.

Fixpoint search_atoms (atoms : list Atom) (s : string) : bool :=
  match_here atoms s ||
  match s with
  | EmptyString => false
  | String _ s' => search_atoms atoms s'
  end.

Definition is_ascii (s : string) : bool :=
  forallb (fun c => (nat_of_ascii c <? 128)%nat) (list_ascii_of_string s).

(** What the scripts take from the Python runtime without fixing it:
    how a float prints; the regular-expression engine beyond the
    patterns and texts interpreted above; and whether [pd.concat]
    leaves frames without rows and columns without values out when it
    determines a dtype, as pandas does before version 3. *)
Class PyRuntime := {
  repr_float : Q -> string;
  re_engine : string -> option (string -> bool);
  re_search_unicode : string -> string -> bool;
  concat_skips_all_na : bool
}.

Definition runtime0 : PyRuntime :=
  {| repr_float := fun _ => "0.0";
     re_engine := fun _ => None;
     re_search_unicode := fun _ _ => false;
     concat_skips_all_na := false |}.

Definition is_space (c : ascii) : bool :=
  let n := nat_of_ascii c in
  ((9 <=? n)%nat && (n <=? 13)%nat) || (n =? 32)%nat.

Fixpoint lstrip (s : string) : string :=
  match s with
  | EmptyString => EmptyString
  | String c s' => if is_space c then lstrip s' else s
  end.

Fixpoint rstrip (s : string) : string :=
  match s with
  | EmptyString => EmptyString
  | String c s' =>
      match rstrip s' with
      | EmptyString => if is_space c then EmptyString else String c EmptyString
      | t => String c t
      end
  end.

(** [s.strip()]. *)
Definition strip (s : string) : string := rstrip (lstrip s).

(** [x if pd.notna(x) else d] and the f-string form of a cell. *)
Definition or_else (x : option string) (d : string) : string :=
  match x with Some s => s | None => d end.

Definition show_cell (x : option string) : string := or_else x "nan".

(** Rows kept by a boolean mask. *)
Fixpoint select_mask {A} (mask : list bool) (xs : list A) : list A :=
  match mask, xs with
  | b :: mask', x :: xs' => if b then x :: select_mask mask' xs' else select_mask mask' xs'
  | _, _ => []
  end.

(** [df[mask]]: a new frame with the selected rows of every column. *)
Definition frame_where (p : Station -> bool) (t : DataFrame) : DataFrame :=
  let mask := map p (df_rows t) in
  mkDataFrame (select_mask mask (df_rows t))
              (map (fun col => (fst col, select_mask mask (snd col))) (df_assigned t)).

(** [df[name] = values] on a frame: replaces the column or appends it. *)
Fixpoint set_column (name : string) (vals : list (option string))
    (cols : list (string * list (option string))) : list (string * list (option string)) :=
  match cols with
  | [] => [(name, vals)]
  | (n, v) :: rest =>
      if String.eqb n name then (n, vals) :: rest else (n, v) :: set_column name vals rest
  end.

Definition with_column (name : string) (vals : list (option string)) (t : DataFrame) : DataFrame :=
  mkDataFrame (df_rows t) (set_column name vals (df_assigned t)).

(** [Series.unique().tolist()]: first occurrences, in order. *)
Fixpoint unique_go (seen xs : list string) : list string :=
  match xs with
  | [] => []
  | x :: rest =>
      if existsb (String.eqb x) seen then unique_go seen rest
      else x :: unique_go (x :: seen) rest
  end.

Definition station_types (rows : list Station) : list string :=
  unique_go [] (map JENIS rows).

(** [df[df["JENIS"] == station_type].copy()]; the radio returns Python
    [None] when it has no option, and no row has that type. *)
Definition get_filtered_data (rows : list Station) (station_type : option string) : list Station :=
  match station_type with
  | Some ty => List.filter (fun r => String.eqb (JENIS r) ty) rows
  | None => []
  end.

(** Position of the first element satisfying [p]. *)
Fixpoint find_index {A} (p : A -> bool) (xs : list A) : option nat :=
  match xs with
  | [] => None
  | x :: rest => if p x then Some O else option_map S (find_index p rest)
  end.

(** [filtered_df["id_station_str"] + " - " + filtered_df["name_station"]]:
    missing where the name is missing. *)
Definition display_name (r : Station) : option string :=
  match name_station (site r) with
  | Some n => Some (id_str (id_station (site r)) ++ " - " ++ n)
  | None => None
  end.

(** ** Session, widgets and script runs *)

Inductive PyVal :=
| PyStr (s : string)
| PyNaN.

Inductive PyExn :=
| AttributeError
| IndexError
| KeyError
| NameError
| TypeError
| ValueError
| ReError.

(** The values the browser side holds for the widgets of the page. *)
Record Widgets := mkWidgets {
  radio_pick : option nat;        (* position chosen in the type radio *)
  selectbox_pick : option nat;    (* position chosen in the site dropdown *)
  last_object_clicked : option (Q * Q);
  use_button : bool;              (* "Use this station in selection" *)
  search_term : string
}.

Record World := mkWorld {
  widgets : Widgets;
  session_state : gmap string PyVal;
  frames : list DataFrame
}.

Inductive Outcome (A : Type) :=
| Returned (a : A)
| Raised (e : PyExn)
| Rerun.
Arguments Returned {A} a.
Arguments Raised {A} e.
Arguments Rerun {A}.

Definition Script (A : Type) : Type := World -> Outcome A * World.

Definition ret {A} (a : A) : Script A := fun w => (Returned a, w).

Definition bind {A B} (m : Script A) (k : A -> Script B) : Script B :=
  fun w =>
    match m w with
    | (Returned a, w') => k a w'
    | (Raised e, w') => (Raised e, w')
    | (Rerun, w') => (Rerun, w')
    end.

Notation "x <- m ;; k" := (bind m (fun x => k))
  (at level 100, m at next level, right associativity).
Notation "m ;;; k" := (bind m (fun _ => k))
  (at level 100, right associativity).

Definition raise {A} (e : PyExn) : Script A := fun w => (Raised e, w).

(** [st.rerun()]. *)
Definition rerun {A} : Script A := fun w => (Rerun, w).

(** A computation that touches nothing of the world. *)
Definition lift {A} (o : Outcome A) : Script A := fun w => (o, w).

(** Reading a local variable: a [NameError] while it is unbound. *)
Definition read_local {A} (x : option A) : Script A :=
  match x with
  | Some a => ret a
  | None => raise NameError
  end.

Definition get_widgets : Script Widgets := fun w => (Returned (widgets w), w).

Definition selected_key : string := "selected_id_station".
Definition dropdown_key : string := "selected_site_dropdown".

(** [st.session_state.<key>]: an [AttributeError] on an absent key. *)
Definition get_state (key : string) : Script PyVal :=
  fun w =>
    match session_state w !! key with
    | Some v => (Returned v, w)
    | None => (Raised AttributeError, w)
    end.

Definition set_state (key : string) (v : PyVal) : Script unit :=
  fun w => (Returned tt, mkWorld (widgets w) (<[key := v]> (session_state w)) (frames w)).

(** A new frame object; its reference is its position on the heap. *)
Definition alloc_frame (t : DataFrame) : Script nat :=
  fun w => (Returned (length (frames w)),
            mkWorld (widgets w) (session_state w) (frames w ++ [t])).

Definition read_frame (ref : nat) : Script DataFrame :=
  fun w =>
    match frames w !! ref with
    | Some t => (Returned t, w)
    | None => (Raised KeyError, w)
    end.

(** [frame[name] = vals] on the object behind [ref]. *)
Definition assign_column (ref : nat) (name : string) (vals : list (option string)) : Script unit :=
  fun w =>
    match frames w !! ref with
    | Some t =>
        (Returned tt,
         mkWorld (widgets w) (session_state w) (<[ref := with_column name vals t]> (frames w)))
    | None => (Raised KeyError, w)
    end.

(** [st.sidebar.radio(label, options)]. *)
Definition radio (options : list string) (pick : option nat) : option string :=
  match pick with
  | Some i => match options !! i with Some o => Some o | None => head options end
  | None => head options
  end.

(** [st.sidebar.selectbox(label, options, index, key)]: the option the
    user chose, or the one at [index] while the widget holds no choice
    among the current options; the value is also stored under [key]. *)
Definition selectbox_value (options : list (option string)) (index : nat)
    (pick : option nat) : option string :=
  match pick with
  | Some i =>
      match options !! i with
      | Some o => o
      | None => mjoin (options !! index)
      end
  | None => mjoin (options !! index)
  end.

Definition py_of_cell (x : option string) : PyVal :=
  match x with Some s => PyStr s | None => PyNaN end.

Definition selectbox (options : list (option string)) (index : nat) : Script (option string) :=
  ui <- get_widgets ;;
  let v := selectbox_value options index (selectbox_pick ui) in
  set_state dropdown_key (py_of_cell v) ;;;
  ret v.

Definition PyVal_eqb (a b : PyVal) : bool :=
  match a, b with
  | PyStr s, PyStr t => String.eqb s t
  | _, _ => false   (* nan != nan, and a str never equals nan *)
  end.

(** ** The blocks of [main] *)

(** [if "selected_id_station" not in st.session_state: ... = "10001"]. *)
Definition init_session_state : Script unit :=
  fun w =>
    match session_state w !! selected_key with
    | None => set_state selected_key (PyStr "10001") w
    | Some _ => (Returned tt, w)
    end.

(** The sidebar dropdown.  Returns the local [selected_id_station],
    which stays unbound ([None]) when the partition is empty. *)
Definition select_site (rows : list Station) (selected_type : option string)
    : Script (option string) :=
  let filtered_df := get_filtered_data rows selected_type in
  let id_station_str := map (fun r => id_str (id_station (site r))) filtered_df in
  let filtered_display_list := map display_name filtered_df in
  selected_id_str <- get_state selected_key ;;
  match filtered_df with
  | [] => ret None
  | _ :: _ =>
      let default_index :=
        match find_index (fun s => PyVal_eqb (PyStr s) selected_id_str) id_station_str with
        | Some i => i
        | None => O          (* except (IndexError, KeyError) *)
        end in
      selected_site_display <- selectbox filtered_display_list default_index ;;
      match selected_site_display with
      | None => raise AttributeError      (* nan has no split *)
      | Some d =>
          let selected_id_station := first_token (split " - " d) in
          current <- get_state selected_key ;;
          (if PyVal_eqb current (PyStr selected_id_station) then ret tt
           else set_state selected_key (PyStr selected_id_station)) ;;;
          ret (Some selected_id_station)
      end
  end.

(** The map click: the nearest station of the whole table is shown, and
    promoted into the selection only when the button is pressed. *)
Definition handle_map_click (rows : list Station) : Script unit :=
  ui <- get_widgets ;;
  clicked_station <-
    match last_object_clicked ui with
    | Some (clicked_lat, clicked_lon) =>
        match nearest rows clicked_lat clicked_lon with
        | Some r => ret (Some r)
        | None => raise ValueError
        end
    | None => ret None
    end ;;
  match clicked_station with
  | Some r =>
      if use_button ui
      then set_state selected_key (PyStr (id_str (id_station (site r)))) ;;; rerun
      else ret tt
  | None => ret tt
  end.

(** [df['id_station'] == selected_id_station] against the stored cell:
    a number never equals a string. *)
Definition id_equals_str (i : IdCell) (s : string) : bool :=
  match i with
  | IdStr t => String.eqb t s
  | IdInt _ => false
  end.

(** [selected_site = df[df['id_station'] == selected_id_station].iloc[0]]. *)
Definition lookup_selected_site (rows : list Station) (selected_id_station : option string)
    : Script Station :=
  match selected_id_station with
  | None => raise NameError
  | Some s =>
      match List.filter (fun r => id_equals_str (id_station (site r)) s) rows with
      | r :: _ => ret r
      | [] => raise IndexError
      end
  end.

Section Scripts.
Context {rt : PyRuntime}.

Definition show_float (x : option Q) : string :=
  match x with Some q => repr_float q | None => "nan" end.

(** *** The dtypes of the loaded table *)

(** Some row of the sheet holds a value in the column. *)
Definition sheet_has {A} (f : SheetRow -> option A) (s : Sheet) : bool :=
  existsb (fun r => notna (f r)) (sheet_rows s).

(** Some row that the loader keeps holds an install date. *)
Definition sheet_keeps_date (s : Sheet) : bool :=
  existsb (fun r => has_coordinates r && notna (tgl_pasang r)) (sheet_rows s).

Definition sheet_is_empty (s : Sheet) : bool :=
  match sheet_rows s with
  | [] => true
  | _ :: _ => false
  end.

(** [tgl_pasang] of a sheet is datetime64 when the sheet holds a date,
    and a column of floats (all NaN) or of objects (no row) otherwise.
    The column of the loaded table is datetime64 when the column of
    every sheet is; pandas before version 3 decides on the frames that
    kept a date alone, when there is one. *)
Definition datetime_typed (wb : Workbook) : bool :=
  forallb (sheet_has tgl_pasang) wb
  || (concat_skips_all_na && existsb sheet_keeps_date wb).

(** A text column of a sheet is a column of floats (all NaN) when the
    sheet has rows and none of them holds a text; the column of the
    loaded table holds floats, and has no [.str], when the column of
    every sheet does. *)
Definition text_typed (f : SheetRow -> option string) (wb : Workbook) : bool :=
  existsb (fun s => sheet_has f s || sheet_is_empty s) wb.

(** The dtypes of the loaded table that the scripts depend on. *)
Record Dtypes := mkDtypes {
  dates_typed : bool;        (* [tgl_pasang] is datetime64: [.dt] is there *)
  names_typed : bool;        (* [name_station] holds text: [.str] is there *)
  provinces_typed : bool;
  cities_typed : bool
}.

Definition loaded_dtypes (wb : Workbook) : Dtypes :=
  mkDtypes (datetime_typed wb) (text_typed name_station wb)
           (text_typed nama_propinsi wb) (text_typed nama_kota wb).

(** The value of [tgl_pasang] in a row of the loaded table. *)
Inductive DateCell :=
| Stamp (t : Timestamp)
| NaT
| NaN.

(** A missing install date is [NaT] in a datetime64 column, and in a
    column of objects when the row comes from a sheet whose column
    was datetime64; it is a float [nan] otherwise. *)
Definition date_cell (wb : Workbook) (r : Station) : DateCell :=
  match tgl_pasang (site r) with
  | Some t => Stamp t
  | None =>
      if datetime_typed wb
         || existsb (fun s => String.eqb (sheet_name s) (JENIS r) && sheet_has tgl_pasang s) wb
      then NaT else NaN
  end.

(** The two markdown columns of the detail panel, as labelled values
    in the order the f-strings evaluate them.  [date] is the cell
    [selected_site['tgl_pasang']]; [phone] is the text of the phone
    line, which the two scripts compute differently. *)
Definition render_detail_panel (date : DateCell) (phone : string) (r : Station)
    : Script (list (string * string)) :=
  let s := site r in
  let col1 :=
    [ ("Station ID", id_str (id_station s));
      ("Station Name", show_cell (name_station s));
      ("Data Transport Type", or_else (data_transport s) "N/A");
      ("Province", show_cell (nama_propinsi s));
      ("District", show_cell (nama_kota s));
      ("Sub-district", show_cell (kecamatan s));
      ("Village", show_cell (kelurahan s)) ] in
  match date with
  | NaT => raise ValueError             (* NaT does not support strftime *)
  | NaN => raise AttributeError         (* a float has no strftime *)
  | Stamp t =>
      ret (app col1
           [ ("Latitude", show_float (latt_station s));
             ("Longitude", show_float (long_station s));
             ("Elevation", show_float (elv_station s));
             ("Agency", or_else (instansi s) "");
             ("Procurement Date", strftime_mdY t);
             ("Vendor", show_cell (nama_vendor s));
             ("Officer Phone Number", phone);
             ("Address", or_else (addr_instansi s) "N/A") ])
  end.

(** [phone_str] of [Peta-Selection.py]; the other script prints the cell. *)
Definition phone_str (r : Station) : string :=
  match hp_petugas (site r) with
  | Some p => strip p
  | None => "N/A"
  end.

Definition phone_v4 (r : Station) : string := show_cell (hp_petugas (site r)).

(** [re.compile(term, re.IGNORECASE).search]. *)
Definition re_search_ignorecase (term : string) : option (string -> bool) :=
  match (if is_ascii term then simple_pattern term else None) with
  | Some atoms =>
      Some (fun s => if is_ascii s then search_atoms atoms s else re_search_unicode term s)
  | None => re_engine term
  end.

(** [col.str.contains(term, case=False, na=False)] on one cell. *)
Definition str_contains (m : string -> bool) (cell : option string) : bool :=
  match cell with Some s => m s | None => false end.

Definition search_mask (m : string -> bool) (r : Station) : bool :=
  str_contains m (name_station (site r))
  || str_contains m (nama_propinsi (site r))
  || str_contains m (nama_kota (site r)).

(** The mask of the search: [.str] of the names (an [AttributeError]
    on a column of floats), the term compiled by the first
    [contains], then [.str] of the provinces and of the districts. *)
Definition contains_mask (dt : Dtypes) (term : string) : Outcome (Station -> bool) :=
  if names_typed dt then
    match re_search_ignorecase term with
    | Some m =>
        if provinces_typed dt && cities_typed dt then Returned (search_mask m)
        else Raised AttributeError
    | None => Raised ReError
    end
  else Raised AttributeError.

(** The rows of [search_df]. *)
Definition search (dt : Dtypes) (rows : list Station) (term : string)
    : Outcome (list Station) :=
  match term with
  | EmptyString => Returned rows
  | _ =>
      match contains_mask dt term with
      | Returned m => Returned (List.filter m rows)
      | Raised e => Raised e
      | Rerun => Rerun
      end
  end.

(** [sort_values('id_station')] compares the ids with one another: a
    [TypeError] when numbers and texts meet. *)
Definition mixed_ids (rows : list Station) : bool :=
  existsb (fun r => match id_station (site r) with IdInt _ => true | IdStr _ => false end) rows
  && existsb (fun r => match id_station (site r) with IdInt _ => false | IdStr _ => true end) rows.

(** The directory tab: [search_df] is the table itself for an empty
    term and a new frame otherwise; then
    [search_df['tgl_pasang_str'] = search_df['tgl_pasang'].dt.strftime(..)],
    where [.dt] raises [AttributeError] unless the column is
    datetime64; then the table shown is sorted by id.  The table shown
    and the CSV export only read [search_df]. *)
Definition directory (dt : Dtypes) (df : nat) : Script nat :=
  ui <- get_widgets ;;
  t <- read_frame df ;;
  search_df <-
    match search_term ui with
    | EmptyString => ret df
    | term =>
        m <- lift (contains_mask dt term) ;;
        alloc_frame (frame_where m t)
    end ;;
  s <- read_frame search_df ;;
  (if dates_typed dt then ret tt else raise AttributeError) ;;;
  assign_column search_df "tgl_pasang_str"
    (map (fun r => option_map strftime_dmY (tgl_pasang (site r))) (df_rows s)) ;;;
  (if mixed_ids (df_rows s) then raise TypeError else ret tt) ;;;
  ret search_df.

Definition frame_rows (df : nat) : Script (list Station) :=
  t <- read_frame df ;; ret (df_rows t).

(** [main] of [Peta-Selection.py].  [st.cache_data] hands every run
    its own copy of the loaded table. *)
Definition main (wb : Workbook) : Script unit :=
  match load_site_metadata wb with
  | None => ret tt
  | Some table =>
      df <- alloc_frame table ;;
      init_session_state ;;;
      ui <- get_widgets ;;
      rows <- frame_rows df ;;
      let selected_type := radio (station_types rows) (radio_pick ui) in
      selected_id_station <- select_site rows selected_type ;;
      handle_map_click rows ;;;
      selected_site <- lookup_selected_site rows selected_id_station ;;
      render_detail_panel (date_cell wb selected_site) (phone_str selected_site)
        selected_site ;;;
      directory (loaded_dtypes wb) df ;;;
      ret tt
  end.

(** [main] of [Peta-Selection-v4.py]: the map is drawn for the local
    [selected_id_station], and the directory comes before the detail
    panel. *)
Definition main_v4 (wb : Workbook) : Script unit :=
  match load_site_metadata wb with
  | None => ret tt
  | Some table =>
      df <- alloc_frame table ;;
      init_session_state ;;;
      ui <- get_widgets ;;
      rows <- frame_rows df ;;
      let selected_type := radio (station_types rows) (radio_pick ui) in
      selected_id_station <- select_site rows selected_type ;;
      read_local selected_id_station ;;;
      handle_map_click rows ;;;
      directory (loaded_dtypes wb) df ;;;
      rows' <- frame_rows df ;;
      selected_site <- lookup_selected_site rows' selected_id_station ;;
      render_detail_panel (date_cell wb selected_site) (phone_v4 selected_site)
        selected_site ;;;
      ret tt
  end.

(** ** The session as a state machine *)

Inductive Event :=
| ChooseType (i : nat)
| ChooseSite (i : nat)
| ClickMap (lat lon : Q)
| PressUseStation
| TypeSearch (term : string).

(** What an interaction does to the widget values.  A new station
    type gives the dropdown a new option list, so its stored choice
    is dropped. *)
Definition apply_event (e : Event) (ui : Widgets) : Widgets :=
  match e with
  | ChooseType i =>
      mkWidgets (Some i) None (last_object_clicked ui) false (search_term ui)
  | ChooseSite i =>
      mkWidgets (radio_pick ui) (Some i) (last_object_clicked ui) false (search_term ui)
  | ClickMap lat lon =>
      mkWidgets (radio_pick ui) (selectbox_pick ui) (Some (lat, lon)) false (search_term ui)
  | PressUseStation =>
      mkWidgets (radio_pick ui) (selectbox_pick ui) (last_object_clicked ui) true (search_term ui)
  | TypeSearch term =>
      mkWidgets (radio_pick ui) (selectbox_pick ui) (last_object_clicked ui) false term
  end.

Definition with_widgets (ui : Widgets) (w : World) : World :=
  mkWorld ui (session_state w) (frames w).

(** A button is pressed for one run only. *)
Definition release_button (w : World) : World :=
  with_widgets
    (mkWidgets (radio_pick (widgets w)) (selectbox_pick (widgets w))
               (last_object_clicked (widgets w)) false (search_term (widgets w))) w.

(** One refresh: the script runs, and runs once more when it asked
    for a rerun. *)
Definition refresh (script : Script unit) (w : World) : World :=
  match script w with
  | (Rerun, w') => snd (script (release_button w'))
  | (_, w') => release_button w'
  end.

Definition interact (script : Script unit) (e : Event) (w : World) : World :=
  refresh script (with_widgets (apply_event e (widgets w)) w).

Definition initial_world : World :=
  mkWorld (mkWidgets None None None false "") ∅ [].

(** The worlds a session can be in, whatever the workbook is at each
    refresh and whichever of the two scripts serves the page. *)
Inductive reachable : World -> Prop :=
| reach_open wb :
    reachable (refresh (main wb) initial_world)
| reach_open_v4 wb :
    reachable (refresh (main_v4 wb) initial_world)
| reach_event wb e w :
    reachable w -> reachable (interact (main wb) e w)
| reach_event_v4 wb e w :
    reachable w -> reachable (interact (main_v4 wb) e w).
End Scripts.

(** Whatever is stored as the selected id is a Python [str]. *)
Definition selected_is_str (w : World) : Prop :=
  forall v, session_state w !! selected_key = Some v -> exists s, v = PyStr s.

(** The selected id of a world, when it is a string. *)
Definition selected_id (w : World) : option string :=
  match session_state w !! selected_key with
  | Some (PyStr s) => Some s
  | _ => None
  end.

(** ** Notions used to state the properties *)

(** The separator of display names does not reach into the id: [" - "]
    does not occur in the id followed by [" -"]. *)
Definition separator_free (s : string) : bool :=
  negb (contains_sub " - " (s ++ " -")).

(** [s.endswith(suf)]. *)
Fixpoint ends_with (suf s : string) : bool :=
  String.eqb s suf ||
  match s with
  | EmptyString => false
  | String _ s' => ends_with suf s'
  end.

(** Stated from the specification: the squared Euclidean distance
    [(lat - lat_i)^2 + (lon - lon_i)^2] of a click from a point. *)
Definition euclid_sq (lat lon a b : Q) : Q := ((lat - a) ^ 2 + (lon - b) ^ 2)%Q.

(** A double, read as the rational it denotes. *)
Definition f64_is (x : F64) (q : Q) : Prop :=
  match x with
  | Num v => (v == q)%Q
  | Inf => False
  end.

Definition f64_le (x y : F64) : Prop := f64_leb x y = true.
Definition f64_lt (x y : F64) : Prop := f64_leb y x = false.



(** Stated from the specification: the cell holds the term as a
    case-insensitive substring. *)
Definition contains_ci (term : string) (cell : option string) : bool :=
  match cell with
  | Some s => contains_sub (lower term) (lower s)
  | None => false
  end.


(** The record the dropdown falls on when it holds no choice: the first
    record of the partition whose id is the selected one, and the first
    record of the partition when there is none. *)
Definition landing_record (partition : list Station) (x : string) : option Station :=
  match List.find (fun r => String.eqb (id_str (id_station (site r))) x) partition with
  | Some r => Some r
  | None => head partition
  end.

(** The station type shown after a refresh in world [w]. *)
Definition active_type (rows : list Station) (w : World) : option string :=
  radio (station_types rows) (radio_pick (widgets w)).

(** A script relates every world to the world it leaves behind. *)
Definition preserves {A} (R : World -> World -> Prop) (m : Script A) : Prop :=
  forall w, R w (snd (m w)).

(** Nothing of the session or of the widgets changes. *)
Definition same_session (w w' : World) : Prop :=
  session_state w' = session_state w /\ widgets w' = widgets w.

(** A script that never asks for a rerun. *)
Definition never_reruns {A} (m : Script A) : Prop :=
  forall w, fst (m w) <> Rerun.

(** While the button is not pressed, the script asks for no rerun and
    changes nothing of the session or of the widgets. *)
Definition calm {A} (m : Script A) : Prop :=
  forall w, use_button (widgets w) = false ->
    fst (m w) <> Rerun /\ same_session w (snd (m w)).

(** The widget values are those of the browser side. *)
Definition same_widgets (w w' : World) : Prop := widgets w' = widgets w.

(** The selected id stays a string. *)
Definition keeps_str (w w' : World) : Prop :=
  selected_is_str w -> selected_is_str w'.

#[global] Instance same_session_refl : Reflexive same_session.
Proof. intros w. split; reflexivity. Qed.

#[global] Instance same_session_trans : Transitive same_session.
Proof. intros a b c [H1 H2] [H3 H4]. split; congruence. Qed.

#[global] Instance same_widgets_refl : Reflexive same_widgets.
Proof. intros w. reflexivity. Qed.

#[global] Instance same_widgets_trans : Transitive same_widgets.
Proof. intros a b c H1 H2. unfold same_widgets in *. congruence. Qed.

#[global] Instance keeps_str_refl : Reflexive keeps_str.
Proof. intros w H. exact H. Qed.

#[global] Instance keeps_str_trans : Transitive keeps_str.
Proof. intros a b c H1 H2 H. auto. Qed.

(** ** Sample data *)

Definition sample_row (i : IdCell) (name prov kota : option string)
    (lat lon : option Q) (date : option Timestamp) : SheetRow :=
  mkSheetRow i name prov kota None None lat lon None None None date None None None None.

(** The two sheets of the loader example. *)
Definition sheet_AWS : Sheet :=
  mkSheet "AWS" base_columns
    [ sample_row (IdInt 1) (Some "Serang") (Some "Banten") (Some "Serang")
        (Some (-2 # 1)) (Some (110 # 1)) (Some (mkTimestamp 2020 3 7));
      sample_row (IdInt 2) (Some "Tuban") (Some "Jawa Timur") (Some "Tuban")
        None (Some (112 # 1)) None ].

Definition sheet_ARG : Sheet :=
  mkSheet "ARG" base_columns
    [ sample_row (IdInt 1) (Some "Medan") (Some "Sumatera Utara") (Some "Medan")
        (Some (3 # 1)) (Some (98 # 1)) None ].

Definition sample_workbook : Workbook := [sheet_AWS; sheet_ARG].

(** A workbook whose ids are texts.  The third id of the first sheet
    does not read as a number, which keeps the ids of the sheet as
    texts; its row has no coordinates. *)
Definition sheet_text_AWS : Sheet :=
  mkSheet "AWS" base_columns
    [ sample_row (IdStr "10001") (Some "Kemayoran") (Some "DKI Jakarta") (Some "Jakarta Pusat")
        (Some (-6 # 1)) (Some (107 # 1)) (Some (mkTimestamp 2019 11 5));
      sample_row (IdStr "10002") (Some "Citeko") (Some "Jawa Barat") (Some "Bogor")
        (Some (-7 # 1)) (Some (107 # 1)) None;
      sample_row (IdStr "AWS-X") (Some "Cadangan") (Some "Jawa Barat") (Some "Bogor")
        None None None ].

Definition sheet_text_ARG : Sheet :=
  mkSheet "ARG" base_columns
    [ sample_row (IdStr "RG - 7") (Some "Sampali") (Some "Sumatera Utara") (Some "Deli Serdang")
        (Some (3 # 1)) (Some (98 # 1)) (Some (mkTimestamp 2021 1 20)) ].

Definition text_workbook : Workbook := [sheet_text_AWS; sheet_text_ARG].

(** The rain gauge of [text_workbook], as a row of the unified table. *)
Definition station_RG7 : Station :=
  mkStation
    (sample_row (IdStr "RG - 7") (Some "Sampali") (Some "Sumatera Utara") (Some "Deli Serdang")
       (Some (3 # 1)) (Some (98 # 1)) (Some (mkTimestamp 2021 1 20))) "ARG".

Definition sample_rows : list Station :=
  match load_site_metadata sample_workbook with
  | Some t => df_rows t
  | None => []
  end.

Definition text_rows : list Station :=
  match load_site_metadata text_workbook with
  | Some t => df_rows t
  | None => []
  end.

(** A session in which only the default id has been stored. *)
Definition fresh_session : World := snd (init_session_state initial_world).

(** The session after [Peta-Selection.py] first served [text_workbook]. *)
Definition opened_text_session : World :=
  refresh (@main runtime0 text_workbook) initial_world.

(** ** Further notions for the properties of whole runs *)

(** The heap of frames is left as it is. *)
Definition same_frames (w w' : World) : Prop := frames w' = frames w.

#[global] Instance same_frames_refl : Reflexive same_frames.
Proof. intros w. reflexivity. Qed.

#[global] Instance same_frames_trans : Transitive same_frames.
Proof. intros a b c H1 H2. unfold same_frames in *. congruence. Qed.

(** The frame behind [df] holds the rows [rows]. *)
Definition holds_rows (df : nat) (rows : list Station) (w : World) : Prop :=
  exists t, frames w !! df = Some t /\ df_rows t = rows.

Definition keeps_rows (df : nat) (rows : list Station) (w w' : World) : Prop :=
  holds_rows df rows w -> holds_rows df rows w'.

#[global] Instance keeps_rows_refl df rows : Reflexive (keeps_rows df rows).
Proof. intros w H. exact H. Qed.

#[global] Instance keeps_rows_trans df rows : Transitive (keeps_rows df rows).
Proof. intros a b c H1 H2 H. auto. Qed.

(** The session entry under [key] is left as it is. *)
Definition same_entry (key : string) (w w' : World) : Prop :=
  session_state w' !! key = session_state w !! key.

#[global] Instance same_entry_refl key : Reflexive (same_entry key).
Proof. intros w. reflexivity. Qed.

#[global] Instance same_entry_trans key : Transitive (same_entry key).
Proof. intros a b c H1 H2. unfold same_entry in *. congruence. Qed.

(** A workbook none of whose rows has both coordinates. *)
Definition sheet_without_coordinates : Sheet :=
  mkSheet "AWS" base_columns
    [ sample_row (IdInt 10001) (Some "Kemayoran") (Some "DKI Jakarta") (Some "Jakarta Pusat")
        None (Some (107 # 1)) (Some (mkTimestamp 2019 11 5));
      sample_row (IdInt 10002) (Some "Citeko") (Some "Jawa Barat") (Some "Bogor")
        (Some (-7 # 1)) None None ].

Definition workbook_without_coordinates : Workbook := [sheet_without_coordinates].

(** The first station of [text_workbook], as a row of the unified table. *)
Definition station_10001 : Station :=
  mkStation
    (sample_row (IdStr "10001") (Some "Kemayoran") (Some "DKI Jakarta") (Some "Jakarta Pusat")
       (Some (-6 # 1)) (Some (107 # 1)) (Some (mkTimestamp 2019 11 5))) "AWS".

(** The session of [opened_text_session] after a click on the rain gauge. *)
Definition clicked_text_session : World :=
  interact (@main runtime0 text_workbook) (ClickMap (3 # 1) (98 # 1)) opened_text_session.

(** A workbook with every cell filled but one install date.  Its ids
    are texts that [xls.parse] returns as stored, and every sheet holds
    a date. *)
Definition full_row (i : IdCell) (name prov kota : string) (lat lon : Q)
    (date : option Timestamp) : SheetRow :=
  mkSheetRow i (Some name) (Some prov) (Some kota) (Some "Kecamatan") (Some "Kelurahan")
    (Some lat) (Some lon) (Some (51 # 2)) (Some "ON") (Some "0812-555-0101") date
    (Some "Jl. Angkasa I No. 2") (Some "GSM") (Some "BMKG") (Some "Vaisala").

Definition sheet_coded_AWS : Sheet :=
  mkSheet "AWS" base_columns
    [ full_row (IdStr "AWS-01") "Kemayoran" "DKI Jakarta" "Jakarta Pusat"
        (-25 # 4) (427 # 4) (Some (mkTimestamp 2019 11 5));
      full_row (IdStr "AWS-02") "Citeko" "Jawa Barat" "Bogor"
        (-27 # 4) (427 # 4) None ].

Definition sheet_coded_ARG : Sheet :=
  mkSheet "ARG" base_columns
    [ full_row (IdStr "RG - 7") "Sampali" "Sumatera Utara" "Deli Serdang"
        (7 # 2) (197 # 2) (Some (mkTimestamp 2021 1 20)) ].

Definition coded_workbook : Workbook := [sheet_coded_AWS; sheet_coded_ARG].

Definition coded_rows : list Station :=
  match load_site_metadata coded_workbook with
  | Some t => df_rows t
  | None => []
  end.

(** Two stations north of the click at the origin, the first one
    [2 ^ -30] of a degree to the east as well. *)
Definition rounding_rows : list Station :=
  [ mkStation (sample_row (IdInt 1) (Some "Timur") None None
                 (Some (1 # 1)) (Some (1 # 1073741824)) None) "AWS";
    mkStation (sample_row (IdInt 2) (Some "Utara") None None
                 (Some (1 # 1)) (Some (0 # 1)) None) "AWS" ].

(** ** Presentation: maps, sidebar summary and metrics *)

(** [str(x)] of a session value. *)
Definition py_str (v : PyVal) : string :=
  match v with
  | PyStr s => s
  | PyNaN => "nan"
  end.

(** A marker of a folium map. *)
Record Marker := mkMarker {
  marker_location : Q * Q;
  marker_color : string;
  marker_icon : string;
  marker_tooltip : string;
  marker_popup : list (string * string)
}.

(** [location=[lat, lon]]: folium refuses a NaN ([ValueError]). *)
Definition location_of (r : Station) : option (Q * Q) :=
  match latt_station (site r), long_station (site r) with
  | Some a, Some b => Some (a, b)
  | _, _ => None
  end.

(** The marker style of [create_selective_map]: the selected id wins
    over the station type, and a station that is neither is skipped. *)
Definition marker_style (selected_station_type : option string) (selected_id_str : string)
    (r : Station) : option (string * string) :=
  if String.eqb (id_str (id_station (site r))) selected_id_str then Some ("red", "star")
  else if match selected_station_type with
          | Some ty => String.eqb (JENIS r) ty
          | None => false
          end
       then Some ("blue", "info-sign")
       else None.

(** [install_date] of [create_selective_map]. *)
Definition install_date_text (r : Station) : string :=
  match tgl_pasang (site r) with
  | Some t => strftime_mdY t
  | None => "N/A"
  end.

(** [f"{name} (ID: {id})"]. *)
Definition tooltip_text (r : Station) : string :=
  show_cell (name_station (site r)) ++ " (ID: " ++ id_str (id_station (site r)) ++ ")".

(** Lexicographic order of dates. *)
Definition ts_leb (a b : Timestamp) : bool :=
  if (ts_year a <? ts_year b)%nat then true
  else if (ts_year b <? ts_year a)%nat then false
  else if (ts_month a <? ts_month b)%nat then true
  else if (ts_month b <? ts_month a)%nat then false
  else (ts_day a <=? ts_day b)%nat.

(** [Series.min()] of a date column: missing dates skipped, [None]
    (NaT) when there is no date. *)
Fixpoint earliest (ds : list (option Timestamp)) : option Timestamp :=
  match ds with
  | [] => None
  | d :: rest =>
      match d, earliest rest with
      | Some a, Some b => Some (if ts_leb a b then a else b)
      | Some a, None => Some a
      | None, m => m
      end
  end.

(** The "Active Since" metric of [Peta-Selection.py]. *)
Definition active_since (rows : list Station) : string :=
  match earliest (map (fun r => tgl_pasang (site r)) rows) with
  | Some t => strftime_dmY t
  | None => "N/A"
  end.

(** [Series.max()] and [Series.min()] of a float column: missing
    values skipped, [None] (NaN) when there is no value. *)
Fixpoint col_max (xs : list (option Q)) : option Q :=
  match xs with
  | [] => None
  | x :: rest =>
      match x, col_max rest with
      | Some a, Some b => Some (if Qle_bool b a then a else b)
      | Some a, None => Some a
      | None, m => m
      end
  end.

Fixpoint col_min (xs : list (option Q)) : option Q :=
  match xs with
  | [] => None
  | x :: rest =>
      match x, col_min rest with
      | Some a, Some b => Some (if Qle_bool a b then a else b)
      | Some a, None => Some a
      | None, m => m
      end
  end.

(** The values of the "Geographic Coverage" box: northernmost,
    southernmost, easternmost, westernmost. *)
Definition geographic_coverage (rows : list Station)
    : option Q * option Q * option Q * option Q :=
  (col_max (map (fun r => latt_station (site r)) rows),
   col_min (map (fun r => latt_station (site r)) rows),
   col_max (map (fun r => long_station (site r)) rows),
   col_min (map (fun r => long_station (site r)) rows)).

(** [type_icons] of [Peta-Selection.py]. *)
Definition type_icons : list (string * string) :=
  [ ("AAWS", "🌾"); ("AWS", "🌦️"); ("ARG", "🌧️"); ("ASRS", "☀️"); ("IKRO", "🌱") ].

(** [type_icons.get(station_type, "📡")]. *)
Definition type_icon (station_type : string) : string :=
  match List.find (fun kv => String.eqb (fst kv) station_type) type_icons with
  | Some (_, icon) => icon
  | None => "📡"
  end.

(** Number of rows of a station type. *)
Definition count_type (rows : list Station) (ty : string) : nat :=
  length (List.filter (fun r => String.eqb (JENIS r) ty) rows).

(** [df['JENIS'].value_counts().sort_index()]: the station types in
    ascending order, each with its number of rows. *)
Definition type_counts (rows : list Station) : list (string * nat) :=
  map (fun ty => (ty, count_type rows ty)) (merge_sort String.le (station_types rows)).

(** The lines of the sidebar summary:
    [f"{icon} **{station_type}**: {count} sites"]. *)
Definition type_summary (rows : list Station) : list string :=
  map (fun tc => type_icon (fst tc) ++ " **" ++ fst tc ++ "**: "
                 ++ NilZero.string_of_uint (Nat.to_uint (snd tc)) ++ " sites")
      (type_counts rows).

(** [hex_palette * k]. *)
Definition repeat_list {A} (k : nat) (xs : list A) : list A :=
  List.concat (replicate k xs).

(** [sorted(filtered_df['nama_propinsi'].dropna().unique())]. *)
Definition provinces_of (filtered_df : list Station) : list string :=
  merge_sort String.le (unique_go [] (omap (fun r => nama_propinsi (site r)) filtered_df)).

(** The rows of a province, in table order (one group of the groupby). *)
Definition province_group (filtered_df : list Station) (province : string) : list Station :=
  List.filter (fun r => match nama_propinsi (site r) with
                        | Some p => String.eqb p province
                        | None => false
                        end) filtered_df.

(** [province_hex]: the dict comprehension over [enumerate(provinces)],
    entry after entry from position [i] on; [None] stands for the
    [IndexError] of [color_pool[i]]. *)
Fixpoint province_hex_from (color_pool : list string) (i : nat) (provinces : list string)
    (acc : gmap string string) : option (gmap string string) :=
  match provinces with
  | [] => Some acc
  | p :: rest =>
      match color_pool !! i with
      | Some c => province_hex_from color_pool (S i) rest (<[p := c]> acc)
      | None => None
      end
  end.

Section Maps.
(** [f"{x:.3f}"] of a float is taken from the runtime. *)
Variable format_3f : Q -> string.

Definition show_3f (x : option Q) : string :=
  match x with Some q => format_3f q | None => "nan" end.

(** The popup of [create_selective_map] in [Peta-Selection.py], as
    labelled values.  [site.get(key, 'N/A')] finds every key, so a
    missing cell prints as [nan]. *)
Definition selective_popup (r : Station) : list (string * string) :=
  [ ("Name", show_cell (name_station (site r)));
    ("Site ID", id_str (id_station (site r)));
    ("Province", show_cell (nama_propinsi (site r)));
    ("District", show_cell (nama_kota (site r)));
    ("Coordinates", show_3f (latt_station (site r)) ++ ", " ++ show_3f (long_station (site r)));
    ("Elevation", show_3f (elv_station (site r)) ++ " m ");
    ("Installation Year", install_date_text r);
    ("Equipment", show_cell (nama_vendor (site r)));
    ("Address", show_cell (addr_instansi (site r))) ].

(** [create_selective_map] of [Peta-Selection.py]: the markers added
    to the map, in table order; [None] stands for the [ValueError] of
    a marker without coordinates. *)
Fixpoint create_selective_map (rows : list Station) (selected_station_type : option string)
    (selected_id_station : PyVal) : option (list Marker) :=
  match rows with
  | [] => Some []
  | r :: rest =>
      match marker_style selected_station_type (py_str selected_id_station) r with
      | None => create_selective_map rest selected_station_type selected_id_station
      | Some (color, icon) =>
          match location_of r with
          | None => None
          | Some loc =>
              option_map
                (cons (mkMarker loc color icon (tooltip_text r) (selective_popup r)))
                (create_selective_map rest selected_station_type selected_id_station)
          end
      end
  end.

(** The popup of [create_clustered_map]: vendor and address are
    guarded by [pd.notna]. *)
Definition clustered_popup (r : Station) : list (string * string) :=
  [ ("Name", show_cell (name_station (site r)));
    ("Site ID", id_str (id_station (site r)));
    ("Province", show_cell (nama_propinsi (site r)));
    ("District", show_cell (nama_kota (site r)));
    ("Coordinates", show_3f (latt_station (site r)) ++ ", " ++ show_3f (long_station (site r)));
    ("Elevation", show_3f (elv_station (site r)) ++ " m ");
    ("Installation Year", install_date_text r);
    ("Equipment", or_else (nama_vendor (site r)) "N/A");
    ("Address", or_else (addr_instansi (site r)) "N/A") ].

(** The circle markers of one province group. *)
Fixpoint cluster_markers (color : string) (group : list Station) : option (list Marker) :=
  match group with
  | [] => Some []
  | r :: rest =>
      match location_of r with
      | None => None
      | Some loc =>
          option_map (cons (mkMarker loc color "" (tooltip_text r) (clustered_popup r)))
                     (cluster_markers color rest)
      end
  end.

(** The feature groups of the loop over [grouped]: name, colour and
    markers of each province, in ascending order of the provinces. *)
Fixpoint clusters_of (province_hex : gmap string string) (filtered_df : list Station)
    (provinces : list string) : option (list (string * string * list Marker)) :=
  match provinces with
  | [] => Some []
  | p :: rest =>
      match province_hex !! p with
      | None => None                                   (* KeyError *)
      | Some color =>
          match cluster_markers color (province_group filtered_df p),
                clusters_of province_hex filtered_df rest with
          | Some ms, Some cs => Some ((p, color, ms) :: cs)
          | _, _ => None
          end
      end
  end.

(** [create_clustered_map] of [Peta-Selection.py].  [hex_palette] is
    plotly's [px.colors.qualitative.Alphabet]; [None] stands for an
    exception ([ZeroDivisionError] on an empty palette, [IndexError],
    [KeyError], [ValueError]). *)
Definition create_clustered_map (hex_palette : list string) (rows : list Station)
    (selected_station_type : option string) : option (list (string * string * list Marker)) :=
  let filtered_df := get_filtered_data rows selected_station_type in
  let provinces := provinces_of filtered_df in
  match hex_palette with
  | [] => None
  | _ :: _ =>
      let color_pool :=
        repeat_list (length provinces / length hex_palette + 1) hex_palette in
      match province_hex_from color_pool 0 provinces ∅ with
      | None => None
      | Some province_hex => clusters_of province_hex filtered_df provinces
      end
  end.
End Maps.

(** Sample palette and formatter for the maps. *)
Definition sample_palette : list string := ["#AA0DFE"; "#3283FE"; "#85660D"].

Definition sample_format_3f (q : Q) : string := "0.000".

(* ------------------------------------------------------------------ *)
(** * Properties *)

Lemma has_column_In s c : has_column s c = true <-> In c (sheet_columns s).
Proof.
  unfold has_column. rewrite existsb_exists. split.
  - intros (x & Hx & Heq). apply String.eqb_eq in Heq. now subst.
  - intros H. exists c. split; [assumption | apply String.eqb_refl].
Qed.

Lemma project_well_formed s :
  well_formed_sheet s -> project s = Some (sheet_rows s).
Proof.
  intros Hwf. unfold project.
  replace (forallb (has_column s) base_columns) with true; [reflexivity |].
  symmetry. apply forallb_forall. intros c Hc. apply has_column_In, Hwf, Hc.
Qed.

(** ** The loader *)

Lemma sheet_frames_well_formed wb :
  Forall well_formed_sheet wb ->
  sheet_frames wb =
  Some (map (fun s => assign_JENIS (sheet_name s) (dropna_coords (sheet_rows s))) wb).
Proof.
  induction 1 as [| s rest Hs _ IH]; simpl; [reflexivity |].
  unfold sheet_frame. rewrite (project_well_formed s Hs), IH. reflexivity.
Qed.

Lemma has_coordinates_spec r :
  has_coordinates r = true <-> latt_station r <> None /\ long_station r <> None.
Proof.
  unfold has_coordinates.
  destruct (latt_station r), (long_station r); simpl; split;
    intros H; try discriminate; try (split; discriminate); auto;
    destruct H as [H1 H2]; congruence.
Qed.

Lemma count_valid_filter rows :
  count_valid rows = length (dropna_coords rows).
Proof.
  induction rows as [| r rest IH]; simpl; [reflexivity |].
  unfold has_coordinates.
  destruct (latt_station r), (long_station r); simpl; rewrite IH; reflexivity.
Qed.

Lemma length_assign_JENIS name rows :
  length (assign_JENIS name rows) = length rows.
Proof. unfold assign_JENIS. apply length_map. Qed.

Lemma load_rows_well_formed wb :
  wb <> [] -> Forall well_formed_sheet wb ->
  load_site_metadata wb =
  Some (mkDataFrame
          (List.concat (map (fun s => assign_JENIS (sheet_name s)
                                        (dropna_coords (sheet_rows s))) wb)) []).
Proof.
  intros Hne Hwf. unfold load_site_metadata.
  rewrite (sheet_frames_well_formed wb Hwf).
  destruct wb as [| s rest]; [congruence | reflexivity].
Qed.

(** The loader fails only on a workbook without sheets or with a sheet
    that lacks one of the projected columns. *)
Lemma load_fails_iff wb :
  load_site_metadata wb = None <-> wb = [] \/ ~ Forall well_formed_sheet wb.
Proof.
  split.
  - intros Hload.
    destruct wb as [| s rest]; [left; reflexivity | right].
    intros Hwf. rewrite load_rows_well_formed in Hload by (auto; discriminate).
    discriminate.
  - intros [-> | Hbad]; [reflexivity |].
    unfold load_site_metadata.
    destruct (sheet_frames wb) as [fs |] eqn:E; [| reflexivity].
    exfalso. apply Hbad. clear Hbad.
    revert fs E. induction wb as [| s rest IH]; intros fs E; [constructor |].
    simpl in E.
    destruct (sheet_frame s) as [f |] eqn:Es; [| discriminate].
    destruct (sheet_frames rest) as [fs' |] eqn:Er; [| discriminate].
    constructor; [| eapply IH; reflexivity].
    unfold sheet_frame, project in Es.
    destruct (forallb (has_column s) base_columns) eqn:Ef; [| discriminate].
    intros c Hc. apply has_column_In.
    rewrite forallb_forall in Ef. apply Ef, Hc.
Qed.

Lemma forallb_false_witness {A} (p : A -> bool) (xs : list A) :
  forallb p xs = false -> exists x, In x xs /\ p x = false.
Proof.
  induction xs as [| x xs IH]; simpl; [discriminate |].
  destruct (p x) eqn:E; simpl.
  - intros H. destruct (IH H) as (y & Hy & Hp). exists y. auto.
  - intros _. exists x. auto.
Qed.

Lemma project_None s :
  project s = None <-> exists c, In c base_columns /\ ~ In c (sheet_columns s).
Proof.
  unfold project. split.
  - destruct (forallb (has_column s) base_columns) eqn:E; [discriminate |].
    intros _. destruct (forallb_false_witness _ _ E) as (c & Hc & Hp).
    exists c. split; [exact Hc |]. intros Hin. apply has_column_In in Hin. congruence.
  - intros (c & Hc & Hn).
    destruct (forallb (has_column s) base_columns) eqn:E; [| reflexivity].
    exfalso. apply Hn, has_column_In. rewrite forallb_forall in E. apply E, Hc.
Qed.

Lemma sheet_frames_None wb :
  sheet_frames wb = None <->
  exists s c, In s wb /\ In c base_columns /\ ~ In c (sheet_columns s).
Proof.
  induction wb as [| s rest IH]; simpl.
  - split; [discriminate | intros (s & c & [] & _)].
  - unfold sheet_frame at 1. destruct (project s) as [rows |] eqn:Ep.
    + destruct (sheet_frames rest) as [fs |].
      * split; [discriminate |]. intros (s' & c & [<- | Hin] & Hc & Hn).
        -- assert (project s = None) by (apply project_None; exists c; auto). congruence.
        -- assert (H : Some fs = None) by (apply IH; exists s', c; auto).
           discriminate H.
      * split; [| reflexivity]. intros _.
        destruct (proj1 IH eq_refl) as (s' & c & Hin & Hc & Hn). exists s', c. auto.
    + split; [| reflexivity]. intros _.
      apply project_None in Ep as (c & Hc & Hn). exists s, c. auto.
Qed.

Lemma sheet_frames_Some wb fs :
  sheet_frames wb = Some fs ->
  fs = map (fun s => assign_JENIS (sheet_name s) (dropna_coords (sheet_rows s))) wb.
Proof.
  revert fs. induction wb as [| s rest IH]; simpl; intros fs H.
  - now inversion H.
  - unfold sheet_frame, project in H.
    destruct (forallb (has_column s) base_columns); [| discriminate].
    destruct (sheet_frames rest) as [fs' |]; [| discriminate].
    inversion H. f_equal. apply IH. reflexivity.
Qed.

Lemma load_Some_rows wb df :
  load_site_metadata wb = Some df ->
  wb <> [] /\
  df = mkDataFrame
         (List.concat (map (fun s => assign_JENIS (sheet_name s)
                                       (dropna_coords (sheet_rows s))) wb)) [].
Proof.
  unfold load_site_metadata. intros H.
  destruct (sheet_frames wb) as [fs |] eqn:E; [| discriminate].
  apply sheet_frames_Some in E. subst fs.
  destruct wb as [| s rest]; [discriminate |].
  split; [discriminate |]. simpl in H. now inversion H.
Qed.


(** C1.  For every workbook the loader accepts (at least one sheet,
    every sheet with the projected columns), the unified table holds
    exactly the rows that have both coordinates: every row of the table
    has a latitude and a longitude; every sheet row with both appears,
    tagged with its sheet; every row of the table is such a sheet row;
    and the number of rows is the number of rows with both coordinates,
    summed over the sheets. *)
Theorem C1_loader_keeps_exactly_rows_with_coordinates (wb : Workbook) :
  wb <> [] -> Forall well_formed_sheet wb ->
  exists df,
    load_site_metadata wb = Some df /\
    (forall r, In r (df_rows df) ->
       latt_station (site r) <> None /\ long_station (site r) <> None) /\
    (forall s row, In s wb -> In row (sheet_rows s) ->
       latt_station row <> None -> long_station row <> None ->
       In (mkStation row (sheet_name s)) (df_rows df)) /\
    (forall r, In r (df_rows df) ->
       exists s, In s wb /\ In (site r) (sheet_rows s) /\ JENIS r = sheet_name s) /\
    length (df_rows df) = list_sum (map (fun s => count_valid (sheet_rows s)) wb).
Proof.
  intros Hne Hwf. eexists. split; [apply load_rows_well_formed; assumption |].
  simpl. repeat split.
  - apply in_concat in H as (f & Hf & Hr).
    apply in_map_iff in Hf as (s & <- & Hs).
    apply in_map_iff in Hr as (row & <- & Hrow).
    apply filter_In in Hrow as [_ Hc]. apply has_coordinates_spec in Hc. apply Hc.
  - apply in_concat in H as (f & Hf & Hr).
    apply in_map_iff in Hf as (s & <- & Hs).
    apply in_map_iff in Hr as (row & <- & Hrow).
    apply filter_In in Hrow as [_ Hc]. apply has_coordinates_spec in Hc. apply Hc.
  - intros s row Hs Hrow Hlat Hlon. apply in_concat.
    exists (assign_JENIS (sheet_name s) (dropna_coords (sheet_rows s))). split.
    + apply in_map_iff. exists s. auto.
    + apply in_map_iff. exists row. split; [reflexivity |].
      apply filter_In. split; [assumption |]. apply has_coordinates_spec. auto.
  - intros r H. apply in_concat in H as (f & Hf & Hr).
    apply in_map_iff in Hf as (s & <- & Hs).
    apply in_map_iff in Hr as (row & <- & Hrow).
    apply filter_In in Hrow as [Hin _]. exists s. auto.
  - rewrite length_concat, map_map. f_equal.
    apply map_ext. intros s. rewrite length_assign_JENIS. symmetry.
    apply count_valid_filter.
Qed.

(** ** The map-click lookup *)

(** Roundings of [float64]: the doubles of [0.1] and of [1/3]; a sum
    below half a unit in the last place; ties, which go to the even
    significand; the least subnormal number; and the overflow. *)
Example float64_roundings :
  float64 (1 # 10) = Some (3602879701896397 # 36028797018963968) /\
  float64 (1 # 3) = Some (6004799503160661 # 18014398509481984) /\
  float64 (1 + (1 # 2 ^ 60)) = Some 1%Q /\
  float64 (1 + (1 # 2 ^ 53)) = Some 1%Q /\
  float64 (1 + (3 # 2 ^ 53)) = Some (2251799813685249 # 2251799813685248) /\
  float64 (- (1 + (3 # 2 ^ 54))) = Some (- (4503599627370497 # 4503599627370496))%Q /\
  float64 (1 # 2 ^ 1075) = Some 0%Q /\
  float64 (3 # 2 ^ 1076) = Some (1 # 2 ^ 1074) /\
  float64 (inject_Z (2 ^ 1024 - 2 ^ 970 - 1)) = Some (inject_Z (2 ^ 1024 - 2 ^ 971)) /\
  float64 (inject_Z (2 ^ 1024 - 2 ^ 970)) = None.
Proof. repeat split; vm_compute; reflexivity. Qed.

Lemma f64_leb_refl x : f64_leb x x = true.
Proof. destruct x; [apply Qle_bool_iff, Qle_refl | reflexivity]. Qed.

Lemma f64_leb_total x y : f64_leb x y = false -> f64_leb y x = true.
Proof.
  destruct x as [u |], y as [v |]; simpl; try discriminate; try reflexivity.
  intros H. apply Qle_bool_iff. apply Qlt_le_weak, Qnot_le_lt.
  intros Hc. apply Qle_bool_iff in Hc. congruence.
Qed.

Lemma f64_leb_trans x y z : f64_leb x y = true -> f64_leb y z = true -> f64_leb x z = true.
Proof.
  destruct x as [u |], y as [v |], z as [t |]; simpl; try discriminate; try reflexivity.
  rewrite !Qle_bool_iff. apply Qle_trans.
Qed.

Lemma f64_lt_le_trans x y z : f64_lt x y -> f64_le y z -> f64_lt x z.
Proof.
  unfold f64_lt, f64_le. intros Hxy Hyz.
  destruct (f64_leb z x) eqn:E; [| reflexivity].
  rewrite (f64_leb_trans _ _ _ Hyz E) in Hxy. discriminate.
Qed.

(** Doubles that denote rationals compare as the rationals do. *)
Lemma f64_le_exact x y p q : f64_le x y -> f64_is x p -> f64_is y q -> (p <= q)%Q.
Proof.
  unfold f64_le. destruct x as [u |], y as [v |]; simpl; try tauto.
  intros H Hu Hv. apply Qle_bool_iff in H. now rewrite <- Hu, <- Hv.
Qed.

Lemma idxmin_None xs :
  idxmin xs = None -> forall x, In x xs -> x = None.
Proof.
  induction xs as [| x rest IH]; simpl; [intros _ y [] |].
  destruct x as [d |], (idxmin rest) as [[j m] |]; try discriminate.
  - destruct (f64_leb d m); discriminate.
  - intros _ y [<- | Hy]; [reflexivity | apply IH; auto].
Qed.

Lemma idxmin_Some xs i m :
  idxmin xs = Some (i, m) ->
  nth_error xs i = Some (Some m) /\
  (forall d, In (Some d) xs -> f64_le m d) /\
  (forall j d, (j < i)%nat -> nth_error xs j = Some (Some d) -> f64_lt m d).
Proof.
  revert i m. induction xs as [| x rest IH]; simpl; intros i m H; [discriminate |].
  destruct x as [d |]; destruct (idxmin rest) as [[j m'] |] eqn:E; try discriminate.
  - destruct (IH j m' eq_refl) as (Hnth & Hmin & Hfirst).
    destruct (f64_leb d m') eqn:Hle; inversion H; subst; clear H.
    + repeat split.
      * intros d' [Hd | Hd]; [inversion Hd; subst; apply f64_leb_refl |].
        eapply f64_leb_trans; [exact Hle | apply Hmin, Hd].
      * intros j' d' Hj. lia.
    + repeat split; [exact Hnth | |].
      * intros d' [Hd | Hd]; [inversion Hd; subst; apply f64_leb_total, Hle |].
        apply Hmin, Hd.
      * intros [| j'] d' Hj Hd; simpl in Hd.
        -- inversion Hd; subst. exact Hle.
        -- eapply Hfirst; [| exact Hd]. lia.
  - inversion H; subst; clear H. repeat split.
    + intros d' [Hd | Hd]; [inversion Hd; subst; apply f64_leb_refl |].
      pose proof (idxmin_None rest E _ Hd). discriminate.
    + intros j' d' Hj. lia.
  - destruct (IH j m' eq_refl) as (Hnth & Hmin & Hfirst).
    inversion H; subst; clear H. repeat split; [exact Hnth | |].
    + intros d' [Hd | Hd]; [discriminate | apply Hmin, Hd].
    + intros [| j'] d' Hj Hd; simpl in Hd; [discriminate |].
      eapply Hfirst; [| exact Hd]. lia.
Qed.

Lemma sq_dist_defined lat lon r :
  has_coordinates (site r) = true -> exists d, sq_dist lat lon r = Some d.
Proof.
  unfold has_coordinates, sq_dist.
  destruct (latt_station (site r)), (long_station (site r)); simpl;
    try discriminate. eauto.
Qed.

(** C4, amended.  On a non-empty table whose rows have coordinates
    (every loaded table), a click at [(lat, lon)] resolves to a row of
    the table, at some position [i].  The distance the code compares is
    the squared distance in double precision: the differences, their
    squares and the sum are each rounded to the nearest double.  That
    distance of the row returned is at most that of every row of the
    whole table, whatever its station type, and every row before
    position [i] has a strictly greater one, so ties of the computed
    distance go to the first row in table order.  When the computed
    distance of every row is the exact one
    [(lat - lat_i)^2 + (lon - lon_i)^2], the row returned minimises the
    exact squared distance over the table. *)
Theorem C4_nearest_is_first_minimum (rows : list Station) (lat lon : Q) :
  rows <> [] ->
  (forall r, In r rows -> has_coordinates (site r) = true) ->
  exists i r d,
    nearest rows lat lon = Some r /\
    nth_error rows i = Some r /\
    sq_dist lat lon r = Some d /\
    (forall r' a b, In r' rows -> location_of r' = Some (a, b) ->
       sq_dist lat lon r'
       = Some (f64_add (f64_sq (f64_sub a lat)) (f64_sq (f64_sub b lon)))) /\
    (forall r' d', In r' rows -> sq_dist lat lon r' = Some d' -> f64_le d d') /\
    (forall j r' d', (j < i)%nat -> nth_error rows j = Some r' ->
       sq_dist lat lon r' = Some d' -> f64_lt d d') /\
    ((forall r' a b, In r' rows -> location_of r' = Some (a, b) ->
        exists d', sq_dist lat lon r' = Some d' /\ f64_is d' (euclid_sq lat lon a b)) ->
     forall a b r' a' b',
       location_of r = Some (a, b) -> In r' rows -> location_of r' = Some (a', b') ->
       (euclid_sq lat lon a b <= euclid_sq lat lon a' b')%Q).
Proof.
  intros Hne Hcoords. unfold nearest.
  destruct (idxmin (map (sq_dist lat lon) rows)) as [[i m] |] eqn:E.
  - destruct (idxmin_Some _ _ _ E) as (Hnth & Hmin & Hfirst).
    rewrite nth_error_map in Hnth.
    destruct (nth_error rows i) as [r |] eqn:Hr; [| discriminate].
    simpl in Hnth. inversion Hnth as [Hd].
    assert (Hall : forall r' d', In r' rows -> sq_dist lat lon r' = Some d' -> f64_le m d').
    { intros r' d' Hin Hd'. apply Hmin. rewrite <- Hd'. apply in_map, Hin. }
    exists i, r, m. split; [reflexivity |]. split; [exact Hr |]. split; [exact Hd |].
    split; [| split; [exact Hall | split]].
    + intros r' a b _ Hloc. unfold sq_dist, location_of in *.
      destruct (latt_station (site r')), (long_station (site r')); try discriminate.
      now inversion Hloc.
    + intros j r' d' Hj Hr' Hd'. apply (Hfirst j d' Hj).
      rewrite nth_error_map, Hr'. simpl. congruence.
    + intros Hexact a b r' a' b' Hloc Hin' Hloc'.
      destruct (Hexact r a b (nth_error_In _ _ Hr) Hloc) as (d0 & Hd0 & Hx).
      destruct (Hexact r' a' b' Hin' Hloc') as (d' & Hd' & Hx').
      assert (d0 = m) by congruence. subst d0.
      exact (f64_le_exact _ _ _ _ (Hall r' d' Hin' Hd') Hx Hx').
  - exfalso. destruct rows as [| r rest]; [congruence |].
    destruct (sq_dist_defined lat lon r) as [d Hd]; [apply Hcoords; left; reflexivity |].
    pose proof (idxmin_None _ E (sq_dist lat lon r)) as Hn.
    simpl in Hn. rewrite Hd in Hn. discriminate Hn. left. reflexivity.
Qed.

(** ** Strings *)

Lemma string_app_cons (x : ascii) (a b : string) :
  String x a ++ b = String x (a ++ b).
Proof. reflexivity. Qed.

Lemma string_app_assoc (a b c : string) : (a ++ b) ++ c = a ++ (b ++ c).
Proof.
  induction a as [| x a IH]; [reflexivity |].
  rewrite !string_app_cons, IH. reflexivity.
Qed.

Lemma string_app_nil_r (a : string) : a ++ "" = a.
Proof.
  induction a as [| x a IH]; [reflexivity |].
  rewrite string_app_cons, IH. reflexivity.
Qed.

Lemma string_length_app (a b : string) :
  String.length (a ++ b) = String.length a + String.length b.
Proof.
  induction a as [| x a IH]; [reflexivity |].
  rewrite string_app_cons. simpl. rewrite IH. reflexivity.
Qed.

Lemma prefix_cons (a b : ascii) (s t : string) :
  String.prefix (String a s) (String b t) =
  if ascii_dec a b then String.prefix s t else false.
Proof. reflexivity. Qed.

Lemma prefix_app (p t : string) : String.prefix p (p ++ t) = true.
Proof.
  induction p as [| x p IH]; [now destruct t |].
  rewrite string_app_cons. simpl.
  destruct (ascii_dec x x); [exact IH | congruence].
Qed.

(** Whether [p] starts a string is settled by its first [length p]
    characters. *)
Lemma prefix_app_long (p a b : string) :
  String.length p <= String.length a ->
  String.prefix p (a ++ b) = String.prefix p a.
Proof.
  revert a. induction p as [| x p IH]; intros a Hlen.
  - simpl. now destruct (a ++ b), a.
  - destruct a as [| y a]; simpl in Hlen; [lia |].
    rewrite string_app_cons. simpl.
    destruct (ascii_dec x y); [apply IH; lia | reflexivity].
Qed.

Lemma contains_sub_cons (sub : string) (c : ascii) (s : string) :
  contains_sub sub (String c s) = String.prefix sub (String c s) || contains_sub sub s.
Proof. reflexivity. Qed.

Lemma split_go_scan (sep cur : string) (c : ascii) (s : string) :
  split_go sep 0 cur (String c s) =
  if String.prefix sep (String c s)
  then cur :: split_go sep (String.length sep - 1) "" s
  else split_go sep 0 (cur ++ String c "") s.
Proof. reflexivity. Qed.

(** The first token of a split is the text before the first separator. *)
Lemma split_first_token (cur x rest : string) :
  separator_free x = true ->
  first_token (split_go " - " 0 cur (x ++ " - " ++ rest)) = cur ++ x.
Proof.
  unfold separator_free. rewrite negb_true_iff.
  revert cur. induction x as [| c x IH]; intros cur Hfree.
  - change ("" ++ " - " ++ rest) with (String " " ("- " ++ rest)).
    rewrite split_go_scan.
    change (String " " ("- " ++ rest)) with (" - " ++ rest).
    rewrite prefix_app, string_app_nil_r. reflexivity.
  - rewrite string_app_cons, contains_sub_cons in Hfree.
    apply orb_false_iff in Hfree as [Hhere Hlater].
    rewrite string_app_cons.
    assert (Hp : String.prefix " - " (String c (x ++ " - " ++ rest)) = false).
    { change (" - " ++ rest) with (" -" ++ " " ++ rest).
      rewrite <- (string_app_assoc x " -" (" " ++ rest)), <- string_app_cons.
      rewrite prefix_app_long; [exact Hhere |].
      simpl. rewrite string_length_app. simpl. lia. }
    rewrite split_go_scan, Hp, (IH _ Hlater), string_app_assoc. reflexivity.
Qed.

Lemma no_space_separator_free (x : string) :
  ~ In " "%char (list_ascii_of_string x) -> separator_free x = true.
Proof.
  unfold separator_free. rewrite negb_true_iff.
  induction x as [| c x IH]; intros Hns; [reflexivity |].
  rewrite string_app_cons, contains_sub_cons.
  apply orb_false_iff. split.
  - change " - " with (String " " "- "). rewrite prefix_cons.
    destruct (ascii_dec " " c) as [<- | _]; [| reflexivity].
    exfalso. apply Hns. left. reflexivity.
  - apply IH. intros Hin. apply Hns. right. exact Hin.
Qed.

Lemma string_of_uint_no_space (d : Decimal.uint) :
  ~ In " "%char (list_ascii_of_string (NilEmpty.string_of_uint d)).
Proof.
  induction d; simpl; intros H; try contradiction;
    destruct H as [H | H]; try discriminate H; auto.
Qed.

Lemma string_of_uint_nz_no_space (d : Decimal.uint) :
  ~ In " "%char (list_ascii_of_string (NilZero.string_of_uint d)).
Proof.
  destruct d; try apply string_of_uint_no_space.
  simpl. intros [E | []]. discriminate E.
Qed.

Lemma str_of_Z_no_space (z : Z) :
  ~ In " "%char (list_ascii_of_string (str_of_Z z)).
Proof.
  unfold str_of_Z, NilZero.string_of_int.
  destruct (Z.to_int z) as [d | d].
  - apply string_of_uint_nz_no_space.
  - intros [E | Hin]; [discriminate E |].
    exact (string_of_uint_nz_no_space d Hin).
Qed.

(** A numeric id never holds the separator. *)
Lemma numeric_id_separator_free (z : Z) : separator_free (id_str (IdInt z)) = true.
Proof. apply no_space_separator_free, str_of_Z_no_space. Qed.

(** An id is free of the separator exactly when it neither contains
    [" - "] nor ends with [" -"]. *)
Lemma prefix_sep_app (x : string) :
  String.prefix " - " (x ++ " -") = String.prefix " - " x || String.eqb x " -".
Proof.
  destruct x as [| c1 x]; [reflexivity |].
  rewrite string_app_cons, !prefix_cons.
  destruct (ascii_dec " " c1) as [<- | Hc1].
  2:{ symmetry. apply String.eqb_neq. congruence. }
  destruct x as [| c2 x]; [reflexivity |].
  rewrite string_app_cons, !prefix_cons.
  destruct (ascii_dec "-" c2) as [<- | Hc2].
  2:{ symmetry. apply String.eqb_neq. congruence. }
  destruct x as [| c3 x]; [reflexivity |].
  rewrite string_app_cons, !prefix_cons.
  destruct (ascii_dec " " c3) as [<- | Hc3].
  - destruct x; reflexivity.
  - symmetry. apply String.eqb_neq. congruence.
Qed.

Lemma separator_free_spec (s : string) :
  separator_free s = negb (contains_sub " - " s) && negb (ends_with " -" s).
Proof.
  unfold separator_free. rewrite <- negb_orb. f_equal.
  induction s as [| c s IH]; [reflexivity |].
  rewrite string_app_cons, contains_sub_cons, <- string_app_cons, prefix_sep_app, IH.
  rewrite contains_sub_cons. cbn [ends_with].
  destruct (String.prefix " - " (String c s)), (String c s =? " -")%string,
    (contains_sub " - " s), (ends_with " -" s); reflexivity.
Qed.

Lemma separator_free_intro (s : string) :
  contains_sub " - " s = false -> ends_with " -" s = false -> separator_free s = true.
Proof. intros H1 H2. now rewrite separator_free_spec, H1, H2. Qed.

(** ** Display names *)

(** An id without the separator is read back from its display name. *)
Lemma display_round_trip (x n : string) :
  separator_free x = true -> first_token (split " - " (x ++ " - " ++ n)) = x.
Proof. intros H. unfold split. now rewrite split_first_token. Qed.

(** Numeric ids always round-trip. *)
Lemma numeric_display_round_trip (r : Station) (z : Z) (n : string) :
  id_station (site r) = IdInt z -> name_station (site r) = Some n ->
  display_name r = Some (str_of_Z z ++ " - " ++ n) /\
  first_token (split " - " (str_of_Z z ++ " - " ++ n)) = str_of_Z z.
Proof.
  intros Hid Hn. unfold display_name. rewrite Hn, Hid. split; [reflexivity |].
  apply display_round_trip, (numeric_id_separator_free z).
Qed.

(** C9, amended.  For every record that has a name and whose id, in
    string form, does not hold the separator (no [" - "] in the id
    followed by [" -"]), the display name is the string
    ["{id} - {name}"], and splitting it on [" - "] and taking the first
    token gives back the id in string form. *)
Theorem C9_display_name_round_trip (r : Station) (n : string) :
  name_station (site r) = Some n ->
  separator_free (id_str (id_station (site r))) = true ->
  display_name r = Some (id_str (id_station (site r)) ++ " - " ++ n) /\
  first_token (split " - " (id_str (id_station (site r)) ++ " - " ++ n))
  = id_str (id_station (site r)).
Proof.
  intros Hn Hfree. unfold display_name. rewrite Hn. split; [reflexivity |].
  apply display_round_trip, Hfree.
Qed.

(** C9 as stated fails on a text id that holds the separator: the
    first token of the display name of ["RG - 7"] is ["RG"]. *)
Lemma C9_counterexample_separator_in_id :
  display_name station_RG7 = Some "RG - 7 - Sampali" /\
  first_token (split " - " "RG - 7 - Sampali") = "RG" /\
  id_str (id_station (site station_RG7)) = "RG - 7" /\
  first_token (split " - " "RG - 7 - Sampali") <> id_str (id_station (site station_RG7)).
Proof. repeat split. discriminate. Qed.

Lemma C9_display_name_round_trip_witness :
  name_station (site (mkStation (sample_row (IdInt 10001) (Some "Kemayoran") None None
                                   None None None) "AWS")) = Some "Kemayoran" /\
  display_name (mkStation (sample_row (IdInt 10001) (Some "Kemayoran") None None
                             None None None) "AWS") = Some "10001 - Kemayoran" /\
  first_token (split " - " "10001 - Kemayoran") = "10001".
Proof.
  split; [reflexivity |].
  exact (C9_display_name_round_trip
           (mkStation (sample_row (IdInt 10001) (Some "Kemayoran") None None
                         None None None) "AWS")
           "Kemayoran" eq_refl eq_refl).
Defined.

(** ** Search *)

Lemma lower_cons (c : ascii) (s : string) :
  lower (String c s) = String (lower_ascii c) (lower s).
Proof. reflexivity. Qed.




Lemma match_here_literal (t s : string) :
  match_here (map Lit (list_ascii_of_string t)) s = String.prefix (lower t) (lower s).
Proof.
  revert s. induction t as [| c t IH]; intros s; [now destruct s |].
  destruct s as [| x s]; [reflexivity |].
  rewrite !lower_cons, prefix_cons.
  change (match_here (map Lit (list_ascii_of_string (String c t))) (String x s))
    with (Ascii.eqb (lower_ascii c) (lower_ascii x)
          && match_here (map Lit (list_ascii_of_string t)) s).
  rewrite IH.
  destruct (ascii_dec (lower_ascii c) (lower_ascii x)) as [E | E].
  - rewrite E, Ascii.eqb_refl. reflexivity.
  - apply Ascii.eqb_neq in E. rewrite E. reflexivity.
Qed.

Lemma search_atoms_literal (t s : string) :
  search_atoms (map Lit (list_ascii_of_string t)) s = contains_sub (lower t) (lower s).
Proof.
  induction s as [| x s IH].
  - simpl. rewrite match_here_literal. reflexivity.
  - rewrite lower_cons, contains_sub_cons, <- lower_cons, <- match_here_literal, <- IH.
    reflexivity.
Qed.

Lemma str_contains_literal (t : string) (cell : option string) :
  str_contains (search_atoms (map Lit (list_ascii_of_string t))) cell = contains_ci t cell.
Proof. destruct cell as [s |]; [apply search_atoms_literal | reflexivity]. Qed.


Lemma is_ascii_cons (c : ascii) (t : string) :
  is_ascii (String c t) = (nat_of_ascii c <? 128)%nat && is_ascii t.
Proof. reflexivity. Qed.


Lemma search_empty_term {rt : PyRuntime} (dt : Dtypes) (rows : list Station) :
  search dt rows "" = Returned rows.
Proof. reflexivity. Qed.

(** On a term that is special to the regular-expression engine the
    outcome is the engine's: an error when the term does not compile. *)
Lemma search_engine_error {rt : PyRuntime} (dt : Dtypes) (rows : list Station)
    (term : string) :
  names_typed dt = true ->
  term <> "" -> simple_pattern term = None -> re_engine term = None ->
  search dt rows term = Raised ReError.
Proof.
  intros Hn Hne Hsp Hen. destruct term as [| c t]; [congruence |].
  unfold search, contains_mask, re_search_ignorecase. rewrite Hn, Hsp, Hen.
  now destruct (is_ascii (String c t)).
Qed.





(** ** Running scripts *)

Lemma preserves_ret {A} (R : World -> World -> Prop) `{!Reflexive R} (a : A) :
  preserves R (ret a).
Proof. intros w. simpl. reflexivity. Qed.

Lemma preserves_raise {A} (R : World -> World -> Prop) `{!Reflexive R} (e : PyExn) :
  preserves R (@raise A e).
Proof. intros w. simpl. reflexivity. Qed.

Lemma preserves_rerun {A} (R : World -> World -> Prop) `{!Reflexive R} :
  preserves R (@rerun A).
Proof. intros w. simpl. reflexivity. Qed.

Lemma preserves_bind {A B} (R : World -> World -> Prop) `{!Reflexive R} `{!Transitive R}
    (m : Script A) (k : A -> Script B) :
  preserves R m -> (forall a, preserves R (k a)) -> preserves R (bind m k).
Proof.
  intros Hm Hk w. unfold bind. specialize (Hm w).
  destruct (m w) as [[a | e |] w']; simpl in *; [| exact Hm | exact Hm].
  etransitivity; [exact Hm | apply Hk].
Qed.

Lemma same_session_widgets {A} (m : Script A) :
  preserves same_session m -> preserves same_widgets m.
Proof. intros H w. apply H. Qed.

Lemma same_session_keeps_str {A} (m : Script A) :
  preserves same_session m -> preserves keeps_str m.
Proof.
  intros H w Hs v Hv. destruct (H w) as [E _]. rewrite E in Hv. eauto.
Qed.

(** *** The primitive steps *)

Lemma get_widgets_same : preserves same_session get_widgets.
Proof. intros w. simpl. reflexivity. Qed.

Lemma get_state_same key : preserves same_session (get_state key).
Proof.
  intros w. unfold get_state. destruct (session_state w !! key); simpl; reflexivity.
Qed.

Lemma alloc_frame_same t : preserves same_session (alloc_frame t).
Proof. intros w. split; reflexivity. Qed.

Lemma read_frame_same ref : preserves same_session (read_frame ref).
Proof.
  intros w. unfold read_frame. destruct (frames w !! ref); simpl; reflexivity.
Qed.

Lemma assign_column_same ref name vals :
  preserves same_session (assign_column ref name vals).
Proof.
  intros w. unfold assign_column. destruct (frames w !! ref); simpl; split; reflexivity.
Qed.

Lemma set_state_widgets key v : preserves same_widgets (set_state key v).
Proof. intros w. reflexivity. Qed.

Lemma set_selected_keeps_str s : preserves keeps_str (set_state selected_key (PyStr s)).
Proof.
  intros w _ v Hv. simpl in Hv. rewrite lookup_insert_eq in Hv.
  inversion Hv. eauto.
Qed.

Lemma set_dropdown_keeps_str v : preserves keeps_str (set_state dropdown_key v).
Proof.
  intros w Hs x Hx. simpl in Hx.
  rewrite lookup_insert_ne in Hx by discriminate. eauto.
Qed.

(** *** The blocks of [main] *)

Create HintDb frames.

Ltac run_script :=
  cbv beta iota zeta delta
    [selectbox bind get_state get_widgets set_state ret raise rerun
     fst snd widgets session_state frames].

Ltac frame_step :=
  first
    [ apply preserves_ret; typeclasses eauto
    | apply preserves_raise; typeclasses eauto
    | apply preserves_rerun; typeclasses eauto
    | apply preserves_bind; [typeclasses eauto | typeclasses eauto | | intros ? ] ].

Lemma init_session_state_widgets : preserves same_widgets init_session_state.
Proof.
  intros w. unfold init_session_state.
  destruct (session_state w !! selected_key); reflexivity.
Qed.

Lemma init_session_state_keeps_str : preserves keeps_str init_session_state.
Proof.
  intros w. unfold init_session_state.
  destruct (session_state w !! selected_key) eqn:E; [reflexivity |].
  apply set_selected_keeps_str.
Qed.

(** After the initialisation a selected id is stored, and an id that
    was stored is kept. *)
Lemma init_session_state_lookup w :
  session_state (snd (init_session_state w)) !! selected_key =
  Some (default (PyStr "10001") (session_state w !! selected_key)).
Proof.
  unfold init_session_state.
  destruct (session_state w !! selected_key) eqn:E; simpl; [exact E |].
  apply lookup_insert_eq.
Qed.

Lemma selectbox_widgets options index : preserves same_widgets (selectbox options index).
Proof.
  unfold selectbox. repeat frame_step.
  - apply same_session_widgets, get_widgets_same.
  - apply set_state_widgets.
Qed.

Lemma selectbox_keeps_str options index : preserves keeps_str (selectbox options index).
Proof.
  unfold selectbox. repeat frame_step.
  - apply same_session_keeps_str, get_widgets_same.
  - apply set_dropdown_keeps_str.
Qed.

Lemma select_site_widgets rows ty : preserves same_widgets (select_site rows ty).
Proof.
  unfold select_site. frame_step; [apply same_session_widgets, get_state_same |].
  destruct (get_filtered_data rows ty); [frame_step |].
  frame_step; [apply selectbox_widgets |].
  destruct a0; [| frame_step].
  frame_step; [apply same_session_widgets, get_state_same |].
  frame_step; [| frame_step].
  destruct (PyVal_eqb _ _); [frame_step | apply set_state_widgets].
Qed.

Lemma select_site_keeps_str rows ty : preserves keeps_str (select_site rows ty).
Proof.
  unfold select_site. frame_step; [apply same_session_keeps_str, get_state_same |].
  destruct (get_filtered_data rows ty); [frame_step |].
  frame_step; [apply selectbox_keeps_str |].
  destruct a0; [| frame_step].
  frame_step; [apply same_session_keeps_str, get_state_same |].
  frame_step; [| frame_step].
  destruct (PyVal_eqb _ _); [frame_step | apply set_selected_keeps_str].
Qed.

Lemma handle_map_click_widgets rows : preserves same_widgets (handle_map_click rows).
Proof.
  unfold handle_map_click. frame_step; [apply same_session_widgets, get_widgets_same |].
  frame_step.
  - destruct (last_object_clicked a) as [[lat lon] |]; [| frame_step].
    destruct (nearest rows lat lon); frame_step.
  - destruct a0; [| frame_step].
    destruct (use_button a); [| frame_step].
    frame_step; [apply set_state_widgets | frame_step].
Qed.

Lemma handle_map_click_keeps_str rows : preserves keeps_str (handle_map_click rows).
Proof.
  unfold handle_map_click. frame_step; [apply same_session_keeps_str, get_widgets_same |].
  frame_step.
  - destruct (last_object_clicked a) as [[lat lon] |]; [| frame_step].
    destruct (nearest rows lat lon); frame_step.
  - destruct a0; [| frame_step].
    destruct (use_button a); [| frame_step].
    frame_step; [apply set_selected_keeps_str | frame_step].
Qed.

Lemma lookup_selected_site_same rows sel :
  preserves same_session (lookup_selected_site rows sel).
Proof.
  unfold lookup_selected_site. destruct sel; [| frame_step].
  destruct (List.filter _ rows); frame_step.
Qed.

Lemma lift_same {A} (o : Outcome A) : preserves same_session (lift o).
Proof. intros w. simpl. reflexivity. Qed.

Lemma read_local_same {A} (x : option A) : preserves same_session (read_local x).
Proof. destruct x; frame_step. Qed.

Lemma render_detail_panel_same {rt : PyRuntime} date phone r :
  preserves same_session (render_detail_panel date phone r).
Proof.
  unfold render_detail_panel. destruct date; frame_step.
Qed.

Lemma directory_same {rt : PyRuntime} dt df : preserves same_session (directory dt df).
Proof.
  unfold directory. frame_step; [apply get_widgets_same |].
  frame_step; [apply read_frame_same |].
  frame_step.
  - destruct (search_term a); [frame_step |].
    frame_step; [apply lift_same | apply alloc_frame_same].
  - frame_step; [apply read_frame_same |].
    frame_step; [destruct (dates_typed dt); frame_step |].
    frame_step; [apply assign_column_same |].
    frame_step; [destruct (mixed_ids _); frame_step | frame_step].
Qed.

Lemma frame_rows_same {rt : PyRuntime} df : preserves same_session (frame_rows df).
Proof.
  unfold frame_rows. frame_step; [apply read_frame_same | frame_step].
Qed.

(** A click without the button leaves the world as it is. *)
Lemma handle_map_click_not_pressed rows w :
  use_button (widgets w) = false -> snd (handle_map_click rows w) = w.
Proof.
  intros Hb. unfold handle_map_click, bind, get_widgets.
  destruct (last_object_clicked (widgets w)) as [[lat lon] |]; simpl.
  - destruct (nearest rows lat lon); simpl; [rewrite Hb |]; reflexivity.
  - reflexivity.
Qed.

(** Without the button a run never asks for a rerun from the click. *)
Lemma handle_map_click_no_rerun rows w :
  use_button (widgets w) = false -> fst (handle_map_click rows w) <> Rerun.
Proof.
  intros Hb. unfold handle_map_click, bind, get_widgets.
  destruct (last_object_clicked (widgets w)) as [[lat lon] |]; simpl.
  - destruct (nearest rows lat lon); simpl; [rewrite Hb |]; discriminate.
  - discriminate.
Qed.

Lemma alloc_then_rows {rt : PyRuntime} table w :
  frame_rows (length (frames w)) (snd (init_session_state (snd (alloc_frame table w))))
  = (Returned (df_rows table), snd (init_session_state (snd (alloc_frame table w)))).
Proof.
  unfold frame_rows, bind, read_frame.
  assert (Hf : frames (snd (init_session_state (snd (alloc_frame table w))))
               = app (frames w) [table]).
  { unfold init_session_state. simpl.
    destruct (session_state w !! selected_key); reflexivity. }
  rewrite Hf, list_lookup_middle by reflexivity. reflexivity.
Qed.

Lemma init_session_state_returns w :
  fst (init_session_state w) = Returned tt.
Proof.
  unfold init_session_state. destruct (session_state w !! selected_key); reflexivity.
Qed.

Lemma handle_map_click_calm rows : calm (handle_map_click rows).
Proof.
  intros w Hb. split; [apply handle_map_click_no_rerun, Hb |].
  rewrite (handle_map_click_not_pressed rows w Hb). reflexivity.
Qed.

(** *** Reruns *)

Lemma never_reruns_ret {A} (a : A) : never_reruns (ret a).
Proof. intros w. discriminate. Qed.

Lemma never_reruns_raise {A} (e : PyExn) : never_reruns (@raise A e).
Proof. intros w. discriminate. Qed.

Lemma never_reruns_bind {A B} (m : Script A) (k : A -> Script B) :
  never_reruns m -> (forall a, never_reruns (k a)) -> never_reruns (bind m k).
Proof.
  intros Hm Hk w. unfold bind. specialize (Hm w).
  destruct (m w) as [[a | e |] w']; simpl in *; [apply Hk | discriminate | congruence].
Qed.

Lemma never_reruns_get_state key : never_reruns (get_state key).
Proof.
  intros w. unfold get_state. destruct (session_state w !! key); discriminate.
Qed.

Lemma never_reruns_set_state key v : never_reruns (set_state key v).
Proof. intros w. discriminate. Qed.

Lemma never_reruns_get_widgets : never_reruns get_widgets.
Proof. intros w. discriminate. Qed.

Lemma never_reruns_alloc_frame t : never_reruns (alloc_frame t).
Proof. intros w. discriminate. Qed.

Lemma never_reruns_read_frame ref : never_reruns (read_frame ref).
Proof.
  intros w. unfold read_frame. destruct (frames w !! ref); discriminate.
Qed.

Lemma never_reruns_assign_column ref name vals :
  never_reruns (assign_column ref name vals).
Proof.
  intros w. unfold assign_column. destruct (frames w !! ref); discriminate.
Qed.

#[local] Hint Resolve never_reruns_ret never_reruns_raise never_reruns_get_state
  never_reruns_set_state never_reruns_get_widgets never_reruns_alloc_frame
  never_reruns_read_frame never_reruns_assign_column : frames.

Ltac no_rerun_step :=
  first [ solve [auto with frames] | apply never_reruns_bind; [| intros ?] ].

Lemma never_reruns_select_site rows ty : never_reruns (select_site rows ty).
Proof.
  unfold select_site, selectbox. no_rerun_step; [no_rerun_step |].
  destruct (get_filtered_data rows ty); [no_rerun_step |].
  repeat no_rerun_step.
  destruct a0; repeat no_rerun_step.
  destruct (PyVal_eqb _ _); no_rerun_step.
Qed.

Lemma never_reruns_lookup_selected_site rows sel :
  never_reruns (lookup_selected_site rows sel).
Proof.
  unfold lookup_selected_site. destruct sel; [| no_rerun_step].
  destruct (List.filter _ rows); no_rerun_step.
Qed.

Lemma never_reruns_read_local {A} (x : option A) : never_reruns (read_local x).
Proof. intros w. destruct x; discriminate. Qed.

Lemma never_reruns_render_detail_panel {rt : PyRuntime} date phone r :
  never_reruns (render_detail_panel date phone r).
Proof.
  unfold render_detail_panel. destruct date; no_rerun_step.
Qed.

Lemma contains_mask_no_rerun {rt : PyRuntime} dt term : contains_mask dt term <> Rerun.
Proof.
  unfold contains_mask. destruct (names_typed dt); [| discriminate].
  destruct (re_search_ignorecase term); [| discriminate].
  destruct (provinces_typed dt && cities_typed dt); discriminate.
Qed.

Lemma never_reruns_directory {rt : PyRuntime} dt df : never_reruns (directory dt df).
Proof.
  unfold directory. no_rerun_step; [no_rerun_step |].
  no_rerun_step; [no_rerun_step |].
  no_rerun_step.
  - destruct (search_term a); [no_rerun_step |].
    no_rerun_step; [intros w; apply contains_mask_no_rerun | no_rerun_step].
  - no_rerun_step; [no_rerun_step |].
    no_rerun_step; [destruct (dates_typed dt); no_rerun_step |].
    no_rerun_step; [no_rerun_step |].
    no_rerun_step; [destruct (mixed_ids _); no_rerun_step | no_rerun_step].
Qed.

Lemma never_reruns_frame_rows {rt : PyRuntime} df : never_reruns (frame_rows df).
Proof. unfold frame_rows. repeat no_rerun_step. Qed.

Lemma calm_read_only {A} (m : Script A) :
  preserves same_session m -> never_reruns m -> calm m.
Proof. intros Hs Hn w _. split; [apply Hn | apply Hs]. Qed.

Lemma calm_bind {A B} (m : Script A) (k : A -> Script B) :
  calm m -> (forall a, calm (k a)) -> calm (bind m k).
Proof.
  intros Hm Hk w Hb. unfold bind. destruct (Hm w Hb) as [Hn Hs].
  destruct (m w) as [[a | e |] w']; simpl in *;
    [| split; [discriminate | exact Hs] | congruence].
  assert (Hb' : use_button (widgets w') = false) by (destruct Hs as [_ ->]; exact Hb).
  destruct (Hk a w' Hb') as [Hn' Hs']. split; [exact Hn' |].
  etransitivity; [exact Hs | exact Hs'].
Qed.

(** The world in which the sidebar of a run starts. *)
Lemma main_unfold {rt : PyRuntime} wb table w :
  load_site_metadata wb = Some table ->
  main wb w =
  (let w0 := snd (init_session_state (snd (alloc_frame table w))) in
   let rows := df_rows table in
   bind (select_site rows (radio (station_types rows) (radio_pick (widgets w0))))
     (fun selected_id_station =>
        handle_map_click rows ;;;
        selected_site <- lookup_selected_site rows selected_id_station ;;
        render_detail_panel (date_cell wb selected_site) (phone_str selected_site)
          selected_site ;;;
        directory (loaded_dtypes wb) (length (frames w)) ;;;
        ret tt) w0).
Proof.
  intros Hload. unfold main. rewrite Hload. cbv zeta.
  pose proof (alloc_then_rows table w) as Hr.
  pose proof (init_session_state_returns (snd (alloc_frame table w))) as Ho.
  unfold bind at 1. unfold alloc_frame at 1. cbv beta iota.
  change (mkWorld (widgets w) (session_state w) (app (frames w) [table]))
    with (snd (alloc_frame table w)).
  unfold bind at 1.
  destruct (init_session_state (snd (alloc_frame table w))) as [o w0].
  simpl in Ho, Hr. subst o. cbv beta iota.
  unfold bind at 1. unfold get_widgets at 1. cbv beta iota.
  unfold bind at 1. rewrite Hr. reflexivity.
Qed.

Lemma main_v4_unfold {rt : PyRuntime} wb table w :
  load_site_metadata wb = Some table ->
  main_v4 wb w =
  (let w0 := snd (init_session_state (snd (alloc_frame table w))) in
   let rows := df_rows table in
   bind (select_site rows (radio (station_types rows) (radio_pick (widgets w0))))
     (fun selected_id_station =>
        read_local selected_id_station ;;;
        handle_map_click rows ;;;
        directory (loaded_dtypes wb) (length (frames w)) ;;;
        rows' <- frame_rows (length (frames w)) ;;
        selected_site <- lookup_selected_site rows' selected_id_station ;;
        render_detail_panel (date_cell wb selected_site) (phone_v4 selected_site)
          selected_site ;;;
        ret tt) w0).
Proof.
  intros Hload. unfold main_v4. rewrite Hload. cbv zeta.
  pose proof (alloc_then_rows table w) as Hr.
  pose proof (init_session_state_returns (snd (alloc_frame table w))) as Ho.
  unfold bind at 1. unfold alloc_frame at 1. cbv beta iota.
  change (mkWorld (widgets w) (session_state w) (app (frames w) [table]))
    with (snd (alloc_frame table w)).
  unfold bind at 1.
  destruct (init_session_state (snd (alloc_frame table w))) as [o w0].
  simpl in Ho, Hr. subst o. cbv beta iota.
  unfold bind at 1. unfold get_widgets at 1. cbv beta iota.
  unfold bind at 1. rewrite Hr. reflexivity.
Qed.

(** What follows the sidebar in [Peta-Selection.py] ... *)
Lemma after_sidebar_calm {rt : PyRuntime} wb rows df sel :
  calm (handle_map_click rows ;;;
        selected_site <- lookup_selected_site rows sel ;;
        render_detail_panel (date_cell wb selected_site) (phone_str selected_site)
          selected_site ;;;
        directory (loaded_dtypes wb) df ;;;
        ret tt).
Proof.
  apply calm_bind; [apply handle_map_click_calm | intros _].
  apply calm_bind;
    [apply calm_read_only;
       [apply lookup_selected_site_same | apply never_reruns_lookup_selected_site] |].
  intros r. apply calm_bind;
    [apply calm_read_only;
       [apply render_detail_panel_same | apply never_reruns_render_detail_panel] |].
  intros _. apply calm_bind;
    [apply calm_read_only; [apply directory_same | apply never_reruns_directory] |].
  intros _. apply calm_read_only; [frame_step | apply never_reruns_ret].
Qed.

(** ... and in [Peta-Selection-v4.py]. *)
Lemma after_sidebar_v4_calm {rt : PyRuntime} wb rows df sel :
  calm (read_local sel ;;;
        handle_map_click rows ;;;
        directory (loaded_dtypes wb) df ;;;
        rows' <- frame_rows df ;;
        selected_site <- lookup_selected_site rows' sel ;;
        render_detail_panel (date_cell wb selected_site) (phone_v4 selected_site)
          selected_site ;;;
        ret tt).
Proof.
  apply calm_bind;
    [apply calm_read_only; [apply read_local_same | apply never_reruns_read_local] |].
  intros _.
  apply calm_bind; [apply handle_map_click_calm | intros _].
  apply calm_bind;
    [apply calm_read_only; [apply directory_same | apply never_reruns_directory] |].
  intros _. apply calm_bind;
    [apply calm_read_only; [apply frame_rows_same | apply never_reruns_frame_rows] |].
  intros rows'. apply calm_bind;
    [apply calm_read_only;
       [apply lookup_selected_site_same | apply never_reruns_lookup_selected_site] |].
  intros r. apply calm_bind;
    [apply calm_read_only;
       [apply render_detail_panel_same | apply never_reruns_render_detail_panel] |].
  intros _. apply calm_read_only; [frame_step | apply never_reruns_ret].
Qed.

(** The world in which the sidebar of a run starts. *)
Lemma sidebar_world_widgets table w :
  widgets (snd (init_session_state (snd (alloc_frame table w)))) = widgets w.
Proof. exact (init_session_state_widgets (snd (alloc_frame table w))). Qed.

(** A sidebar followed by calm blocks: the session and the widgets
    after the run are those after the sidebar, and no rerun is asked. *)
Lemma sidebar_then_calm {A} (side : Script A) (k : A -> Script unit) w :
  preserves same_widgets side -> never_reruns side -> (forall a, calm (k a)) ->
  use_button (widgets w) = false ->
  fst (bind side k w) <> Rerun /\ same_session (snd (side w)) (snd (bind side k w)).
Proof.
  intros Hw Hn Hk Hb. unfold bind. specialize (Hw w). specialize (Hn w).
  destruct (side w) as [[a | e |] w']; simpl in *;
    [| split; [discriminate | reflexivity] | congruence].
  apply Hk. unfold same_widgets in Hw. rewrite Hw. exact Hb.
Qed.

(** A refresh of [Peta-Selection.py] without the button: the session
    is the one the sidebar leaves. *)
Lemma refresh_main_session {rt : PyRuntime} wb table w :
  load_site_metadata wb = Some table ->
  use_button (widgets w) = false ->
  session_state (refresh (main wb) w) =
  session_state
    (snd (select_site (df_rows table) (active_type (df_rows table) w)
            (snd (init_session_state (snd (alloc_frame table w)))))).
Proof.
  intros Hload Hb. unfold refresh, active_type.
  rewrite (main_unfold wb table w Hload). cbv zeta.
  rewrite sidebar_world_widgets.
  set (w0 := snd (init_session_state (snd (alloc_frame table w)))).
  assert (Hb0 : use_button (widgets w0) = false)
    by (unfold w0; rewrite sidebar_world_widgets; exact Hb).
  match goal with
  | |- context [bind ?side ?k w0] =>
      destruct (sidebar_then_calm side k w0) as [Hn [Hs _]];
        [ apply select_site_widgets | apply never_reruns_select_site
        | intros a; apply (after_sidebar_calm wb (df_rows table) (length (frames w)) a)
        | exact Hb0 | ];
      destruct (bind side k w0) as [[u | e |] w'] eqn:E
  end; cbn [fst snd] in Hn, Hs; [exact Hs | exact Hs | congruence].
Qed.

Lemma refresh_main_v4_session {rt : PyRuntime} wb table w :
  load_site_metadata wb = Some table ->
  use_button (widgets w) = false ->
  session_state (refresh (main_v4 wb) w) =
  session_state
    (snd (select_site (df_rows table) (active_type (df_rows table) w)
            (snd (init_session_state (snd (alloc_frame table w)))))).
Proof.
  intros Hload Hb. unfold refresh, active_type.
  rewrite (main_v4_unfold wb table w Hload). cbv zeta.
  rewrite sidebar_world_widgets.
  set (w0 := snd (init_session_state (snd (alloc_frame table w)))).
  assert (Hb0 : use_button (widgets w0) = false)
    by (unfold w0; rewrite sidebar_world_widgets; exact Hb).
  match goal with
  | |- context [bind ?side ?k w0] =>
      destruct (sidebar_then_calm side k w0) as [Hn [Hs _]];
        [ apply select_site_widgets | apply never_reruns_select_site
        | intros a; apply (after_sidebar_v4_calm wb (df_rows table) (length (frames w)) a)
        | exact Hb0 | ];
      destruct (bind side k w0) as [[u | e |] w'] eqn:E
  end; cbn [fst snd] in Hn, Hs; [exact Hs | exact Hs | congruence].
Qed.

(** ** The sidebar dropdown *)

Lemma lookup_map {A B} (f : A -> B) (xs : list A) (i : nat) :
  map f xs !! i = option_map f (xs !! i).
Proof.
  revert i. induction xs as [| x xs IH]; intros [| i]; simpl; auto.
Qed.

Lemma find_index_find {A B} (q : B -> bool) (f : A -> B) (xs : list A) :
  match find_index q (map f xs) with
  | Some i => exists x, xs !! i = Some x /\ List.find (fun a => q (f a)) xs = Some x
  | None => List.find (fun a => q (f a)) xs = None
  end.
Proof.
  induction xs as [| x xs IH]; simpl; [reflexivity |].
  destruct (q (f x)); [exists x; split; reflexivity |].
  destruct (find_index q (map f xs)) as [i |]; simpl; exact IH.
Qed.

(** The default index of the dropdown is the position of the landing
    record. *)
Lemma default_index_lands (partition : list Station) (x : string) :
  partition !!
    match find_index (fun s => PyVal_eqb (PyStr s) (PyStr x))
            (map (fun r => id_str (id_station (site r))) partition) with
    | Some i => i
    | None => O
    end
  = landing_record partition x.
Proof.
  unfold landing_record.
  pose proof (find_index_find (fun s => PyVal_eqb (PyStr s) (PyStr x))
                (fun r => id_str (id_station (site r))) partition) as H.
  simpl in H.
  destruct (find_index _ (map _ partition)) as [i |].
  - destruct H as (r & Hi & Hf). rewrite Hf. exact Hi.
  - rewrite H. now destruct partition.
Qed.

Lemma landing_record_nonempty partition x r :
  landing_record partition x = Some r -> partition <> [].
Proof. intros H ->. discriminate H. Qed.

(** Where the dropdown lands when it holds no choice: on a record with
    a name and an id free of the separator, the run stores that id. *)
Lemma select_site_lands rows ty w x r n :
  session_state w !! selected_key = Some (PyStr x) ->
  selectbox_pick (widgets w) = None ->
  landing_record (get_filtered_data rows ty) x = Some r ->
  name_station (site r) = Some n ->
  separator_free (id_str (id_station (site r))) = true ->
  fst (select_site rows ty w) = Returned (Some (id_str (id_station (site r)))) /\
  session_state (snd (select_site rows ty w)) !! selected_key
  = Some (PyStr (id_str (id_station (site r)))).
Proof.
  intros Hx Hpick Hland Hname Hfree.
  pose proof (default_index_lands (get_filtered_data rows ty) x) as Hidx.
  pose proof (landing_record_nonempty _ _ _ Hland) as Hne.
  destruct (select_site rows ty w) as [o w'] eqn:Erun. revert Erun.
  unfold select_site. cbv zeta.
  unfold bind at 1. unfold get_state at 1. rewrite Hx.
  remember (get_filtered_data rows ty) as partition eqn:Ep.
  remember (match find_index _ (map _ partition) with Some i => i | None => O end)
    as i eqn:Ei.
  assert (Hd : map display_name partition !! i = Some (display_name r))
    by (rewrite lookup_map, Hidx, Hland; reflexivity).
  remember (map display_name partition) as displays eqn:Ed.
  clear Ei Ed Hidx Hland.
  destruct partition as [| p0 rest]; [congruence |].
  unfold selectbox, bind, get_widgets, set_state, ret, get_state.
  cbn [fst snd widgets session_state frames].
  rewrite Hpick. unfold selectbox_value. rewrite Hd. cbn [mjoin option_join].
  unfold display_name. rewrite Hname.
  cbn [fst snd widgets session_state frames].
  rewrite lookup_insert_ne by discriminate. rewrite Hx.
  rewrite (display_round_trip _ n Hfree).
  unfold PyVal_eqb.
  destruct (String.eqb x (id_str (id_station (site r)))) eqn:E;
    cbn [fst snd widgets session_state frames].
  - apply String.eqb_eq in E. subst x. intros [= <- <-].
    cbn [fst snd widgets session_state frames].
    rewrite lookup_insert_ne by discriminate. auto.
  - intros [= <- <-]. cbn [fst snd widgets session_state frames].
    rewrite lookup_insert_eq. auto.
Qed.

(** ** Whole runs *)

Lemma main_widgets {rt : PyRuntime} wb : preserves same_widgets (main wb).
Proof.
  unfold main. destruct (load_site_metadata wb); [| frame_step].
  frame_step; [apply same_session_widgets, alloc_frame_same |].
  frame_step; [apply init_session_state_widgets |].
  frame_step; [apply same_session_widgets, get_widgets_same |].
  frame_step; [apply same_session_widgets, frame_rows_same |].
  frame_step; [apply select_site_widgets |].
  frame_step; [apply handle_map_click_widgets |].
  frame_step; [apply same_session_widgets, lookup_selected_site_same |].
  frame_step; [apply same_session_widgets, render_detail_panel_same |].
  frame_step; [apply same_session_widgets, directory_same | frame_step].
Qed.

Lemma main_v4_widgets {rt : PyRuntime} wb : preserves same_widgets (main_v4 wb).
Proof.
  unfold main_v4. destruct (load_site_metadata wb); [| frame_step].
  frame_step; [apply same_session_widgets, alloc_frame_same |].
  frame_step; [apply init_session_state_widgets |].
  frame_step; [apply same_session_widgets, get_widgets_same |].
  frame_step; [apply same_session_widgets, frame_rows_same |].
  frame_step; [apply select_site_widgets |].
  frame_step; [apply same_session_widgets, read_local_same |].
  frame_step; [apply handle_map_click_widgets |].
  frame_step; [apply same_session_widgets, directory_same |].
  frame_step; [apply same_session_widgets, frame_rows_same |].
  frame_step; [apply same_session_widgets, lookup_selected_site_same |].
  frame_step; [apply same_session_widgets, render_detail_panel_same | frame_step].
Qed.

Lemma main_keeps_str {rt : PyRuntime} wb : preserves keeps_str (main wb).
Proof.
  unfold main. destruct (load_site_metadata wb); [| frame_step].
  frame_step; [apply same_session_keeps_str, alloc_frame_same |].
  frame_step; [apply init_session_state_keeps_str |].
  frame_step; [apply same_session_keeps_str, get_widgets_same |].
  frame_step; [apply same_session_keeps_str, frame_rows_same |].
  frame_step; [apply select_site_keeps_str |].
  frame_step; [apply handle_map_click_keeps_str |].
  frame_step; [apply same_session_keeps_str, lookup_selected_site_same |].
  frame_step; [apply same_session_keeps_str, render_detail_panel_same |].
  frame_step; [apply same_session_keeps_str, directory_same | frame_step].
Qed.

Lemma main_v4_keeps_str {rt : PyRuntime} wb : preserves keeps_str (main_v4 wb).
Proof.
  unfold main_v4. destruct (load_site_metadata wb); [| frame_step].
  frame_step; [apply same_session_keeps_str, alloc_frame_same |].
  frame_step; [apply init_session_state_keeps_str |].
  frame_step; [apply same_session_keeps_str, get_widgets_same |].
  frame_step; [apply same_session_keeps_str, frame_rows_same |].
  frame_step; [apply select_site_keeps_str |].
  frame_step; [apply same_session_keeps_str, read_local_same |].
  frame_step; [apply handle_map_click_keeps_str |].
  frame_step; [apply same_session_keeps_str, directory_same |].
  frame_step; [apply same_session_keeps_str, frame_rows_same |].
  frame_step; [apply same_session_keeps_str, lookup_selected_site_same |].
  frame_step; [apply same_session_keeps_str, render_detail_panel_same | frame_step].
Qed.

(** A refresh leaves the widget values as the browser holds them, with
    the button released. *)
Lemma refresh_widgets script w :
  preserves same_widgets script ->
  widgets (refresh script w) = widgets (release_button w).
Proof.
  intros H. unfold refresh. pose proof (H w) as H1.
  destruct (script w) as [[u | e |] w1]; unfold same_widgets in H1; simpl in H1.
  - simpl. now rewrite H1.
  - simpl. now rewrite H1.
  - rewrite (H (release_button w1)). simpl. now rewrite H1.
Qed.

Lemma refresh_keeps_str script w :
  preserves keeps_str script -> selected_is_str w -> selected_is_str (refresh script w).
Proof.
  intros H Hw. unfold refresh. pose proof (H w Hw) as H1.
  destruct (script w) as [[u | e |] w1]; simpl in H1; try exact H1.
  apply (H (release_button w1)). exact H1.
Qed.

Lemma selected_id_lookup w x :
  selected_id w = Some x <-> session_state w !! selected_key = Some (PyStr x).
Proof.
  unfold selected_id. destruct (session_state w !! selected_key) as [[s |] |];
    split; intros H; inversion H; reflexivity.
Qed.

Lemma landing_record_absent partition x :
  (forall p, In p partition -> id_str (id_station (site p)) <> x) ->
  landing_record partition x = head partition.
Proof.
  intros Habs. unfold landing_record.
  destruct (List.find _ partition) as [p |] eqn:E; [| reflexivity].
  apply find_some in E as [Hin Heq]. apply String.eqb_eq in Heq.
  exfalso. exact (Habs p Hin Heq).
Qed.

Lemma landing_record_present partition x r :
  (exists p, In p partition /\ id_str (id_station (site p)) = x) ->
  landing_record partition x = Some r ->
  In r partition /\ id_str (id_station (site r)) = x.
Proof.
  intros (p & Hin & Hp). unfold landing_record.
  destruct (List.find _ partition) as [q |] eqn:E.
  - intros [= <-]. apply find_some in E as [Hq Heq].
    apply String.eqb_eq in Heq. auto.
  - exfalso. apply (find_none _ _ E) in Hin. rewrite Hp, String.eqb_refl in Hin.
    discriminate.
Qed.

(** Where a type change lands, for either script. *)
Lemma type_change_lands {rt : PyRuntime} wb table w j B x r n :
  load_site_metadata wb = Some table ->
  station_types (df_rows table) !! j = Some B ->
  selected_id w = Some x ->
  landing_record (get_filtered_data (df_rows table) (Some B)) x = Some r ->
  name_station (site r) = Some n ->
  separator_free (id_str (id_station (site r))) = true ->
  session_state
    (snd (select_site (df_rows table)
            (active_type (df_rows table)
               (with_widgets (apply_event (ChooseType j) (widgets w)) w))
            (snd (init_session_state
                    (snd (alloc_frame table
                            (with_widgets (apply_event (ChooseType j) (widgets w)) w)))))))
    !! selected_key
  = Some (PyStr (id_str (id_station (site r)))).
Proof.
  intros Hload Hj Hx Hland Hn Hfree.
  assert (Hty : active_type (df_rows table)
                  (with_widgets (apply_event (ChooseType j) (widgets w)) w) = Some B).
  { unfold active_type, radio. simpl. now rewrite Hj. }
  rewrite Hty.
  eapply select_site_lands; eauto.
  - rewrite init_session_state_lookup. simpl.
    apply selected_id_lookup in Hx. rewrite Hx. reflexivity.
  - rewrite sidebar_world_widgets. reflexivity.
Qed.

(** ** Changing the station type *)

(** C5, amended.  Let the selected id be [x] and let the user change
    the station type to [B], a type of the table.  Let [r] be the
    record the dropdown falls on: the first record of partition [B]
    with id [x], and the first record of partition [B] when [x] is
    absent from it.  Provided [r] has a name and its id, in string
    form, neither contains the separator [" - "] nor ends with [" -"],
    after the change the active type is [B] and the selected id is the
    id of [r]: the id of the first record of [B] when [x] is absent
    from [B], and [x] itself when it is present.  This holds for both
    scripts. *)
Theorem C5_type_change_revalidates_selection {rt : PyRuntime}
    (wb : Workbook) (table : DataFrame) (w : World) (j : nat) (B x : string)
    (r : Station) (n : string) :
  load_site_metadata wb = Some table ->
  station_types (df_rows table) !! j = Some B ->
  selected_id w = Some x ->
  landing_record (get_filtered_data (df_rows table) (Some B)) x = Some r ->
  name_station (site r) = Some n ->
  contains_sub " - " (id_str (id_station (site r))) = false ->
  ends_with " -" (id_str (id_station (site r))) = false ->
  active_type (df_rows table) (interact (main wb) (ChooseType j) w) = Some B /\
  selected_id (interact (main wb) (ChooseType j) w) = Some (id_str (id_station (site r))) /\
  selected_id (interact (main_v4 wb) (ChooseType j) w) = Some (id_str (id_station (site r))) /\
  ((forall p, In p (get_filtered_data (df_rows table) (Some B)) ->
      id_str (id_station (site p)) <> x) ->
   head (get_filtered_data (df_rows table) (Some B)) = Some r) /\
  ((exists p, In p (get_filtered_data (df_rows table) (Some B)) /\
      id_str (id_station (site p)) = x) ->
   id_str (id_station (site r)) = x).
Proof.
  intros Hload Hj Hx Hland Hn Hsep Hend.
  pose proof (separator_free_intro _ Hsep Hend) as Hfree. repeat split.
  - unfold active_type, interact.
    rewrite (refresh_widgets _ _ (main_widgets wb)). simpl.
    unfold radio. now rewrite Hj.
  - apply selected_id_lookup. unfold interact.
    rewrite (refresh_main_session wb table _ Hload) by reflexivity.
    eapply type_change_lands; eauto.
  - apply selected_id_lookup. unfold interact.
    rewrite (refresh_main_v4_session wb table _ Hload) by reflexivity.
    eapply type_change_lands; eauto.
  - intros Habs. rewrite <- Hland. symmetry. apply landing_record_absent, Habs.
  - intros Hpres. eapply landing_record_present; eauto.
Qed.

Lemma C5_type_change_revalidates_selection_witness :
  load_site_metadata sample_workbook = Some (mkDataFrame sample_rows []) /\
  station_types sample_rows !! 1 = Some "ARG" /\
  selected_id fresh_session = Some "10001" /\
  selected_id (interact (@main runtime0 sample_workbook) (ChooseType 1) fresh_session)
  = Some "1" /\
  head (get_filtered_data sample_rows (Some "ARG"))
  = nth_error sample_rows 1.
Proof.
  assert (H1 : load_site_metadata sample_workbook = Some (mkDataFrame sample_rows []))
    by reflexivity.
  assert (H2 : station_types sample_rows !! 1 = Some "ARG") by reflexivity.
  assert (H3 : selected_id fresh_session = Some "10001") by reflexivity.
  pose proof (@C5_type_change_revalidates_selection runtime0 sample_workbook
                (mkDataFrame sample_rows []) fresh_session 1 "ARG" "10001"
                (mkStation (sample_row (IdInt 1) (Some "Medan") (Some "Sumatera Utara")
                              (Some "Medan") (Some (3 # 1)) (Some (98 # 1)) None) "ARG")
                "Medan" H1 H2 H3 eq_refl eq_refl eq_refl eq_refl)
    as (_ & Hsel & _ & Habs & _).
  split; [exact H1 |]. split; [exact H2 |]. split; [exact H3 |].
  split; [exact Hsel |].
  apply Habs. intros p [<- | []]. discriminate.
Defined.

(** C5 as stated fails when the id of the first record of the new
    partition holds the separator: with ["10001"] selected in [AWS],
    choosing [ARG], whose only record has id ["RG - 7"], stores ["RG"]. *)
Lemma C5_counterexample_separator_in_first_id :
  selected_id opened_text_session = Some "10001" /\
  (exists p, In p (get_filtered_data text_rows (Some "AWS")) /\
     id_str (id_station (site p)) = "10001") /\
  (forall p, In p (get_filtered_data text_rows (Some "ARG")) ->
     id_str (id_station (site p)) <> "10001") /\
  head (get_filtered_data text_rows (Some "ARG")) = Some station_RG7 /\
  id_str (id_station (site station_RG7)) = "RG - 7" /\
  selected_id (interact (@main runtime0 text_workbook) (ChooseType 1) opened_text_session)
  = Some "RG".
Proof.
  split; [reflexivity |].
  split; [eexists; split; [left; reflexivity | reflexivity] |].
  repeat split. intros p [<- | []]. discriminate.
Qed.

(** ** The map click *)

(** The sidebar reads the session and the dropdown choice, nothing else
    of the world. *)
Lemma select_site_session_ext rows ty w1 w2 :
  session_state w1 = session_state w2 ->
  selectbox_pick (widgets w1) = selectbox_pick (widgets w2) ->
  session_state (snd (select_site rows ty w1)) = session_state (snd (select_site rows ty w2)).
Proof.
  destruct w1 as [ui1 ss1 fr1], w2 as [ui2 ss2 fr2]. simpl. intros <- Hp.
  unfold select_site. cbv zeta.
  run_script. destruct (ss1 !! selected_key) as [v |] eqn:Ev; run_script; [| reflexivity].
  destruct (get_filtered_data rows ty) as [| p0 rest]; run_script; [reflexivity |].
  rewrite Hp.
  match goal with
  | |- context [selectbox_value ?o ?i ?p] => destruct (selectbox_value o i p) as [d |]
  end; run_script; [| reflexivity].
  rewrite !lookup_insert_ne by discriminate. rewrite Ev. run_script.
  destruct (PyVal_eqb v _); reflexivity.
Qed.

Lemma init_session_state_session w :
  session_state (snd (init_session_state w)) =
  match session_state w !! selected_key with
  | Some _ => session_state w
  | None => <[selected_key := PyStr "10001"]> (session_state w)
  end.
Proof.
  unfold init_session_state. destruct (session_state w !! selected_key); reflexivity.
Qed.

(** Which point of the map was clicked last does not reach the session
    while the button is not pressed. *)
Lemma click_does_not_reach_session {rt : PyRuntime} wb w lat lon :
  session_state (interact (main wb) (ClickMap lat lon) w)
  = session_state (refresh (main wb) (release_button w)) /\
  session_state (interact (main_v4 wb) (ClickMap lat lon) w)
  = session_state (refresh (main_v4 wb) (release_button w)).
Proof.
  unfold interact.
  destruct (load_site_metadata wb) as [table |] eqn:Hload.
  - rewrite !(refresh_main_session wb table _ Hload) by reflexivity.
    rewrite !(refresh_main_v4_session wb table _ Hload) by reflexivity.
    assert (H : forall ty,
      session_state
        (snd (select_site (df_rows table) ty
                (snd (init_session_state
                        (snd (alloc_frame table
                                (with_widgets (apply_event (ClickMap lat lon) (widgets w)) w)))))))
      = session_state
          (snd (select_site (df_rows table) ty
                  (snd (init_session_state (snd (alloc_frame table (release_button w)))))))).
    { intros ty. apply select_site_session_ext.
      - rewrite !init_session_state_session. reflexivity.
      - rewrite !sidebar_world_widgets. reflexivity. }
    split; apply H.
  - unfold refresh, main, main_v4. rewrite Hload. split; reflexivity.
Qed.

(** C7.  A click on the map resolves to a candidate, and the selected
    id is written only when the button is pressed: without the button
    the click block leaves the whole world as it is, and at the level
    of a refresh the clicked point does not reach the session.  With
    the button, the block stores the string form of the candidate's id
    and asks for a rerun, whatever the station type of the candidate.
    Neither the click nor the confirmation changes the choice of the
    type radio, so the active type stays what it was, for both
    scripts. *)
Theorem C7_spatial_pick_needs_confirmation {rt : PyRuntime}
    (wb : Workbook) (rows : list Station) (w : World) :
  (use_button (widgets w) = false -> snd (handle_map_click rows w) = w) /\
  (forall lat lon,
     selected_id (interact (main wb) (ClickMap lat lon) w)
     = selected_id (refresh (main wb) (release_button w)) /\
     selected_id (interact (main_v4 wb) (ClickMap lat lon) w)
     = selected_id (refresh (main_v4 wb) (release_button w))) /\
  (forall lat lon r,
     use_button (widgets w) = true ->
     last_object_clicked (widgets w) = Some (lat, lon) ->
     nearest rows lat lon = Some r ->
     handle_map_click rows w =
     (Rerun,
      mkWorld (widgets w)
        (<[selected_key := PyStr (id_str (id_station (site r)))]> (session_state w))
        (frames w))) /\
  active_type rows (snd (handle_map_click rows w)) = active_type rows w /\
  (forall e, (e = PressUseStation \/ exists lat lon, e = ClickMap lat lon) ->
     active_type rows (interact (main wb) e w) = active_type rows w /\
     active_type rows (interact (main_v4 wb) e w) = active_type rows w).
Proof.
  split; [apply handle_map_click_not_pressed |].
  split.
  { intros lat lon. unfold selected_id.
    destruct (click_does_not_reach_session wb w lat lon) as [-> ->]. auto. }
  split.
  { intros lat lon r Hb Hc Hn.
    unfold handle_map_click, bind, get_widgets. rewrite Hc, Hn. simpl.
    rewrite Hb. reflexivity. }
  split.
  { unfold active_type. now rewrite (handle_map_click_widgets rows w). }
  intros e He. unfold active_type, interact.
  rewrite (refresh_widgets _ _ (main_widgets wb)),
          (refresh_widgets _ _ (main_v4_widgets wb)).
  destruct He as [-> | (lat & lon & ->)]; split; reflexivity.
Qed.

(** ** The stored selection *)

Lemma initial_world_is_str : selected_is_str initial_world.
Proof. intros v Hv. simpl in Hv. rewrite lookup_empty in Hv. discriminate. Qed.

Lemma with_widgets_is_str ui w : selected_is_str w -> selected_is_str (with_widgets ui w).
Proof. intros H. exact H. Qed.

(** C10.  In every world a session can reach, through any sequence of
    interactions, with either script and whatever the workbook holds at
    each refresh, the value stored as the selected station id is a
    string; the first value stored is the string ["10001"]. *)
Theorem C10_selected_id_is_always_a_string {rt : PyRuntime} (w : World) :
  reachable w ->
  selected_is_str w /\
  session_state (snd (init_session_state initial_world)) !! selected_key
  = Some (PyStr "10001").
Proof.
  intros Hreach. split; [| reflexivity].
  induction Hreach as [wb | wb | wb e w Hw IH | wb e w Hw IH].
  - apply refresh_keeps_str; [apply main_keeps_str | apply initial_world_is_str].
  - apply refresh_keeps_str; [apply main_v4_keeps_str | apply initial_world_is_str].
  - apply refresh_keeps_str; [apply main_keeps_str | exact IH].
  - apply refresh_keeps_str; [apply main_v4_keeps_str | exact IH].
Qed.

Lemma C10_selected_id_is_always_a_string_witness :
  @reachable runtime0
    (interact (@main runtime0 text_workbook) (ChooseType 1) opened_text_session) /\
  selected_is_str
    (interact (@main runtime0 text_workbook) (ChooseType 1) opened_text_session).
Proof.
  assert (H : @reachable runtime0
                (interact (@main runtime0 text_workbook) (ChooseType 1) opened_text_session))
    by (apply reach_event, reach_open).
  split; [exact H |].
  exact (proj1 (@C10_selected_id_is_always_a_string runtime0 _ H)).
Defined.

(** ** The lookup of the selected record *)

(** On a table whose ids are numbers the lookup finds nothing, whatever
    the selected id. *)
Lemma lookup_numeric_ids_raises rows s w :
  (forall r, In r rows -> exists z, id_station (site r) = IdInt z) ->
  lookup_selected_site rows (Some s) w = (Raised IndexError, w).
Proof.
  intros Hnum. unfold lookup_selected_site.
  replace (List.filter (fun r => id_equals_str (id_station (site r)) s) rows) with (@nil Station);
    [reflexivity |].
  symmetry. induction rows as [| r rest IH]; [reflexivity |].
  simpl. destruct (Hnum r (or_introl eq_refl)) as [z ->]. simpl.
  apply IH. intros r' Hr'. apply Hnum. right. exact Hr'.
Qed.

(** An id that no record carries raises as well. *)
Lemma lookup_absent_id_raises rows s w :
  (forall r, In r rows -> id_station (site r) <> IdStr s) ->
  lookup_selected_site rows (Some s) w = (Raised IndexError, w).
Proof.
  intros Habs. unfold lookup_selected_site.
  replace (List.filter (fun r => id_equals_str (id_station (site r)) s) rows) with (@nil Station);
    [reflexivity |].
  symmetry. induction rows as [| r rest IH]; [reflexivity |].
  simpl. destruct (id_equals_str (id_station (site r)) s) eqn:E.
  - exfalso. apply (Habs r (or_introl eq_refl)).
    unfold id_equals_str in E. destruct (id_station (site r)); [discriminate |].
    apply String.eqb_eq in E. now subst.
  - apply IH. intros r' Hr'. apply Habs. right. exact Hr'.
Qed.

(** C2 fails on the code.  The loader example stores the ids as
    numbers; the record of [AWS] with id [1] is selected through the
    dropdown as ["1"], and the lookup of the selected record of
    [Peta-Selection.py] compares the stored number with that string: it
    finds nothing and raises [IndexError], whatever the runtime.  An id
    that no record carries raises as well, instead of a fallback: in
    [coded_workbook], whose ids are texts, choosing the type [ARG]
    makes the dropdown return ["RG"] for the record ["RG - 7"], and
    the lookup of ["RG"] raises [IndexError]. *)
Theorem C2_lookup_compares_stored_id_with_string :
  (exists r, In r sample_rows /\ JENIS r = "AWS" /\
             id_station (site r) = IdInt 1 /\ id_str (id_station (site r)) = "1") /\
  fst (select_site sample_rows (Some "AWS") fresh_session) = Returned (Some "1") /\
  fst (lookup_selected_site sample_rows (Some "1") fresh_session) = Raised IndexError /\
  (forall rt : PyRuntime, fst (@main rt sample_workbook initial_world) = Raised IndexError) /\
  forallb ids_as_stored coded_workbook = true /\
  fst (select_site coded_rows (Some "ARG") fresh_session) = Returned (Some "RG") /\
  (forall r, In r coded_rows -> id_station (site r) <> IdStr "RG") /\
  (forall rt : PyRuntime,
     fst (@main rt coded_workbook
            (with_widgets (apply_event (ChooseType 1) (widgets initial_world)) initial_world))
     = Raised IndexError).
Proof.
  split.
  { eexists. split; [left; reflexivity |]. repeat split. }
  split; [reflexivity |]. split; [reflexivity |]. split; [intros rt; reflexivity |].
  split; [reflexivity |]. split; [reflexivity |]. split; [| intros rt; reflexivity].
  intros r [<- | [<- | [<- | []]]]; discriminate.
Qed.

(** ** The detail panel *)

(** A record without an install date never renders: the cell is [NaT]
    or a float [nan], and neither has a [strftime]. *)
Lemma render_raises_without_install_date {rt : PyRuntime} wb phone r w :
  tgl_pasang (site r) = None ->
  exists e, render_detail_panel (date_cell wb r) phone r w = (Raised e, w) /\
            (e = ValueError \/ e = AttributeError).
Proof.
  intros H. unfold render_detail_panel, date_cell. rewrite H.
  destruct (_ || _); eexists; (split; [reflexivity | auto]).
Qed.

(** In a workbook whose sheets all hold a date the cell is [NaT]. *)
Lemma render_raises_on_NaT {rt : PyRuntime} wb phone r w :
  forallb (sheet_has tgl_pasang) wb = true ->
  tgl_pasang (site r) = None ->
  render_detail_panel (date_cell wb r) phone r w = (Raised ValueError, w).
Proof.
  intros Hall H. unfold render_detail_panel, date_cell, datetime_typed.
  rewrite H, Hall. reflexivity.
Qed.

Lemma render_returns_with_install_date {rt : PyRuntime} wb phone r w t :
  tgl_pasang (site r) = Some t ->
  exists panel,
    render_detail_panel (date_cell wb r) phone r w = (Returned panel, w) /\
    In ("Procurement Date", strftime_mdY t) panel.
Proof.
  intros H. unfold render_detail_panel, date_cell. rewrite H. eexists.
  split; [reflexivity |]. apply in_or_app. right. simpl. auto 10.
Qed.

(** C3 fails on the code.  The second record of [coded_workbook], whose
    ids are texts and whose sheets all hold a date, has no install
    date; once it is chosen in the dropdown, rendering its detail panel
    raises [ValueError] where the claim asks for an "N/A" placeholder,
    in both scripts and whatever the runtime. *)
Theorem C3_detail_panel_raises_on_missing_install_date :
  forallb ids_as_stored coded_workbook = true /\
  forallb (sheet_has tgl_pasang) coded_workbook = true /\
  exists r,
    nth_error coded_rows 1 = Some r /\
    id_station (site r) = IdStr "AWS-02" /\
    tgl_pasang (site r) = None /\
    forall rt : PyRuntime,
      fst (@render_detail_panel rt (@date_cell rt coded_workbook r) (phone_str r) r
             fresh_session) = Raised ValueError /\
      fst (@main rt coded_workbook
             (with_widgets (apply_event (ChooseSite 1) (widgets initial_world)) initial_world))
      = Raised ValueError /\
      fst (@main_v4 rt coded_workbook
             (with_widgets (apply_event (ChooseSite 1) (widgets initial_world)) initial_world))
      = Raised ValueError.
Proof.
  split; [reflexivity |]. split; [reflexivity |].
  eexists. split; [reflexivity |]. split; [reflexivity |]. split; [reflexivity |].
  intros rt. repeat split.
Qed.

(** ** The directory tab and the loaded table *)

(** With an empty search term [search_df] is the loaded table itself:
    when its install dates are datetime64 the column assignment lands
    on it, before the sort of the table shown; when they are not, the
    tab stops at [.dt] and assigns nothing. *)
Lemma directory_empty_term {rt : PyRuntime} dt df w t :
  frames w !! df = Some t ->
  search_term (widgets w) = "" ->
  directory dt df w =
  if dates_typed dt then
    (if mixed_ids (df_rows t) then Raised TypeError else Returned df,
     mkWorld (widgets w) (session_state w)
       (<[df := with_column "tgl_pasang_str"
                  (map (fun r => option_map strftime_dmY (tgl_pasang (site r))) (df_rows t)) t]>
          (frames w)))
  else (Raised AttributeError, w).
Proof.
  intros Hdf Hterm. unfold directory.
  unfold bind at 1. unfold get_widgets at 1. cbv beta iota. rewrite Hterm.
  unfold bind at 1. unfold read_frame at 1. rewrite Hdf. cbv beta iota.
  unfold bind at 1. unfold ret at 1. cbv beta iota.
  unfold bind at 1. unfold read_frame at 1. rewrite Hdf. cbv beta iota.
  destruct (dates_typed dt); [| reflexivity].
  unfold bind at 1. unfold ret at 1. cbv beta iota.
  unfold bind at 1. unfold assign_column at 1. rewrite Hdf. cbv beta iota.
  destruct (mixed_ids (df_rows t)); reflexivity.
Qed.

(** With a search term the loaded table is left as it was. *)
Lemma directory_search_term_keeps_table {rt : PyRuntime} dt df w t :
  frames w !! df = Some t ->
  search_term (widgets w) <> "" ->
  frames (snd (directory dt df w)) !! df = Some t.
Proof.
  intros Hdf Hterm. unfold directory.
  unfold bind at 1. unfold get_widgets at 1. cbv beta iota.
  unfold bind at 1. unfold read_frame at 1. rewrite Hdf. cbv beta iota.
  destruct (search_term (widgets w)) as [| c term]; [congruence |].
  unfold bind at 1. unfold bind at 1. unfold lift at 1.
  destruct (contains_mask dt (String c term)) as [m | e |]; [| exact Hdf | exact Hdf].
  cbv beta iota. unfold alloc_frame at 1. cbv beta iota.
  unfold bind at 1. unfold read_frame at 1. cbn [frames].
  rewrite list_lookup_middle by reflexivity. cbv beta iota.
  destruct (dates_typed dt).
  - unfold bind at 1. unfold ret at 1. cbv beta iota.
    unfold bind at 1. unfold assign_column at 1. cbn [frames widgets session_state].
    rewrite list_lookup_middle by reflexivity. cbv beta iota.
    pose proof (lookup_lt_Some _ _ _ Hdf) as Hlt.
    match goal with
    | |- frames (snd (bind ?m ?k ?w0)) !! df = _ =>
        assert (Hf : frames (snd (bind m k w0)) = frames w0)
    end.
    { unfold bind. destruct (mixed_ids _); reflexivity. }
    rewrite Hf. cbn [frames].
    rewrite list_lookup_insert_ne by lia.
    rewrite lookup_app_l by exact Hlt. exact Hdf.
  - unfold bind, raise. cbn [snd frames].
    rewrite lookup_app_l by (eapply lookup_lt_Some, Hdf). exact Hdf.
Qed.

Lemma set_column_new_name name vals cols :
  ~ In name (map fst cols) ->
  map fst (set_column name vals cols) = app (map fst cols) [name].
Proof.
  induction cols as [| [n v] cols IH]; intros Hnew; [reflexivity |].
  simpl in *. destruct (String.eqb n name) eqn:E.
  - apply String.eqb_eq in E. exfalso. apply Hnew. left. exact E.
  - simpl. f_equal. apply IH. intros H. apply Hnew. right. exact H.
Qed.

Lemma with_column_adds_column name vals t :
  ~ In name (map fst (df_assigned t)) ->
  df_columns (with_column name vals t) = app (df_columns t) [name].
Proof.
  intros Hnew. unfold df_columns, with_column. cbn [df_assigned].
  rewrite (set_column_new_name _ _ _ Hnew).
  now rewrite <- !List.app_assoc.
Qed.

(** C6 fails on the code.  [coded_workbook] has text ids and a date in
    every sheet.  A refresh with the empty search term ends normally,
    and the frame that [main] loaded (the first object of the run) has
    one column more than the loaded table: the directory tab bound
    [search_df] to the table itself and assigned [tgl_pasang_str] to
    it.  The same holds for the other script, and whatever the
    runtime. *)
Theorem C6_directory_assigns_column_to_loaded_table :
  forallb ids_as_stored coded_workbook = true /\
  forallb (sheet_has tgl_pasang) coded_workbook = true /\
  exists table table',
    load_site_metadata coded_workbook = Some table /\
    search_term (widgets initial_world) = "" /\
    (forall rt : PyRuntime,
       fst (@main rt coded_workbook initial_world) = Returned tt /\
       frames (snd (@main rt coded_workbook initial_world)) !! 0 = Some table' /\
       fst (@main_v4 rt coded_workbook initial_world) = Returned tt /\
       frames (snd (@main_v4 rt coded_workbook initial_world)) !! 0 = Some table') /\
    df_rows table' = df_rows table /\
    df_columns table' = app (df_columns table) ["tgl_pasang_str"] /\
    table' <> table.
Proof.
  split; [reflexivity |]. split; [reflexivity |].
  do 2 eexists. split; [reflexivity |]. split; [reflexivity |].
  split; [intros rt; repeat split |].
  split; [reflexivity |]. split; [reflexivity |]. discriminate.
Qed.

(** ** The properties on the sample data *)

Lemma well_formed_sheet_check s :
  forallb (has_column s) base_columns = true -> well_formed_sheet s.
Proof.
  intros H c Hc. apply has_column_In. rewrite forallb_forall in H. apply H, Hc.
Qed.

Lemma sample_workbook_well_formed : Forall well_formed_sheet sample_workbook.
Proof.
  unfold sample_workbook.
  constructor; [apply well_formed_sheet_check; reflexivity |].
  constructor; [apply well_formed_sheet_check; reflexivity |].
  constructor.
Qed.

(** The loader example: of the three rows, the one without a latitude
    is dropped. *)
Lemma C1_loader_keeps_exactly_rows_with_coordinates_witness :
  sample_workbook <> [] /\
  Forall well_formed_sheet sample_workbook /\
  exists df,
    load_site_metadata sample_workbook = Some df /\
    length (df_rows df) = 2 /\
    map (fun r => (JENIS r, id_station (site r))) (df_rows df)
    = [("AWS", IdInt 1); ("ARG", IdInt 1)].
Proof.
  assert (H1 : sample_workbook <> []) by discriminate.
  split; [exact H1 |]. split; [exact sample_workbook_well_formed |].
  destruct (C1_loader_keeps_exactly_rows_with_coordinates sample_workbook H1
              sample_workbook_well_formed) as (df & Hload & _ & _ & _ & Hlen).
  exists df. split; [exact Hload |]. split; [exact Hlen |].
  injection Hload as <-. reflexivity.
Defined.

Lemma sample_rows_have_coordinates :
  forall r, In r sample_rows -> has_coordinates (site r) = true.
Proof. intros r [<- | [<- | []]]; reflexivity. Qed.

(** A click at the rain gauge resolves to it, although the station is
    of another type than the first sheet; the coordinates are whole
    numbers, the double arithmetic is exact on them, and the station is
    the nearest in exact terms. *)
Lemma C4_nearest_is_first_minimum_witness :
  sample_rows <> [] /\
  (forall r, In r sample_rows -> has_coordinates (site r) = true) /\
  exists r,
    nearest sample_rows (3 # 1) (98 # 1) = Some r /\ JENIS r = "ARG" /\
    location_of r = Some (3 # 1, 98 # 1) /\
    forall r' a' b', In r' sample_rows -> location_of r' = Some (a', b') ->
      (euclid_sq (3 # 1) (98 # 1) (3 # 1) (98 # 1) <= euclid_sq (3 # 1) (98 # 1) a' b')%Q.
Proof.
  assert (H1 : sample_rows <> []) by discriminate.
  split; [exact H1 |]. split; [exact sample_rows_have_coordinates |].
  destruct (C4_nearest_is_first_minimum sample_rows (3 # 1) (98 # 1) H1
              sample_rows_have_coordinates) as (i & r & d & Hnear & _ & _ & _ & _ & _ & Hexact).
  assert (Hn : nearest sample_rows (3 # 1) (98 # 1) = nth_error sample_rows 1)
    by (vm_compute; reflexivity).
  rewrite Hn in Hnear. injection Hnear as <-.
  eexists. split; [exact Hn |]. split; [reflexivity |]. split; [reflexivity |].
  intros r' a' b'. apply Hexact; [| reflexivity].
  intros r0 a b [<- | [<- | []]] Hloc; injection Hloc as <- <-;
    (eexists; split; [vm_compute; reflexivity | vm_compute; reflexivity]).
Defined.

(** C4 as stated fails where rounding makes a tie.  Of the two stations
    of [rounding_rows] the second is the nearer to a click at the
    origin: its squared distance is [1], that of the first is
    [1 + 2^-60].  In double precision both sums are [1.0], and the
    lookup returns the first station. *)
Lemma C4_counterexample_rounding :
  exists A B,
    rounding_rows = [A; B] /\
    location_of A = Some (1 # 1, 1 # 1073741824) /\
    location_of B = Some (1 # 1, 0 # 1) /\
    (euclid_sq 0 0 (1 # 1) (0 # 1) < euclid_sq 0 0 (1 # 1) (1 # 1073741824))%Q /\
    sq_dist 0 0 A = Some (Num 1) /\
    sq_dist 0 0 B = Some (Num 1) /\
    nearest rounding_rows 0 0 = Some A /\
    A <> B.
Proof.
  do 2 eexists. split; [reflexivity |]. split; [reflexivity |]. split; [reflexivity |].
  split; [vm_compute; reflexivity |].
  split; [vm_compute; reflexivity |]. split; [vm_compute; reflexivity |].
  split; [vm_compute; reflexivity | discriminate].
Qed.

(** Two stations at the same distance from the click: the first one in
    table order is returned. *)
Example nearest_tie_goes_to_first :
  option_map (sq_dist (-13 # 2) (107 # 1)) (nth_error text_rows 0) = Some (Some (Num (1 # 4))) /\
  option_map (sq_dist (-13 # 2) (107 # 1)) (nth_error text_rows 1) = Some (Some (Num (1 # 4))) /\
  nearest text_rows (-13 # 2) (107 # 1) = nth_error text_rows 0.
Proof. repeat split; vm_compute; reflexivity. Qed.

(** Confirming a candidate of another station type: the button stores
    its id and asks for a rerun, the type radio keeps its choice, and
    the rerun re-validates the stored id against the active partition. *)
Example cross_type_confirmation :
  nearest text_rows (3 # 1) (98 # 1) = Some station_RG7 /\
  active_type text_rows opened_text_session = Some "AWS" /\
  selected_id
    (snd (handle_map_click text_rows
            (with_widgets (mkWidgets None None (Some (3 # 1, 98 # 1)) true "")
               opened_text_session)))
  = Some "RG - 7" /\
  active_type text_rows
    (interact (@main runtime0 text_workbook) PressUseStation
       (interact (@main runtime0 text_workbook) (ClickMap (3 # 1) (98 # 1))
          opened_text_session))
  = Some "AWS" /\
  selected_id
    (interact (@main runtime0 text_workbook) PressUseStation
       (interact (@main runtime0 text_workbook) (ClickMap (3 # 1) (98 # 1))
          opened_text_session))
  = Some "10001".
Proof. repeat split. Qed.

(* ------------------------------------------------------------------ *)
(** * Further properties of the loader and of the type filter *)

(** X1.  The loader gives no table exactly when the workbook has no
    sheet or some sheet lacks one of the sixteen projected columns;
    rows without coordinates never make it fail. *)
Theorem X1_load_fails_exactly_on_missing_sheet_or_column (wb : Workbook) :
  load_site_metadata wb = None <->
  wb = [] \/ exists s c, In s wb /\ In c base_columns /\ ~ In c (sheet_columns s).
Proof.
  unfold load_site_metadata. split.
  - destruct (sheet_frames wb) as [fs |] eqn:E.
    + destruct fs; [| discriminate]. intros _. left.
      apply sheet_frames_Some in E. destruct wb; [reflexivity | discriminate].
    + intros _. right. apply sheet_frames_None, E.
  - intros [-> | H]; [reflexivity |].
    apply sheet_frames_None in H. rewrite H. reflexivity.
Qed.

Lemma filter_JENIS_assign_same name rows :
  List.filter (fun r => String.eqb (JENIS r) name) (assign_JENIS name rows)
  = assign_JENIS name rows.
Proof.
  induction rows as [| r rows IH]; [reflexivity |].
  simpl. rewrite String.eqb_refl, IH. reflexivity.
Qed.

Lemma filter_JENIS_assign_other name name' rows :
  name' <> name ->
  List.filter (fun r => String.eqb (JENIS r) name) (assign_JENIS name' rows) = [].
Proof.
  intros Hne. induction rows as [| r rows IH]; [reflexivity |].
  simpl. apply String.eqb_neq in Hne. rewrite Hne. exact IH.
Qed.

Lemma filter_concat_frames name (wb : Workbook) :
  ~ In name (map sheet_name wb) ->
  List.filter (fun r => String.eqb (JENIS r) name)
    (List.concat (map (fun s => assign_JENIS (sheet_name s)
                                  (dropna_coords (sheet_rows s))) wb)) = [].
Proof.
  induction wb as [| s rest IH]; intros Hn; [reflexivity |].
  simpl. rewrite List.filter_app, filter_JENIS_assign_other, IH; [reflexivity | |].
  - intros H. apply Hn. right. exact H.
  - intros H. apply Hn. left. exact H.
Qed.

(** X2.  In a workbook whose sheet names are distinct, filtering the
    unified table by a sheet's name gives back that sheet's rows with
    coordinates, in sheet order, each tagged with the sheet name:
    nothing of another sheet leaks into the partition and nothing of
    the sheet is lost. *)
Theorem X2_partition_is_the_sheet (wb : Workbook) (df : DataFrame) (s : Sheet) :
  List.NoDup (map sheet_name wb) ->
  load_site_metadata wb = Some df ->
  In s wb ->
  get_filtered_data (df_rows df) (Some (sheet_name s))
  = assign_JENIS (sheet_name s) (dropna_coords (sheet_rows s)).
Proof.
  intros Hnd Hload Hin. apply load_Some_rows in Hload as [_ ->]. simpl.
  induction wb as [| s' rest IH]; [destruct Hin |].
  simpl in Hnd. apply List.NoDup_cons_iff in Hnd as [Hfresh Hnd].
  simpl. rewrite List.filter_app. destruct Hin as [-> | Hin].
  - rewrite filter_JENIS_assign_same, filter_concat_frames by exact Hfresh.
    apply app_nil_r.
  - rewrite filter_JENIS_assign_other, (IH Hnd Hin); [reflexivity |].
    intros E. apply Hfresh. rewrite E. apply in_map, Hin.
Qed.

Lemma X2_partition_is_the_sheet_witness :
  List.NoDup (map sheet_name sample_workbook) /\
  In sheet_AWS sample_workbook /\
  get_filtered_data sample_rows (Some "AWS") = firstn 1 sample_rows.
Proof.
  assert (H1 : List.NoDup (map sheet_name sample_workbook)).
  { simpl. constructor; [intros [E | []]; discriminate E |].
    constructor; [intros [] | constructor]. }
  assert (H2 : In sheet_AWS sample_workbook) by (left; reflexivity).
  split; [exact H1 |]. split; [exact H2 |].
  exact (X2_partition_is_the_sheet sample_workbook (mkDataFrame sample_rows [])
           sheet_AWS H1 eq_refl H2).
Defined.

Lemma unique_go_In seen xs x :
  In x (unique_go seen xs) <-> In x xs /\ ~ In x seen.
Proof.
  revert seen. induction xs as [| y xs IH]; intros seen; simpl.
  - split; [intros [] | intros [[] _]].
  - destruct (existsb (String.eqb y) seen) eqn:E.
    + apply existsb_exists in E as (z & Hz & Heq). apply String.eqb_eq in Heq. subst z.
      rewrite IH. split.
      * intros [H1 H2]. auto.
      * intros [[<- | H1] H2]; [contradiction | auto].
    + assert (Hy : ~ In y seen).
      { intros Hin. assert (existsb (String.eqb y) seen = true); [| congruence].
        apply existsb_exists. exists y. split; [exact Hin | apply String.eqb_refl]. }
      simpl. rewrite IH. split.
      * intros [<- | [H1 H2]]; [auto |]. split; [auto |].
        intros H. apply H2. right. exact H.
      * intros [[<- | H1] H2]; [left; reflexivity |].
        destruct (String.eqb_spec y x) as [-> | Hne]; [left; reflexivity | right].
        split; [exact H1 |]. intros [E' | H]; [congruence | contradiction].
Qed.

Lemma unique_go_NoDup seen xs : List.NoDup (unique_go seen xs).
Proof.
  revert seen. induction xs as [| y xs IH]; intros seen; simpl; [constructor |].
  destruct (existsb (String.eqb y) seen); [apply IH |].
  constructor; [| apply IH].
  rewrite unique_go_In. intros [_ H]. apply H. left. reflexivity.
Qed.

Lemma station_types_In rows ty :
  In ty (station_types rows) <-> exists r, In r rows /\ JENIS r = ty.
Proof.
  unfold station_types. rewrite unique_go_In, in_map_iff. split.
  - intros [(r & E & Hr) _]. eauto.
  - intros (r & Hr & E). split; [eauto | intros []].
Qed.

Lemma radio_In options pick ty : radio options pick = Some ty -> In ty options.
Proof.
  unfold radio. destruct pick as [i |].
  - destruct (options !! i) as [o |] eqn:E.
    + intros [= <-]. apply list_elem_of_In. eapply list_elem_of_lookup_2, E.
    + destruct options; [discriminate |]. intros [= <-]. left. reflexivity.
  - destruct options; [discriminate |]. intros [= <-]. left. reflexivity.
Qed.

Lemma radio_None options pick : radio options pick = None -> options = [].
Proof.
  unfold radio. destruct pick as [i |]; [destruct (options !! i) |];
    destruct options; try discriminate; reflexivity.
Qed.

(** X3.  The type radio lists every station type of the table once,
    and whatever the user picks, the partition of the active type has
    at least one station; no type is active only when the table has no
    row at all.  So the "No sites available" branch of the sidebar is
    reached with an empty table only. *)
Theorem X3_active_partition_is_never_empty (rows : list Station) (w : World) :
  List.NoDup (station_types rows) /\
  (forall ty, In ty (station_types rows) <-> exists r, In r rows /\ JENIS r = ty) /\
  match active_type rows w with
  | Some ty => get_filtered_data rows (Some ty) <> []
  | None => rows = []
  end.
Proof.
  split; [apply unique_go_NoDup |]. split; [apply station_types_In |].
  unfold active_type. destruct (radio _ _) as [ty |] eqn:E.
  - apply radio_In, station_types_In in E as (r & Hr & Hty).
    simpl. intros Hnil.
    assert (Hin : In r (List.filter (fun r => String.eqb (JENIS r) ty) rows)).
    { apply filter_In. split; [exact Hr |]. rewrite Hty. apply String.eqb_refl. }
    rewrite Hnil in Hin. destruct Hin.
  - apply radio_None in E. destruct rows as [| r rest]; [reflexivity |].
    exfalso. assert (Hin : In (JENIS r) (station_types (r :: rest))).
    { apply station_types_In. exists r. split; [left |]; reflexivity. }
    rewrite E in Hin. destruct Hin.
Qed.

(* ------------------------------------------------------------------ *)
(** * Further properties of the sidebar and of whole runs *)

Ltac step_script :=
  cbv beta iota zeta delta
    [selectbox bind get_state get_widgets set_state ret raise rerun fst snd];
  cbn [widgets session_state frames].

Lemma selectbox_value_In options index pick d :
  selectbox_value options index pick = Some d -> In (Some d) options.
Proof.
  unfold selectbox_value.
  assert (Hidx : forall i, mjoin (options !! i) = Some d -> In (Some d) options).
  { intros i H. destruct (options !! i) as [o |] eqn:E; [| discriminate].
    simpl in H. subst o. apply list_elem_of_In. eapply list_elem_of_lookup_2, E. }
  destruct pick as [i |]; [| apply Hidx].
  destruct (options !! i) as [o |] eqn:E; [| apply Hidx].
  intros ->. apply list_elem_of_In. eapply list_elem_of_lookup_2, E.
Qed.

(** The sidebar, once the dropdown shows a display name: the first
    token of that name is returned and stored. *)
Lemma select_site_shows rows ty w v d :
  session_state w !! selected_key = Some v ->
  get_filtered_data rows ty <> [] ->
  selectbox_value (map display_name (get_filtered_data rows ty))
    match find_index (fun s => PyVal_eqb (PyStr s) v)
            (map (fun r => id_str (id_station (site r))) (get_filtered_data rows ty)) with
    | Some i => i
    | None => O
    end
    (selectbox_pick (widgets w)) = Some d ->
  fst (select_site rows ty w) = Returned (Some (first_token (split " - " d))) /\
  session_state (snd (select_site rows ty w)) !! selected_key
  = Some (PyStr (first_token (split " - " d))) /\
  widgets (snd (select_site rows ty w)) = widgets w /\
  frames (snd (select_site rows ty w)) = frames w.
Proof.
  intros Hv Hne Hd.
  destruct (select_site rows ty w) as [o w'] eqn:Erun. revert Erun.
  unfold select_site. cbv zeta.
  unfold bind at 1. unfold get_state at 1. rewrite Hv.
  remember (get_filtered_data rows ty) as partition eqn:Ep.
  destruct partition as [| p0 rest]; [congruence |].
  step_script. rewrite Hd. step_script.
  rewrite lookup_insert_ne by discriminate. rewrite Hv. step_script.
  destruct (PyVal_eqb v (PyStr (first_token (split " - " d)))) eqn:E; step_script.
  - intros [= <- <-]. step_script.
    rewrite lookup_insert_ne by discriminate.
    destruct v as [s |]; [| discriminate E]. simpl in E.
    apply String.eqb_eq in E. subst s. auto.
  - intros [= <- <-]. step_script. rewrite lookup_insert_eq. auto.
Qed.

(** Whatever the sidebar returns is what it stored, and it is read off
    the display name of a record of the active partition. *)
Lemma select_site_returns rows ty w s :
  fst (select_site rows ty w) = Returned (Some s) ->
  session_state (snd (select_site rows ty w)) !! selected_key = Some (PyStr s) /\
  exists r d, In r (get_filtered_data rows ty) /\ display_name r = Some d /\
              s = first_token (split " - " d).
Proof.
  destruct (session_state w !! selected_key) as [v |] eqn:Hv.
  - destruct (get_filtered_data rows ty) as [| p0 rest] eqn:Ep.
    + unfold select_site. rewrite Ep. unfold bind, get_state. rewrite Hv.
      simpl. discriminate.
    + destruct (selectbox_value (map display_name (get_filtered_data rows ty))
                  match find_index (fun s => PyVal_eqb (PyStr s) v)
                          (map (fun r => id_str (id_station (site r)))
                             (get_filtered_data rows ty)) with
                  | Some i => i
                  | None => O
                  end (selectbox_pick (widgets w))) as [d |] eqn:Hd.
      * destruct (select_site_shows rows ty w v d Hv) as (Hf & Hs & _);
          [rewrite Ep; discriminate | exact Hd |].
        rewrite Hf. intros [= <-]. split; [exact Hs |].
        apply selectbox_value_In, in_map_iff in Hd as (r & Hr & Hin).
        exists r, d. rewrite <- Ep. auto.
      * unfold select_site. cbv zeta. rewrite Ep in *.
        unfold bind at 1. unfold get_state at 1. rewrite Hv.
        step_script. rewrite Hd. step_script. discriminate.
  - unfold select_site, bind, get_state. rewrite Hv. simpl. discriminate.
Qed.

(** A run without the button: the session it leaves is the one the
    sidebar leaves, the widgets are untouched and no rerun is asked. *)
Lemma main_calm_session {rt : PyRuntime} wb table w :
  load_site_metadata wb = Some table ->
  use_button (widgets w) = false ->
  fst (main wb w) <> Rerun /\
  session_state (snd (main wb w)) =
  session_state
    (snd (select_site (df_rows table) (active_type (df_rows table) w)
            (snd (init_session_state (snd (alloc_frame table w)))))).
Proof.
  intros Hload Hb. unfold active_type.
  rewrite (main_unfold wb table w Hload). cbv zeta.
  rewrite sidebar_world_widgets.
  set (w0 := snd (init_session_state (snd (alloc_frame table w)))).
  assert (Hb0 : use_button (widgets w0) = false)
    by (unfold w0; rewrite sidebar_world_widgets; exact Hb).
  match goal with
  | |- context [bind ?side ?k w0] =>
      destruct (sidebar_then_calm side k w0) as [Hn [Hs _]];
        [ apply select_site_widgets | apply never_reruns_select_site
        | intros a; apply (after_sidebar_calm wb (df_rows table) (length (frames w)) a)
        | exact Hb0 | ]
  end.
  split; [exact Hn | exact Hs].
Qed.

Lemma main_v4_calm_session {rt : PyRuntime} wb table w :
  load_site_metadata wb = Some table ->
  use_button (widgets w) = false ->
  fst (main_v4 wb w) <> Rerun /\
  session_state (snd (main_v4 wb w)) =
  session_state
    (snd (select_site (df_rows table) (active_type (df_rows table) w)
            (snd (init_session_state (snd (alloc_frame table w)))))).
Proof.
  intros Hload Hb. unfold active_type.
  rewrite (main_v4_unfold wb table w Hload). cbv zeta.
  rewrite sidebar_world_widgets.
  set (w0 := snd (init_session_state (snd (alloc_frame table w)))).
  assert (Hb0 : use_button (widgets w0) = false)
    by (unfold w0; rewrite sidebar_world_widgets; exact Hb).
  match goal with
  | |- context [bind ?side ?k w0] =>
      destruct (sidebar_then_calm side k w0) as [Hn [Hs _]];
        [ apply select_site_widgets | apply never_reruns_select_site
        | intros a; apply (after_sidebar_v4_calm wb (df_rows table) (length (frames w)) a)
        | exact Hb0 | ]
  end.
  split; [exact Hn | exact Hs].
Qed.

(** The session in which the sidebar starts always holds a selected id. *)
Lemma sidebar_world_selected table w :
  session_state (snd (init_session_state (snd (alloc_frame table w)))) !! selected_key
  = Some (default (PyStr "10001") (session_state w !! selected_key)).
Proof. rewrite init_session_state_lookup. reflexivity. Qed.

(** ** Picking a station in the dropdown *)

(** X4.  When the user picks position [i] of the dropdown, and the
    record at that position of the active partition has a name and an
    id that, in string form, neither contains the separator [" - "]
    nor ends with [" -"], the selected id becomes that record's id and
    the active type stays as it was, whatever was selected before, for
    both scripts. *)
Theorem X4_explicit_pick_selects_the_record {rt : PyRuntime}
    (wb : Workbook) (table : DataFrame) (w : World) (i : nat) (r : Station) (n : string) :
  load_site_metadata wb = Some table ->
  get_filtered_data (df_rows table) (active_type (df_rows table) w) !! i = Some r ->
  name_station (site r) = Some n ->
  contains_sub " - " (id_str (id_station (site r))) = false ->
  ends_with " -" (id_str (id_station (site r))) = false ->
  selected_id (interact (main wb) (ChooseSite i) w) = Some (id_str (id_station (site r))) /\
  selected_id (interact (main_v4 wb) (ChooseSite i) w) = Some (id_str (id_station (site r))) /\
  active_type (df_rows table) (interact (main wb) (ChooseSite i) w)
  = active_type (df_rows table) w /\
  active_type (df_rows table) (interact (main_v4 wb) (ChooseSite i) w)
  = active_type (df_rows table) w.
Proof.
  intros Hload Hi Hn Hsep Hend.
  pose proof (separator_free_intro _ Hsep Hend) as Hfree.
  set (w1 := with_widgets (apply_event (ChooseSite i) (widgets w)) w).
  assert (Hty : active_type (df_rows table) w1 = active_type (df_rows table) w)
    by reflexivity.
  assert (Hsel : session_state
                   (snd (select_site (df_rows table) (active_type (df_rows table) w1)
                           (snd (init_session_state (snd (alloc_frame table w1))))))
                   !! selected_key
                 = Some (PyStr (id_str (id_station (site r))))).
  { rewrite Hty.
    pose proof (sidebar_world_selected table w1) as Hv.
    edestruct (select_site_shows (df_rows table) (active_type (df_rows table) w)
                 (snd (init_session_state (snd (alloc_frame table w1)))))
      as (_ & Hs & _); [exact Hv | | | ].
    - intros E. rewrite E in Hi. discriminate Hi.
    - rewrite sidebar_world_widgets. unfold w1. simpl selectbox_pick.
      unfold selectbox_value. rewrite lookup_map, Hi. simpl.
      unfold display_name. rewrite Hn. reflexivity.
    - rewrite Hs. now rewrite (display_round_trip _ n Hfree). }
  repeat split.
  - apply selected_id_lookup. unfold interact. fold w1.
    rewrite (refresh_main_session wb table _ Hload) by reflexivity. exact Hsel.
  - apply selected_id_lookup. unfold interact. fold w1.
    rewrite (refresh_main_v4_session wb table _ Hload) by reflexivity. exact Hsel.
  - unfold active_type, interact.
    now rewrite (refresh_widgets _ _ (main_widgets wb)).
  - unfold active_type, interact.
    now rewrite (refresh_widgets _ _ (main_v4_widgets wb)).
Qed.

Lemma X4_explicit_pick_selects_the_record_witness :
  load_site_metadata coded_workbook = Some (mkDataFrame coded_rows []) /\
  get_filtered_data coded_rows (active_type coded_rows initial_world) !! 1
  = nth_error coded_rows 1 /\
  option_map (fun r => id_str (id_station (site r))) (nth_error coded_rows 1)
  = Some "AWS-02" /\
  selected_id (interact (@main runtime0 coded_workbook) (ChooseSite 1) initial_world)
  = Some "AWS-02".
Proof.
  assert (H1 : load_site_metadata coded_workbook = Some (mkDataFrame coded_rows []))
    by reflexivity.
  split; [exact H1 |]. split; [reflexivity |]. split; [reflexivity |].
  exact (proj1 (@X4_explicit_pick_selects_the_record runtime0 coded_workbook
                  (mkDataFrame coded_rows []) initial_world 1
                  (mkStation (full_row (IdStr "AWS-02") "Citeko" "Jawa Barat" "Bogor"
                                (-27 # 4) (427 # 4) None) "AWS")
                  "Citeko" H1 eq_refl eq_refl eq_refl eq_refl)).
Defined.

(** X5.  Whenever the sidebar dropdown returns an id, that id is what
    the session stores afterwards, and it is the first token of the
    display name of a record of the active partition: whatever id was
    stored before the run (a default, an id of another station type
    confirmed on the map) is replaced by one read off the visible
    partition. *)
Theorem X5_sidebar_selection_comes_from_active_partition
    (rows : list Station) (ty : option string) (w : World) (s : string) :
  fst (select_site rows ty w) = Returned (Some s) ->
  selected_id (snd (select_site rows ty w)) = Some s /\
  exists r d, In r (get_filtered_data rows ty) /\ JENIS r = default "" ty /\
              display_name r = Some d /\ s = first_token (split " - " d).
Proof.
  intros H. destruct (select_site_returns rows ty w s H) as (Hs & r & d & Hin & Hd & Htok).
  split; [apply selected_id_lookup, Hs |].
  exists r, d. repeat split; auto.
  destruct ty as [t |]; [| destruct Hin].
  simpl in Hin. apply filter_In in Hin as [_ E]. apply String.eqb_eq in E. exact E.
Qed.

Lemma X5_sidebar_selection_comes_from_active_partition_witness :
  fst (select_site text_rows (Some "AWS")
         (with_widgets (mkWidgets None None None false "")
            (snd (set_state selected_key (PyStr "RG - 7") fresh_session))))
  = Returned (Some "10001") /\
  selected_id
    (snd (select_site text_rows (Some "AWS")
            (with_widgets (mkWidgets None None None false "")
               (snd (set_state selected_key (PyStr "RG - 7") fresh_session)))))
  = Some "10001".
Proof.
  assert (H : fst (select_site text_rows (Some "AWS")
                     (with_widgets (mkWidgets None None None false "")
                        (snd (set_state selected_key (PyStr "RG - 7") fresh_session))))
              = Returned (Some "10001")) by reflexivity.
  split; [exact H |].
  exact (proj1 (X5_sidebar_selection_comes_from_active_partition text_rows (Some "AWS")
                  _ "10001" H)).
Defined.

(** ** Confirming a map candidate *)

Lemma handle_map_click_pressed rows w lat lon c :
  use_button (widgets w) = true ->
  last_object_clicked (widgets w) = Some (lat, lon) ->
  nearest rows lat lon = Some c ->
  handle_map_click rows w =
  (Rerun,
   mkWorld (widgets w)
     (<[selected_key := PyStr (id_str (id_station (site c)))]> (session_state w))
     (frames w)).
Proof.
  intros Hb Hc Hn. unfold handle_map_click, bind, get_widgets.
  rewrite Hc, Hn. simpl. rewrite Hb. reflexivity.
Qed.

(** A run with the button pressed on a resolved click, once the
    sidebar has returned: the candidate's id is stored on top of what
    the sidebar left, and a rerun is asked. *)
Lemma pressed_after_sidebar {A} (side : Script A) (k : A -> Script unit)
    rows w lat lon c :
  preserves same_widgets side ->
  (exists a, fst (side w) = Returned a) ->
  use_button (widgets w) = true ->
  last_object_clicked (widgets w) = Some (lat, lon) ->
  nearest rows lat lon = Some c ->
  bind side (fun a => handle_map_click rows ;;; k a) w =
  (Rerun,
   mkWorld (widgets w)
     (<[selected_key := PyStr (id_str (id_station (site c)))]>
        (session_state (snd (side w))))
     (frames (snd (side w)))).
Proof.
  intros Hw [a Ha] Hb Hc Hn. specialize (Hw w). unfold same_widgets in Hw.
  unfold bind at 1. destruct (side w) as [o w2]. simpl in Ha, Hw. subst o.
  unfold bind at 1.
  rewrite (handle_map_click_pressed rows w2 lat lon c)
    by (try rewrite Hw; assumption).
  rewrite Hw. reflexivity.
Qed.

(** The same for [Peta-Selection-v4.py], in which the map is drawn for
    the id the sidebar returned before the click is looked at. *)
Lemma pressed_after_sidebar_v4 {A} (side : Script (option A)) (k : option A -> Script unit)
    rows w lat lon c :
  preserves same_widgets side ->
  (exists a, fst (side w) = Returned (Some a)) ->
  use_button (widgets w) = true ->
  last_object_clicked (widgets w) = Some (lat, lon) ->
  nearest rows lat lon = Some c ->
  bind side (fun a => read_local a ;;; handle_map_click rows ;;; k a) w =
  (Rerun,
   mkWorld (widgets w)
     (<[selected_key := PyStr (id_str (id_station (site c)))]>
        (session_state (snd (side w))))
     (frames (snd (side w)))).
Proof.
  intros Hw [a Ha] Hb Hc Hn. specialize (Hw w). unfold same_widgets in Hw.
  unfold bind at 1. destruct (side w) as [o w2]. simpl in Ha, Hw. subst o.
  unfold bind at 1. unfold read_local, ret at 1. cbv beta iota.
  unfold bind at 1.
  rewrite (handle_map_click_pressed rows w2 lat lon c)
    by (try rewrite Hw; assumption).
  rewrite Hw. reflexivity.
Qed.

(** Where the selection ends after the button, for a script given by
    its sidebar world and its continuation. *)
Lemma confirmation_lands {rt : PyRuntime} wb table w lat lon c x r1 n1 r2 n2 :
  load_site_metadata wb = Some table ->
  selectbox_pick (widgets w) = None ->
  last_object_clicked (widgets w) = Some (lat, lon) ->
  nearest (df_rows table) lat lon = Some c ->
  selected_id w = Some x ->
  landing_record (get_filtered_data (df_rows table) (active_type (df_rows table) w)) x
  = Some r1 ->
  name_station (site r1) = Some n1 ->
  landing_record (get_filtered_data (df_rows table) (active_type (df_rows table) w))
    (id_str (id_station (site c))) = Some r2 ->
  name_station (site r2) = Some n2 ->
  separator_free (id_str (id_station (site r2))) = true ->
  selected_id (interact (main wb) PressUseStation w) = Some (id_str (id_station (site r2))) /\
  selected_id (interact (main_v4 wb) PressUseStation w) = Some (id_str (id_station (site r2))).
Proof.
  intros Hload Hpick Hclick Hnear Hx Hr1 Hn1 Hr2 Hn2 Hfree.
  set (rows := df_rows table) in *.
  set (w1 := with_widgets (apply_event PressUseStation (widgets w)) w).
  set (w0 := snd (init_session_state (snd (alloc_frame table w1)))).
  assert (Hw0 : widgets w0 = widgets w1) by apply sidebar_world_widgets.
  assert (Hside : exists a, fst (select_site rows (active_type rows w) w0) = Returned (Some a)).
  { apply selected_id_lookup in Hx.
    pose proof (sidebar_world_selected table w1) as Hv.
    change (session_state w1) with (session_state w) in Hv.
    rewrite Hx in Hv. simpl in Hv.
    edestruct (select_site_shows rows (active_type rows w) w0) as (Hf & _);
      [exact Hv | eapply landing_record_nonempty, Hr1 | | eauto].
    rewrite Hw0. simpl selectbox_pick. rewrite Hpick. unfold selectbox_value.
    rewrite lookup_map, default_index_lands, Hr1. simpl.
    unfold display_name. rewrite Hn1. reflexivity. }
  (* the second run starts from the world the first one leaves *)
  assert (Hsecond : forall w3,
    widgets w3 = widgets w1 ->
    session_state w3 !! selected_key = Some (PyStr (id_str (id_station (site c)))) ->
    session_state
      (snd (select_site rows (active_type rows (release_button w3))
              (snd (init_session_state (snd (alloc_frame table (release_button w3)))))))
      !! selected_key = Some (PyStr (id_str (id_station (site r2))))).
  { intros w3 Hw3 Hs3.
    assert (Hty : active_type rows (release_button w3) = active_type rows w).
    { unfold active_type, release_button. simpl. now rewrite Hw3. }
    rewrite Hty. eapply select_site_lands; eauto.
    - rewrite sidebar_world_selected. simpl. rewrite Hs3. reflexivity.
    - rewrite sidebar_world_widgets. simpl. rewrite Hw3. exact Hpick. }
  split; apply selected_id_lookup; unfold interact; fold w1; unfold refresh.
  - rewrite (main_unfold wb table w1 Hload). cbv zeta. fold w0 rows.
    rewrite Hw0. change (radio (station_types rows) (radio_pick (widgets w1)))
      with (active_type rows w).
    rewrite (pressed_after_sidebar _ _ rows w0 lat lon c);
      [| apply select_site_widgets | destruct Hside as [a Ha]; eauto | rewrite Hw0; reflexivity
       | rewrite Hw0; exact Hclick | exact Hnear].
    match goal with
    | |- context [main wb (release_button ?w3)] =>
        destruct (main_calm_session wb table (release_button w3) Hload eq_refl) as [_ ->];
        apply (Hsecond w3); [exact Hw0 | apply lookup_insert_eq]
    end.
  - rewrite (main_v4_unfold wb table w1 Hload). cbv zeta. fold w0 rows.
    rewrite Hw0. change (radio (station_types rows) (radio_pick (widgets w1)))
      with (active_type rows w).
    rewrite (pressed_after_sidebar_v4 _ _ rows w0 lat lon c);
      [| apply select_site_widgets | exact Hside | rewrite Hw0; reflexivity
       | rewrite Hw0; exact Hclick | exact Hnear].
    match goal with
    | |- context [main_v4 wb (release_button ?w3)] =>
        destruct (main_v4_calm_session wb table (release_button w3) Hload eq_refl) as [_ ->];
        apply (Hsecond w3); [exact Hw0 | apply lookup_insert_eq]
    end.
Qed.

(** X6.  Pressing "Use this station in selection" stores the
    candidate's id and reruns the script, and the rerun passes the
    stored id through the sidebar again.  With no choice held by the
    dropdown, the selection therefore ends on the record of the active
    partition on which the dropdown falls for the candidate's id: the
    candidate's own id when a record of the active partition carries
    it, and the id of the first record of the active partition when
    none does, as for every candidate of another station type whose id
    is not used in the active type.  (The sidebar must render in both
    runs: the records it falls on have names, and the final one an id
    free of the separator.) *)
Theorem X6_confirmed_candidate_is_revalidated {rt : PyRuntime}
    (wb : Workbook) (table : DataFrame) (w : World) (lat lon : Q)
    (c : Station) (x : string) (r1 r2 : Station) (n1 n2 : string) :
  load_site_metadata wb = Some table ->
  selectbox_pick (widgets w) = None ->
  last_object_clicked (widgets w) = Some (lat, lon) ->
  nearest (df_rows table) lat lon = Some c ->
  selected_id w = Some x ->
  landing_record (get_filtered_data (df_rows table) (active_type (df_rows table) w)) x
  = Some r1 ->
  name_station (site r1) = Some n1 ->
  landing_record (get_filtered_data (df_rows table) (active_type (df_rows table) w))
    (id_str (id_station (site c))) = Some r2 ->
  name_station (site r2) = Some n2 ->
  separator_free (id_str (id_station (site r2))) = true ->
  selected_id (interact (main wb) PressUseStation w) = Some (id_str (id_station (site r2))) /\
  selected_id (interact (main_v4 wb) PressUseStation w) = Some (id_str (id_station (site r2))) /\
  ((forall p, In p (get_filtered_data (df_rows table) (active_type (df_rows table) w)) ->
      id_str (id_station (site p)) <> id_str (id_station (site c))) ->
   head (get_filtered_data (df_rows table) (active_type (df_rows table) w)) = Some r2) /\
  ((exists p, In p (get_filtered_data (df_rows table) (active_type (df_rows table) w)) /\
      id_str (id_station (site p)) = id_str (id_station (site c))) ->
   id_str (id_station (site r2)) = id_str (id_station (site c))).
Proof.
  intros Hload Hpick Hclick Hnear Hx Hr1 Hn1 Hr2 Hn2 Hfree.
  destruct (confirmation_lands wb table w lat lon c x r1 n1 r2 n2) as [H1 H2]; auto.
  split; [exact H1 |]. split; [exact H2 |]. split.
  - intros Habs. rewrite <- Hr2. symmetry. apply landing_record_absent, Habs.
  - intros Hpres. eapply landing_record_present; eauto.
Qed.

Lemma X6_confirmed_candidate_is_revalidated_witness :
  nearest text_rows (3 # 1) (98 # 1) = Some station_RG7 /\
  active_type text_rows clicked_text_session = Some "AWS" /\
  selected_id clicked_text_session = Some "10001" /\
  selected_id (interact (@main runtime0 text_workbook) PressUseStation clicked_text_session)
  = Some "10001" /\
  head (get_filtered_data text_rows (active_type text_rows clicked_text_session))
  = Some station_10001.
Proof.
  assert (Hnear : nearest text_rows (3 # 1) (98 # 1) = Some station_RG7)
    by (vm_compute; reflexivity).
  assert (Hx : selected_id clicked_text_session = Some "10001") by reflexivity.
  destruct (@X6_confirmed_candidate_is_revalidated runtime0 text_workbook
              (mkDataFrame text_rows []) clicked_text_session (3 # 1) (98 # 1)
              station_RG7 "10001" station_10001 station_10001 "Kemayoran" "Kemayoran"
              eq_refl eq_refl eq_refl Hnear Hx eq_refl eq_refl eq_refl eq_refl eq_refl)
    as (Hsel & _ & Habs & _).
  split; [exact Hnear |]. split; [reflexivity |]. split; [exact Hx |].
  split; [exact Hsel |].
  apply Habs. intros p Hp.
  assert (E : get_filtered_data text_rows (active_type text_rows clicked_text_session)
              = firstn 2 text_rows) by (vm_compute; reflexivity).
  change (In p (get_filtered_data text_rows (active_type text_rows clicked_text_session)))
    in Hp.
  rewrite E in Hp. destruct Hp as [<- | [<- | []]]; discriminate.
Defined.

(** ** Runs that cannot complete *)

Lemma bind_returned {A B} (m : Script A) (k : A -> Script B) w b :
  fst (bind m k w) = Returned b ->
  exists a w', m w = (Returned a, w') /\ fst (k a w') = Returned b.
Proof.
  unfold bind. destruct (m w) as [[a | e |] w']; simpl; try discriminate. eauto.
Qed.

Lemma lookup_selected_site_returned rows sel w r :
  fst (lookup_selected_site rows sel w) = Returned r ->
  exists s, sel = Some s /\ In r rows /\ id_station (site r) = IdStr s.
Proof.
  unfold lookup_selected_site. destruct sel as [s |]; [| discriminate].
  destruct (List.filter _ rows) as [| r' rest] eqn:E; [discriminate |].
  simpl. intros [= <-]. exists s. split; [reflexivity |].
  assert (Hin : In r' (List.filter (fun r => id_equals_str (id_station (site r)) s) rows))
    by (rewrite E; left; reflexivity).
  apply filter_In in Hin as [Hin Heq]. split; [exact Hin |].
  unfold id_equals_str in Heq. destruct (id_station (site r')); [discriminate |].
  apply String.eqb_eq in Heq. now subst.
Qed.

Lemma numeric_ids_never_render_main {rt : PyRuntime} wb table w :
  load_site_metadata wb = Some table ->
  (forall r, In r (df_rows table) -> exists z, id_station (site r) = IdInt z) ->
  fst (main wb w) <> Returned tt.
Proof.
  intros Hload Hnum Hret. rewrite (main_unfold wb table w Hload) in Hret. cbv zeta in Hret.
  apply bind_returned in Hret as (sel & w1 & _ & Hret).
  apply bind_returned in Hret as (u & w2 & _ & Hret).
  apply bind_returned in Hret as (r & w3 & Hlook & _).
  assert (Hr : fst (lookup_selected_site (df_rows table) sel w2) = Returned r)
    by (rewrite Hlook; reflexivity).
  apply lookup_selected_site_returned in Hr as (s & _ & Hin & Hid).
  destruct (Hnum r Hin) as [z Hz]. congruence.
Qed.

Lemma sample_rows_numeric :
  forall r, In r sample_rows -> exists z, id_station (site r) = IdInt z.
Proof. intros r [<- | [<- | []]]; eexists; reflexivity. Qed.

(** ** The frames of a run *)

Lemma same_session_frames_of_state_step key v : preserves same_frames (set_state key v).
Proof. intros w. reflexivity. Qed.

Lemma get_state_frames key : preserves same_frames (get_state key).
Proof. intros w. unfold get_state. destruct (session_state w !! key); reflexivity. Qed.

Lemma get_widgets_frames : preserves same_frames get_widgets.
Proof. intros w. reflexivity. Qed.

Lemma read_frame_frames ref : preserves same_frames (read_frame ref).
Proof. intros w. unfold read_frame. destruct (frames w !! ref); reflexivity. Qed.

Lemma init_session_state_frames : preserves same_frames init_session_state.
Proof.
  intros w. unfold init_session_state.
  destruct (session_state w !! selected_key); reflexivity.
Qed.

Lemma select_site_frames rows ty : preserves same_frames (select_site rows ty).
Proof.
  unfold select_site, selectbox. frame_step; [apply get_state_frames |].
  destruct (get_filtered_data rows ty); [frame_step |].
  frame_step.
  - frame_step; [apply get_widgets_frames |].
    frame_step; [apply same_session_frames_of_state_step | frame_step].
  - destruct a0; [| frame_step].
    frame_step; [apply get_state_frames |].
    frame_step; [| frame_step].
    destruct (PyVal_eqb _ _); [frame_step | apply same_session_frames_of_state_step].
Qed.

Lemma handle_map_click_frames rows : preserves same_frames (handle_map_click rows).
Proof.
  unfold handle_map_click. frame_step; [apply get_widgets_frames |].
  frame_step.
  - destruct (last_object_clicked a) as [[lat lon] |]; [| frame_step].
    destruct (nearest rows lat lon); frame_step.
  - destruct a0; [| frame_step].
    destruct (use_button a); [| frame_step].
    frame_step; [apply same_session_frames_of_state_step | frame_step].
Qed.

Lemma lookup_selected_site_frames rows sel :
  preserves same_frames (lookup_selected_site rows sel).
Proof.
  unfold lookup_selected_site. destruct sel; [| frame_step].
  destruct (List.filter _ rows); frame_step.
Qed.

Lemma read_local_frames {A} (x : option A) : preserves same_frames (read_local x).
Proof. destruct x; frame_step. Qed.

Lemma render_detail_panel_frames {rt : PyRuntime} date phone r :
  preserves same_frames (render_detail_panel date phone r).
Proof. unfold render_detail_panel. destruct date; frame_step. Qed.

Lemma same_frames_keeps_rows {A} (m : Script A) df rows :
  preserves same_frames m -> preserves (keeps_rows df rows) m.
Proof.
  intros H w (t & Ht & Hr). exists t. rewrite (H w). auto.
Qed.

Lemma alloc_frame_keeps_rows t df rows : preserves (keeps_rows df rows) (alloc_frame t).
Proof.
  intros w (t0 & Ht & Hr). exists t0. split; [| exact Hr]. simpl.
  rewrite lookup_app_l; [exact Ht | eapply lookup_lt_Some, Ht].
Qed.

Lemma assign_column_keeps_rows ref name vals df rows :
  preserves (keeps_rows df rows) (assign_column ref name vals).
Proof.
  intros w (t0 & Ht & Hr). unfold assign_column.
  destruct (frames w !! ref) as [t |] eqn:E; [| exists t0; auto].
  unfold holds_rows. cbn [snd frames].
  destruct (decide (ref = df)) as [-> | Hne].
  - exists (with_column name vals t). split.
    + apply list_lookup_insert_eq. eapply lookup_lt_Some, Ht.
    + rewrite E in Ht. inversion Ht. subst. reflexivity.
  - exists t0. split; [| exact Hr]. now rewrite list_lookup_insert_ne.
Qed.

Lemma directory_keeps_rows {rt : PyRuntime} dt df' df rows :
  preserves (keeps_rows df rows) (directory dt df').
Proof.
  unfold directory.
  frame_step; [apply same_frames_keeps_rows, get_widgets_frames |].
  frame_step; [apply same_frames_keeps_rows, read_frame_frames |].
  frame_step.
  - destruct (search_term a); [frame_step |].
    frame_step; [intros w H; exact H | apply alloc_frame_keeps_rows].
  - frame_step; [apply same_frames_keeps_rows, read_frame_frames |].
    frame_step; [destruct (dates_typed dt); frame_step |].
    frame_step; [apply assign_column_keeps_rows |].
    frame_step; [destruct (mixed_ids _); frame_step | frame_step].
Qed.

Lemma sidebar_world_holds_rows table w :
  holds_rows (length (frames w)) (df_rows table)
    (snd (init_session_state (snd (alloc_frame table w)))).
Proof.
  exists table. split; [| reflexivity].
  rewrite (init_session_state_frames (snd (alloc_frame table w))). simpl.
  apply list_lookup_middle. reflexivity.
Qed.

Lemma frame_rows_holds {rt : PyRuntime} df rows w :
  holds_rows df rows w -> frame_rows df w = (Returned rows, w).
Proof.
  intros (t & Ht & Hr). unfold frame_rows, bind, read_frame. rewrite Ht, Hr. reflexivity.
Qed.

(** X8.  The rows of the table a run has loaded never change during
    the run: when either script stops, normally or with an exception,
    the frame the run loaded still holds exactly the loaded rows, in
    order; at most columns were assigned to it. *)
Theorem X8_rows_of_the_loaded_table_never_change {rt : PyRuntime}
    (wb : Workbook) (table : DataFrame) (w : World) :
  load_site_metadata wb = Some table ->
  (exists t, frames (snd (main wb w)) !! length (frames w) = Some t /\
             df_rows t = df_rows table) /\
  (exists t, frames (snd (main_v4 wb w)) !! length (frames w) = Some t /\
             df_rows t = df_rows table).
Proof.
  intros Hload. split.
  - rewrite (main_unfold wb table w Hload). cbv zeta.
    match goal with
    | |- context [snd (bind ?m ?k _)] =>
        assert (Hp : preserves (keeps_rows (length (frames w)) (df_rows table)) (bind m k))
    end; [| exact (Hp _ (sidebar_world_holds_rows table w))].
    frame_step; [apply same_frames_keeps_rows, select_site_frames |].
    frame_step; [apply same_frames_keeps_rows, handle_map_click_frames |].
    frame_step; [apply same_frames_keeps_rows, lookup_selected_site_frames |].
    frame_step; [apply same_frames_keeps_rows, render_detail_panel_frames |].
    frame_step; [apply directory_keeps_rows | frame_step].
  - rewrite (main_v4_unfold wb table w Hload). cbv zeta.
    match goal with
    | |- context [snd (bind ?m ?k _)] =>
        assert (Hp : preserves (keeps_rows (length (frames w)) (df_rows table)) (bind m k))
    end; [| exact (Hp _ (sidebar_world_holds_rows table w))].
    frame_step; [apply same_frames_keeps_rows, select_site_frames |].
    frame_step; [apply same_frames_keeps_rows, read_local_frames |].
    frame_step; [apply same_frames_keeps_rows, handle_map_click_frames |].
    frame_step; [apply directory_keeps_rows |].
    frame_step.
    { unfold frame_rows. frame_step;
        [apply same_frames_keeps_rows, read_frame_frames | frame_step]. }
    frame_step; [apply same_frames_keeps_rows, lookup_selected_site_frames |].
    frame_step; [apply same_frames_keeps_rows, render_detail_panel_frames | frame_step].
Qed.

Lemma X8_rows_of_the_loaded_table_never_change_witness :
  load_site_metadata text_workbook = Some (mkDataFrame text_rows []) /\
  exists t, frames (snd (@main runtime0 text_workbook initial_world)) !! 0 = Some t /\
            df_rows t = text_rows.
Proof.
  split; [reflexivity |].
  exact (proj1 (@X8_rows_of_the_loaded_table_never_change runtime0 text_workbook
                  (mkDataFrame text_rows []) initial_world eq_refl)).
Defined.

Lemma numeric_ids_never_render_main_v4 {rt : PyRuntime} wb table w :
  load_site_metadata wb = Some table ->
  (forall r, In r (df_rows table) -> exists z, id_station (site r) = IdInt z) ->
  fst (main_v4 wb w) <> Returned tt.
Proof.
  intros Hload Hnum Hret.
  rewrite (main_v4_unfold wb table w Hload) in Hret. cbv zeta in Hret.
  pose proof (sidebar_world_holds_rows table w) as H0.
  apply bind_returned in Hret as (sel & w1 & Hside & Hret).
  assert (H1 : holds_rows (length (frames w)) (df_rows table) w1).
  { eapply (same_frames_keeps_rows _ _ _ (select_site_frames _ _)) in H0.
    rewrite Hside in H0. exact H0. }
  apply bind_returned in Hret as (s0 & w1' & Hlocal & Hret).
  assert (H1' : holds_rows (length (frames w)) (df_rows table) w1').
  { eapply (same_frames_keeps_rows _ _ _ (read_local_frames sel)) in H1.
    rewrite Hlocal in H1. exact H1. }
  apply bind_returned in Hret as (u & w2 & Hclick & Hret).
  assert (H2 : holds_rows (length (frames w)) (df_rows table) w2).
  { eapply (same_frames_keeps_rows _ _ _ (handle_map_click_frames _)) in H1'.
    rewrite Hclick in H1'. exact H1'. }
  apply bind_returned in Hret as (ref & w3 & Hdir & Hret).
  assert (H3 : holds_rows (length (frames w)) (df_rows table) w3).
  { eapply (directory_keeps_rows (loaded_dtypes wb) (length (frames w))) in H2.
    rewrite Hdir in H2. exact H2. }
  apply bind_returned in Hret as (rows' & w4 & Hrows & Hret).
  rewrite (frame_rows_holds _ _ _ H3) in Hrows. inversion Hrows. subst rows' w4.
  apply bind_returned in Hret as (r & w5 & Hlook & _).
  assert (Hr : fst (lookup_selected_site (df_rows table) sel w3) = Returned r)
    by (rewrite Hlook; reflexivity).
  apply lookup_selected_site_returned in Hr as (s & _ & Hin & Hid).
  destruct (Hnum r Hin) as [z Hz]. congruence.
Qed.

(** X7.  A run that ends normally has found the selected record by a
    stored text id.  On a table whose ids are all stored as numbers no
    run of either script ever ends normally, whatever the widgets and
    the session hold: the lookup of the selected record compares the
    stored number with a string. *)
Theorem X7_numeric_ids_never_render {rt : PyRuntime}
    (wb : Workbook) (table : DataFrame) (w : World) :
  load_site_metadata wb = Some table ->
  (forall r, In r (df_rows table) -> exists z, id_station (site r) = IdInt z) ->
  fst (main wb w) <> Returned tt /\ fst (main_v4 wb w) <> Returned tt.
Proof.
  intros Hload Hnum. split.
  - apply (numeric_ids_never_render_main wb table w Hload Hnum).
  - apply (numeric_ids_never_render_main_v4 wb table w Hload Hnum).
Qed.

Lemma X7_numeric_ids_never_render_witness :
  load_site_metadata sample_workbook = Some (mkDataFrame sample_rows []) /\
  fst (@main runtime0 sample_workbook opened_text_session) <> Returned tt /\
  fst (@main_v4 runtime0 sample_workbook opened_text_session) <> Returned tt.
Proof.
  split; [reflexivity |].
  exact (@X7_numeric_ids_never_render runtime0 sample_workbook (mkDataFrame sample_rows [])
           opened_text_session eq_refl sample_rows_numeric).
Defined.

(** X9.  The directory tab changes the loaded table exactly when the
    search term is empty and the install dates are datetime64: then
    the table itself receives the column [tgl_pasang_str] with the
    install dates as day/month/year (missing where the date is
    missing), before the table shown is sorted by id, which raises
    [TypeError] when numbers and texts meet among the ids.  With an
    empty term and install dates that are not datetime64 the tab
    raises [AttributeError] and assigns nothing.  With any other term,
    whether it compiles as a pattern or not, the table is the same
    object with the same columns afterwards. *)
Theorem X9_directory_touches_the_table_only_for_the_empty_term {rt : PyRuntime}
    (dt : Dtypes) (df : nat) (w : World) (t : DataFrame) :
  frames w !! df = Some t ->
  frames (snd (directory dt df w)) !! df =
  Some match search_term (widgets w) with
       | EmptyString =>
           if dates_typed dt
           then with_column "tgl_pasang_str"
                  (map (fun r => option_map strftime_dmY (tgl_pasang (site r))) (df_rows t)) t
           else t
       | _ => t
       end /\
  (search_term (widgets w) = "" ->
   fst (directory dt df w) =
   if dates_typed dt
   then (if mixed_ids (df_rows t) then Raised TypeError else Returned df)
   else Raised AttributeError).
Proof.
  intros Hdf. split.
  - destruct (search_term (widgets w)) as [| c term] eqn:E.
    + rewrite (directory_empty_term dt df w t Hdf E).
      destruct (dates_typed dt); [| exact Hdf]. cbn [snd frames].
      apply list_lookup_insert_eq. eapply lookup_lt_Some, Hdf.
    + apply directory_search_term_keeps_table; [exact Hdf |]. rewrite E. discriminate.
  - intros E. rewrite (directory_empty_term dt df w t Hdf E).
    destruct (dates_typed dt); reflexivity.
Qed.

Lemma X9_directory_touches_the_table_only_for_the_empty_term_witness :
  frames (snd (alloc_frame (mkDataFrame coded_rows []) initial_world)) !! 0
  = Some (mkDataFrame coded_rows []) /\
  fst (@directory runtime0 (@loaded_dtypes runtime0 coded_workbook) 0
         (snd (alloc_frame (mkDataFrame coded_rows []) initial_world)))
  = Returned 0.
Proof.
  split; [reflexivity |].
  exact (proj2 (@X9_directory_touches_the_table_only_for_the_empty_term runtime0
                  (@loaded_dtypes runtime0 coded_workbook) 0
                  (snd (alloc_frame (mkDataFrame coded_rows []) initial_world))
                  (mkDataFrame coded_rows []) eq_refl) eq_refl).
Defined.

(** ** The empty table *)

Lemma select_site_empty_table w v :
  session_state w !! selected_key = Some v ->
  select_site [] (radio (station_types []) (radio_pick (widgets w))) w = (Returned None, w).
Proof.
  intros Hv. unfold select_site, bind, get_state. rewrite Hv.
  destruct (radio_pick (widgets w)) as [[| i] |]; reflexivity.
Qed.

Lemma handle_map_click_no_click rows w :
  last_object_clicked (widgets w) = None -> handle_map_click rows w = (Returned tt, w).
Proof. intros H. unfold handle_map_click, bind, get_widgets. rewrite H. reflexivity. Qed.

Lemma handle_map_click_empty_table w p :
  last_object_clicked (widgets w) = Some p -> handle_map_click [] w = (Raised ValueError, w).
Proof.
  intros H. unfold handle_map_click, bind, get_widgets. rewrite H.
  destruct p as [lat lon]. reflexivity.
Qed.

(** X10.  When every row of the workbook lacks a coordinate the loader
    still returns a table, with no row; on such a table no station
    type is active, the sidebar binds no selected id, and the run of
    [Peta-Selection.py] does not reach its end: it raises [NameError]
    at the lookup of the selected record, or [ValueError] from the
    nearest search when a map click is stored. *)
Theorem X10_empty_table_stops_the_run {rt : PyRuntime}
    (wb : Workbook) (table : DataFrame) (w : World) :
  load_site_metadata wb = Some table ->
  df_rows table = [] ->
  active_type (df_rows table) w = None /\
  fst (main wb w) =
    Raised match last_object_clicked (widgets w) with
           | Some _ => ValueError
           | None => NameError
           end.
Proof.
  intros Hload Hrows. split; [rewrite Hrows; unfold active_type, radio;
                              destruct (radio_pick (widgets w)) as [[| i] |]; reflexivity |].
  pose proof (sidebar_world_selected table w) as Hv.
  pose proof (sidebar_world_widgets table w) as Hw.
  rewrite (main_unfold wb table w Hload). cbv zeta. rewrite Hrows.
  unfold bind at 1. rewrite (select_site_empty_table _ _ Hv).
  unfold bind at 1.
  destruct (last_object_clicked (widgets w)) as [p |] eqn:Hc.
  - rewrite (handle_map_click_empty_table _ p) by (rewrite Hw; exact Hc). reflexivity.
  - rewrite handle_map_click_no_click by (rewrite Hw; exact Hc). reflexivity.
Qed.

Lemma X10_empty_table_stops_the_run_witness :
  load_site_metadata workbook_without_coordinates = Some (mkDataFrame [] []) /\
  fst (@main runtime0 workbook_without_coordinates initial_world) = Raised NameError.
Proof.
  assert (H : load_site_metadata workbook_without_coordinates = Some (mkDataFrame [] []))
    by reflexivity.
  split; [exact H |].
  apply (@X10_empty_table_stops_the_run runtime0 workbook_without_coordinates
           (mkDataFrame [] []) initial_world H eq_refl).
Defined.

(** ** What a run writes to the session *)

Lemma same_session_entry {A} (m : Script A) key :
  preserves same_session m -> preserves (same_entry key) m.
Proof. intros H w. unfold same_entry. destruct (H w) as [-> _]. reflexivity. Qed.

Lemma set_state_other_entry key key' v :
  key' <> key -> preserves (same_entry key) (set_state key' v).
Proof. intros Hne w. unfold same_entry. simpl. now rewrite lookup_insert_ne. Qed.

Lemma init_session_state_entry key :
  key <> selected_key -> preserves (same_entry key) init_session_state.
Proof.
  intros Hne w. unfold init_session_state.
  destruct (session_state w !! selected_key); [reflexivity |].
  apply set_state_other_entry. congruence.
Qed.

Lemma select_site_entry rows ty key :
  key <> selected_key -> key <> dropdown_key ->
  preserves (same_entry key) (select_site rows ty).
Proof.
  intros H1 H2. unfold select_site, selectbox.
  frame_step; [apply same_session_entry, get_state_same |].
  destruct (get_filtered_data rows ty); [frame_step |].
  frame_step.
  - frame_step; [apply same_session_entry, get_widgets_same |].
    frame_step; [apply set_state_other_entry; congruence | frame_step].
  - destruct a0; [| frame_step].
    frame_step; [apply same_session_entry, get_state_same |].
    frame_step; [| frame_step].
    destruct (PyVal_eqb _ _); [frame_step | apply set_state_other_entry; congruence].
Qed.

Lemma handle_map_click_entry rows key :
  key <> selected_key -> preserves (same_entry key) (handle_map_click rows).
Proof.
  intros H1. unfold handle_map_click.
  frame_step; [apply same_session_entry, get_widgets_same |].
  frame_step.
  - destruct (last_object_clicked a) as [[lat lon] |]; [| frame_step].
    destruct (nearest rows lat lon); frame_step.
  - destruct a0; [| frame_step].
    destruct (use_button a); [| frame_step].
    frame_step; [apply set_state_other_entry; congruence | frame_step].
Qed.

Lemma main_entry {rt : PyRuntime} wb key :
  key <> selected_key -> key <> dropdown_key -> preserves (same_entry key) (main wb).
Proof.
  intros H1 H2. unfold main. destruct (load_site_metadata wb); [| frame_step].
  frame_step; [apply same_session_entry, alloc_frame_same |].
  frame_step; [apply init_session_state_entry, H1 |].
  frame_step; [apply same_session_entry, get_widgets_same |].
  frame_step; [apply same_session_entry, frame_rows_same |].
  frame_step; [apply select_site_entry; assumption |].
  frame_step; [apply handle_map_click_entry, H1 |].
  frame_step; [apply same_session_entry, lookup_selected_site_same |].
  frame_step; [apply same_session_entry, render_detail_panel_same |].
  frame_step; [apply same_session_entry, directory_same | frame_step].
Qed.

Lemma main_v4_entry {rt : PyRuntime} wb key :
  key <> selected_key -> key <> dropdown_key -> preserves (same_entry key) (main_v4 wb).
Proof.
  intros H1 H2. unfold main_v4. destruct (load_site_metadata wb); [| frame_step].
  frame_step; [apply same_session_entry, alloc_frame_same |].
  frame_step; [apply init_session_state_entry, H1 |].
  frame_step; [apply same_session_entry, get_widgets_same |].
  frame_step; [apply same_session_entry, frame_rows_same |].
  frame_step; [apply select_site_entry; assumption |].
  frame_step; [apply same_session_entry, read_local_same |].
  frame_step; [apply handle_map_click_entry, H1 |].
  frame_step; [apply same_session_entry, directory_same |].
  frame_step; [apply same_session_entry, frame_rows_same |].
  frame_step; [apply same_session_entry, lookup_selected_site_same |].
  frame_step; [apply same_session_entry, render_detail_panel_same | frame_step].
Qed.

Lemma refresh_entry script key w :
  preserves (same_entry key) script ->
  session_state (refresh script w) !! key = session_state w !! key.
Proof.
  intros H. unfold refresh. pose proof (H w) as H1. unfold same_entry in H1.
  destruct (script w) as [[u | e |] w1]; simpl in H1; try exact H1.
  rewrite (H (release_button w1)). exact H1.
Qed.

(** X11.  A refresh writes two session entries and no other: whatever
    the interaction, the workbook and the script, every entry of
    [st.session_state] under a key other than [selected_id_station]
    and [selected_site_dropdown] is after the refresh what it was
    before, also when the run raises or is rerun. *)
Theorem X11_runs_write_two_session_keys_only {rt : PyRuntime}
    (wb : Workbook) (e : Event) (w : World) (key : string) :
  key <> selected_key -> key <> dropdown_key ->
  session_state (interact (main wb) e w) !! key = session_state w !! key /\
  session_state (interact (main_v4 wb) e w) !! key = session_state w !! key.
Proof.
  intros H1 H2. unfold interact. split.
  - now rewrite (refresh_entry _ key _ (main_entry wb key H1 H2)).
  - now rewrite (refresh_entry _ key _ (main_v4_entry wb key H1 H2)).
Qed.

Lemma X11_runs_write_two_session_keys_only_witness :
  "theme" <> selected_key /\ "theme" <> dropdown_key /\
  session_state
    (interact (@main runtime0 text_workbook) (ChooseType 1)
       (snd (set_state "theme" (PyStr "dark") opened_text_session))) !! "theme"
  = Some (PyStr "dark").
Proof.
  assert (H1 : "theme" <> selected_key) by discriminate.
  assert (H2 : "theme" <> dropdown_key) by discriminate.
  split; [exact H1 |]. split; [exact H2 |].
  rewrite (proj1 (@X11_runs_write_two_session_keys_only runtime0 text_workbook
                    (ChooseType 1)
                    (snd (set_state "theme" (PyStr "dark") opened_text_session))
                    "theme" H1 H2)).
  reflexivity.
Defined.

(** ** Display names: when the round trip fails *)

Lemma first_token_shorter (cur x rest : string) :
  separator_free x = false ->
  String.length (first_token (split_go " - " 0 cur (x ++ " - " ++ rest)))
  < String.length cur + String.length x.
Proof.
  unfold separator_free. rewrite negb_false_iff.
  revert cur. induction x as [| c x IH]; intros cur Hocc; [discriminate Hocc |].
  rewrite string_app_cons, contains_sub_cons in Hocc.
  rewrite string_app_cons, split_go_scan.
  assert (Hp : String.prefix " - " (String c (x ++ " - " ++ rest))
               = String.prefix " - " (String c (x ++ " -"))).
  { change (" - " ++ rest) with (" -" ++ " " ++ rest).
    rewrite <- (string_app_assoc x " -" (" " ++ rest)), <- string_app_cons.
    apply prefix_app_long. simpl. rewrite string_length_app. simpl. lia. }
  rewrite Hp. destruct (String.prefix " - " (String c (x ++ " -"))) eqn:Hhere.
  - simpl. lia.
  - simpl in Hocc. specialize (IH (cur ++ String c "") Hocc).
    rewrite string_length_app in IH. simpl in *. lia.
Qed.

(** X12.  The id is read back from a display name exactly when it is
    free of the separator: for every id text [x] and name [n], the
    first token of [x ++ " - " ++ n] split on [" - "] is [x] if and
    only if [" - "] does not occur in [x] followed by [" -"]; when it
    does occur the token is strictly shorter than the id. *)
Theorem X12_round_trip_iff_separator_free (x n : string) :
  (first_token (split " - " (x ++ " - " ++ n)) = x <-> separator_free x = true) /\
  (separator_free x = false ->
   String.length (first_token (split " - " (x ++ " - " ++ n))) < String.length x).
Proof.
  assert (Hshort : separator_free x = false ->
                   String.length (first_token (split " - " (x ++ " - " ++ n)))
                   < String.length x).
  { intros H. exact (first_token_shorter "" x n H). }
  split; [| exact Hshort]. split.
  - intros Heq. destruct (separator_free x) eqn:E; [reflexivity |].
    specialize (Hshort eq_refl). rewrite Heq in Hshort. lia.
  - apply display_round_trip.
Qed.

(* ------------------------------------------------------------------ *)
(** * Properties of the maps, the summary and the metrics *)

Lemma location_of_coordinates r :
  has_coordinates (site r) = true -> exists loc, location_of r = Some loc.
Proof.
  unfold has_coordinates, location_of.
  destruct (latt_station (site r)), (long_station (site r)); simpl; try discriminate.
  eauto.
Qed.

(** X13.  On a table whose rows have coordinates the map of individual
    markers is always built, whichever optional cells are missing.  It
    holds one marker, in table order, for every station that is of the
    selected type or whose id, as a string, is the selected id; the
    marker is a red star exactly when the id matches, so a station
    with a numeric id is starred by its string form, and a station of
    another type that carries the selected id is drawn and starred as
    well; all other markers are blue; the popup shows the install date
    or "N/A". *)
Theorem X13_selective_map_markers (format_3f : Q -> string)
    (rows : list Station) (ty : option string) (sel : PyVal) :
  (forall r, In r rows -> has_coordinates (site r) = true) ->
  exists markers,
    create_selective_map format_3f rows ty sel = Some markers /\
    Forall2
      (fun r m =>
         location_of r = Some (marker_location m) /\
         marker_tooltip m = tooltip_text r /\
         (marker_color m, marker_icon m)
         = (if String.eqb (id_str (id_station (site r))) (py_str sel)
            then ("red", "star") else ("blue", "info-sign")) /\
         In ("Installation Year",
             match tgl_pasang (site r) with
             | Some t => strftime_mdY t
             | None => "N/A"
             end) (marker_popup m))
      (List.filter
         (fun r => String.eqb (id_str (id_station (site r))) (py_str sel)
                   || match ty with
                      | Some t => String.eqb (JENIS r) t
                      | None => false
                      end) rows)
      markers.
Proof.
  induction rows as [| r rows IH]; intros Hc.
  - exists []. split; [reflexivity | constructor].
  - destruct IH as (ms & Hms & Hall); [intros r' Hr'; apply Hc; right; exact Hr' |].
    destruct (location_of_coordinates r (Hc r (or_introl eq_refl))) as [loc Hloc].
    simpl. unfold marker_style.
    destruct (String.eqb (id_str (id_station (site r))) (py_str sel)) eqn:Eid.
    + rewrite Hloc, Hms. simpl. eexists. split; [reflexivity |].
      constructor; [| exact Hall]. simpl. rewrite Eid.
      repeat split; auto. unfold install_date_text. auto 10.
    + destruct (match ty with Some t => String.eqb (JENIS r) t | None => false end) eqn:Ety.
      * rewrite Hloc, Hms. simpl. eexists. split; [reflexivity |].
        constructor; [| exact Hall]. simpl. rewrite Eid.
        repeat split; auto. unfold install_date_text. auto 10.
      * simpl. exists ms. split; [exact Hms | exact Hall].
Qed.

Lemma X13_selective_map_markers_witness :
  (forall r, In r sample_rows -> has_coordinates (site r) = true) /\
  option_map (map (fun m => (marker_tooltip m, marker_color m)))
    (create_selective_map sample_format_3f sample_rows (Some "AWS") (PyStr "1"))
  = Some [("Serang (ID: 1)", "red"); ("Medan (ID: 1)", "red")].
Proof.
  split; [exact sample_rows_have_coordinates |].
  destruct (X13_selective_map_markers sample_format_3f sample_rows (Some "AWS") (PyStr "1")
              sample_rows_have_coordinates) as (ms & Hms & _).
  rewrite Hms. injection Hms as <-. reflexivity.
Defined.

(** ** Counting by key *)

Lemma list_sum_map_add {A} (g h : A -> nat) (l : list A) :
  list_sum (map (fun k => g k + h k) l) = list_sum (map g l) + list_sum (map h l).
Proof. induction l as [| k l IH]; simpl; [reflexivity | rewrite IH; lia]. Qed.

Lemma sum_indicator (p : string) (keys : list string) :
  List.NoDup keys ->
  list_sum (map (fun k => if String.eqb p k then 1 else 0) keys)
  = if existsb (String.eqb p) keys then 1 else 0.
Proof.
  induction 1 as [| k keys Hk Hnd IH]; [reflexivity |].
  simpl. rewrite IH. destruct (String.eqb p k) eqn:E; simpl; [| reflexivity].
  apply String.eqb_eq in E. subst k.
  destruct (existsb (String.eqb p) keys) eqn:Ex; [| reflexivity].
  apply existsb_exists in Ex as (q & Hq & Heq). apply String.eqb_eq in Heq. subst q.
  contradiction.
Qed.

(** Every row with a key is counted under exactly one of the keys. *)
Lemma sum_group_counts {A} (f : A -> option string) (keys : list string) (xs : list A) :
  List.NoDup keys ->
  (forall x k, In x xs -> f x = Some k -> In k keys) ->
  list_sum
    (map (fun k => length (List.filter
                             (fun x => match f x with
                                       | Some p => String.eqb p k
                                       | None => false
                                       end) xs)) keys)
  = length (List.filter (fun x => notna (f x)) xs).
Proof.
  intros Hnd. induction xs as [| x xs IH]; intros Hcov.
  - clear Hnd Hcov. induction keys as [| k keys IHk]; [reflexivity | exact IHk].
  - assert (IH' := IH (fun y k Hy => Hcov y k (or_intror Hy))). clear IH.
    simpl. destruct (f x) as [p |] eqn:Ef; simpl.
    + rewrite <- IH'.
      rewrite (map_ext _ (fun k => (if String.eqb p k then 1 else 0)
                                   + length (List.filter
                                               (fun x => match f x with
                                                         | Some p => String.eqb p k
                                                         | None => false
                                                         end) xs))).
      * rewrite list_sum_map_add, (sum_indicator p keys Hnd).
        replace (existsb (String.eqb p) keys) with true; [reflexivity |].
        symmetry. apply existsb_exists. exists p. split; [| apply String.eqb_refl].
        apply (Hcov x p); [left; reflexivity | exact Ef].
      * intros k. destruct (String.eqb p k); reflexivity.
    + exact IH'.
Qed.

Lemma sorted_types_NoDup rows :
  List.NoDup (merge_sort String.le (station_types rows)).
Proof.
  eapply Permutation_NoDup; [symmetry; apply merge_sort_Permutation |].
  apply unique_go_NoDup.
Qed.

Lemma sorted_types_In rows ty :
  In ty (merge_sort String.le (station_types rows)) <-> In ty (station_types rows).
Proof.
  split; apply Permutation_in; [| symmetry]; apply merge_sort_Permutation.
Qed.

Lemma count_type_positive rows ty :
  In ty (station_types rows) -> 0 < count_type rows ty.
Proof.
  intros H. apply station_types_In in H as (r & Hr & Hty). unfold count_type.
  assert (Hin : In r (List.filter (fun r => String.eqb (JENIS r) ty) rows)).
  { apply filter_In. split; [exact Hr |]. rewrite Hty. apply String.eqb_refl. }
  destruct (List.filter _ rows); [destruct Hin | simpl; lia].
Qed.

(** X14.  The sidebar summary lists every station type of the table
    exactly once, in ascending order of the type names, each with the
    number of rows of its partition, which is at least one; the counts
    add up to the number of rows of the table, and there is one
    summary line per type. *)
Theorem X14_type_summary_counts_every_station_once (rows : list Station) :
  Sorted String.le (map fst (type_counts rows)) /\
  List.NoDup (map fst (type_counts rows)) /\
  (forall ty, In ty (map fst (type_counts rows)) <-> exists r, In r rows /\ JENIS r = ty) /\
  (forall ty n, In (ty, n) (type_counts rows) ->
     n = length (get_filtered_data rows (Some ty)) /\ 0 < n) /\
  list_sum (map snd (type_counts rows)) = length rows /\
  length (type_summary rows) = length (station_types rows).
Proof.
  assert (Hfst : map fst (type_counts rows) = merge_sort String.le (station_types rows)).
  { unfold type_counts. rewrite map_map. simpl. apply map_id. }
  rewrite Hfst. repeat split.
  - apply Sorted_merge_sort. apply String.le_total.
  - apply sorted_types_NoDup.
  - intros H. apply station_types_In, sorted_types_In, H.
  - intros H. apply sorted_types_In, station_types_In, H.
  - unfold type_counts in H. apply in_map_iff in H as (t & E & _). now inversion E.
  - unfold type_counts in H. apply in_map_iff in H as (t & E & Hin). inversion E. subst.
    apply count_type_positive, sorted_types_In, Hin.
  - unfold type_counts. rewrite map_map. simpl. unfold count_type.
    transitivity (length (List.filter (fun r => notna (Some (JENIS r))) rows)).
    + apply (sum_group_counts (fun r => Some (JENIS r)) _ rows (sorted_types_NoDup rows)).
      intros r k Hr [= <-]. apply sorted_types_In, station_types_In. eauto.
    + simpl. clear. induction rows; simpl; [reflexivity | now f_equal].
  - unfold type_summary, type_counts. rewrite !length_map.
    apply Permutation_length, merge_sort_Permutation.
Qed.

(** ** The clustered map *)

Lemma lookup_repeat_list {A} (l : list A) (k i : nat) :
  i < k * length l -> repeat_list k l !! i = l !! (i mod length l).
Proof.
  unfold repeat_list. revert i. induction k as [| k IH]; intros i Hi; [simpl in Hi; lia |].
  simpl. destruct (Nat.lt_ge_cases i (length l)) as [Hlt | Hge].
  - rewrite lookup_app_l by exact Hlt. now rewrite Nat.mod_small.
  - rewrite lookup_app_r by exact Hge. rewrite IH by (simpl in Hi; lia).
    f_equal. replace i with ((i - length l) + 1 * length l) at 2 by lia.
    now rewrite Nat.Div0.mod_add.
Qed.

Lemma color_pool_covers (n len : nat) : 0 < len -> n < (n / len + 1) * len.
Proof.
  intros Hlen. pose proof (Nat.div_mod_eq n len) as E.
  pose proof (Nat.mod_upper_bound n len ltac:(lia)) as Hm. nia.
Qed.

Lemma province_hex_from_spec pool i provinces acc :
  List.NoDup provinces ->
  i + length provinces <= length pool ->
  exists m,
    province_hex_from pool i provinces acc = Some m /\
    (forall j p, provinces !! j = Some p -> m !! p = pool !! (i + j)) /\
    (forall q, ~ In q provinces -> m !! q = acc !! q).
Proof.
  intros Hnd. revert i acc. induction Hnd as [| p rest Hp Hnd IH]; intros i acc Hlen.
  - exists acc. split; [reflexivity |]. split; [intros j p H; destruct j; discriminate H | auto].
  - simpl in *. destruct (pool !! i) as [c |] eqn:Ec.
    + destruct (IH (S i) (<[p := c]> acc)) as (m & Hm & Hin & Hout); [lia |].
      exists m. split; [exact Hm |]. split.
      * intros [| j] q Hq; simpl in Hq.
        -- inversion Hq. subst q. rewrite (Hout p Hp), lookup_insert_eq, Nat.add_0_r.
           now rewrite Ec.
        -- rewrite (Hin j q Hq). f_equal. lia.
      * intros q Hq. rewrite Hout by tauto. apply lookup_insert_ne. tauto.
    + apply lookup_ge_None in Ec. lia.
Qed.

Lemma cluster_markers_spec format_3f color group :
  (forall r, In r group -> has_coordinates (site r) = true) ->
  exists ms,
    cluster_markers format_3f color group = Some ms /\
    Forall2 (fun r m => location_of r = Some (marker_location m) /\
                        marker_color m = color /\ marker_tooltip m = tooltip_text r)
      group ms.
Proof.
  induction group as [| r group IH]; intros Hc.
  - exists []. split; [reflexivity | constructor].
  - destruct IH as (ms & Hms & Hall); [intros r' Hr'; apply Hc; right; exact Hr' |].
    destruct (location_of_coordinates r (Hc r (or_introl eq_refl))) as [loc Hloc].
    simpl. rewrite Hloc, Hms. simpl. eexists. split; [reflexivity |].
    constructor; [simpl; auto | exact Hall].
Qed.

Lemma clusters_of_spec format_3f hex filtered provinces :
  (forall r, In r filtered -> has_coordinates (site r) = true) ->
  (forall p, In p provinces -> exists c, hex !! p = Some c) ->
  exists cs,
    clusters_of format_3f hex filtered provinces = Some cs /\
    Forall2 (fun p c =>
               fst (fst c) = p /\ hex !! p = Some (snd (fst c)) /\
               Forall2 (fun r m => location_of r = Some (marker_location m) /\
                                   marker_color m = snd (fst c) /\
                                   marker_tooltip m = tooltip_text r)
                 (province_group filtered p) (snd c))
      provinces cs.
Proof.
  intros Hc. induction provinces as [| p rest IH]; intros Hhex.
  - exists []. split; [reflexivity | constructor].
  - destruct IH as (cs & Hcs & Hall); [intros q Hq; apply Hhex; right; exact Hq |].
    destruct (Hhex p (or_introl eq_refl)) as [c Hcol].
    destruct (cluster_markers_spec format_3f c (province_group filtered p)) as (ms & Hms & Hm).
    { intros r Hr. apply Hc. unfold province_group in Hr. apply filter_In in Hr. apply Hr. }
    simpl. rewrite Hcol, Hms, Hcs. eexists. split; [reflexivity |].
    constructor; [simpl; auto | exact Hall].
Qed.

Lemma provinces_of_NoDup filtered : List.NoDup (provinces_of filtered).
Proof.
  eapply Permutation_NoDup; [symmetry; apply merge_sort_Permutation |].
  apply unique_go_NoDup.
Qed.

Lemma provinces_of_In filtered p :
  In p (provinces_of filtered) <-> exists r, In r filtered /\ nama_propinsi (site r) = Some p.
Proof.
  unfold provinces_of. split.
  - intros H. apply (Permutation_in _ (merge_sort_Permutation _ _)) in H.
    apply unique_go_In in H as [H _].
    apply list_elem_of_In, list_elem_of_omap in H as (r & Hr & E).
    exists r. split; [apply list_elem_of_In, Hr | exact E].
  - intros (r & Hr & E).
    apply (Permutation_in _ (Permutation_sym (merge_sort_Permutation _ _))).
    apply unique_go_In. split; [| intros []].
    apply list_elem_of_In, list_elem_of_omap. exists r.
    split; [apply list_elem_of_In, Hr | exact E].
Qed.

(** X15.  With a non-empty palette and rows that have coordinates, the
    clustered map is always built: neither the colour lookup nor the
    province lookup can fail, however many provinces there are.  It
    has one feature group per province of the selected type, in
    ascending order of the province names; the group at position [i]
    has colour [palette[i mod len(palette)]], and holds one marker of
    that colour per station of the province, in table order.  Stations
    of the selected type without a province get no marker: the markers
    number as many as the stations of the type that have a province. *)
Theorem X15_clustered_map_groups_and_colours (format_3f : Q -> string)
    (hex_palette : list string) (rows : list Station) (ty : option string) :
  hex_palette <> [] ->
  (forall r, In r rows -> has_coordinates (site r) = true) ->
  exists clusters,
    create_clustered_map format_3f hex_palette rows ty = Some clusters /\
    map (fun c => fst (fst c)) clusters = provinces_of (get_filtered_data rows ty) /\
    Sorted String.le (map (fun c => fst (fst c)) clusters) /\
    (forall i p, provinces_of (get_filtered_data rows ty) !! i = Some p ->
       exists col ms,
         clusters !! i = Some (p, col, ms) /\
         hex_palette !! (i mod length hex_palette) = Some col /\
         Forall2 (fun r m => location_of r = Some (marker_location m) /\
                             marker_color m = col /\ marker_tooltip m = tooltip_text r)
           (province_group (get_filtered_data rows ty) p) ms) /\
    list_sum (map (fun c => length (snd c)) clusters)
    = length (List.filter (fun r => notna (nama_propinsi (site r)))
                (get_filtered_data rows ty)).
Proof.
  intros Hpal Hc. unfold create_clustered_map. cbv zeta.
  set (filtered := get_filtered_data rows ty).
  set (provinces := provinces_of filtered).
  destruct hex_palette as [| c0 palette']; [congruence |].
  set (palette := c0 :: palette') in *.
  set (pool := repeat_list (length provinces / length palette + 1) palette).
  assert (Hlen : 0 < length palette) by (simpl; lia).
  assert (Hpool : forall i, i < length provinces ->
                            pool !! i = palette !! (i mod length palette)).
  { intros i Hi. apply lookup_repeat_list.
    pose proof (color_pool_covers (length provinces) (length palette) Hlen). lia. }
  assert (Hpool_len : 0 + length provinces <= length pool).
  { destruct (Nat.le_gt_cases (length provinces) (length pool)) as [H | H]; [exact H |].
    destruct provinces as [| p ps] eqn:Ep; [simpl; lia |].
    assert (Hlast : pool !! (length ps) = palette !! (length ps mod length palette))
      by (apply Hpool; simpl; lia).
    assert (Hsome : is_Some (palette !! (length ps mod length palette)))
      by (apply lookup_lt_is_Some_2, Nat.mod_upper_bound; lia).
    rewrite <- Hlast in Hsome. apply lookup_lt_is_Some_1 in Hsome. simpl in H. lia. }
  destruct (province_hex_from_spec pool 0 provinces ∅ (provinces_of_NoDup filtered) Hpool_len)
    as (hex & Hhex & Hin & _).
  rewrite Hhex.
  assert (Hfiltered : forall r, In r filtered -> has_coordinates (site r) = true).
  { intros r Hr. apply Hc. unfold filtered, get_filtered_data in Hr.
    destruct ty; [| destruct Hr]. apply filter_In in Hr. apply Hr. }
  destruct (clusters_of_spec format_3f hex filtered provinces Hfiltered) as (cs & Hcs & Hall).
  { intros p Hp. apply list_elem_of_In, list_elem_of_lookup in Hp as [j Hj].
    rewrite (Hin j p Hj). simpl. rewrite Hpool by (eapply lookup_lt_Some, Hj).
    apply lookup_lt_is_Some_2, Nat.mod_upper_bound. lia. }
  exists cs. split; [exact Hcs |].
  assert (Hnames : map (fun c => fst (fst c)) cs = provinces).
  { clear - Hall. induction Hall as [| p c ps cs' (E & _) _ IH]; [reflexivity |].
    simpl. now rewrite E, IH. }
  split; [exact Hnames |]. split.
  { rewrite Hnames. apply Sorted_merge_sort, String.le_total. }
  split.
  - intros i p Hi.
    destruct (Forall2_lookup_l _ _ _ _ _ Hall Hi) as ([[p' col] ms] & Hci & E & Hcol & Hms).
    simpl in E, Hcol, Hms. subst p'. exists col, ms. split; [exact Hci |].
    split; [| exact Hms].
    rewrite <- Hpool by (eapply lookup_lt_Some, Hi).
    rewrite <- Hcol. symmetry. apply (Hin i p Hi).
  - transitivity (list_sum (map (fun p => length (province_group filtered p)) provinces)).
    + clear - Hall. induction Hall as [| p c ps cs' (_ & _ & Hm) _ IH]; [reflexivity |].
      simpl. rewrite IH. f_equal. symmetry. apply (Forall2_length _ _ _ Hm).
    + apply (sum_group_counts (fun r => nama_propinsi (site r)) provinces filtered
               (provinces_of_NoDup filtered)).
      intros r k Hr E. apply provinces_of_In. eauto.
Qed.

Lemma X15_clustered_map_groups_and_colours_witness :
  sample_palette <> [] /\
  (forall r, In r (app sample_rows text_rows) -> has_coordinates (site r) = true) /\
  option_map (map (fun c => (fst (fst c), snd (fst c), length (snd c))))
    (create_clustered_map sample_format_3f sample_palette (app sample_rows text_rows)
       (Some "AWS"))
  = Some [("Banten", "#AA0DFE", 1); ("DKI Jakarta", "#3283FE", 1); ("Jawa Barat", "#85660D", 1)].
Proof.
  assert (H1 : sample_palette <> []) by discriminate.
  assert (H2 : forall r, In r (app sample_rows text_rows) -> has_coordinates (site r) = true).
  { intros r Hr. apply in_app_or in Hr as [Hr | Hr].
    - apply sample_rows_have_coordinates, Hr.
    - simpl in Hr. repeat (destruct Hr as [<- | Hr]; [reflexivity |]). destruct Hr. }
  split; [exact H1 |]. split; [exact H2 |].
  destruct (X15_clustered_map_groups_and_colours sample_format_3f sample_palette
              (app sample_rows text_rows) (Some "AWS") H1 H2) as (cs & Hcs & _).
  rewrite Hcs. injection Hcs as <-. reflexivity.
Defined.

(** ** The metrics *)

Lemma ts_leb_spec a b :
  ts_leb a b = true <->
  ts_year a < ts_year b \/
  (ts_year a = ts_year b /\
   (ts_month a < ts_month b \/ (ts_month a = ts_month b /\ ts_day a <= ts_day b))).
Proof.
  unfold ts_leb.
  destruct (Nat.ltb_spec (ts_year a) (ts_year b)); [intuition lia |].
  destruct (Nat.ltb_spec (ts_year b) (ts_year a)); [intuition (lia || discriminate) |].
  destruct (Nat.ltb_spec (ts_month a) (ts_month b)); [intuition lia |].
  destruct (Nat.ltb_spec (ts_month b) (ts_month a)); [intuition (lia || discriminate) |].
  rewrite Nat.leb_le. intuition lia.
Qed.

Lemma ts_leb_refl a : ts_leb a a = true.
Proof. apply ts_leb_spec. lia. Qed.

Lemma ts_leb_total a b : ts_leb a b = false -> ts_leb b a = true.
Proof.
  intros Hab. apply ts_leb_spec.
  destruct (ts_leb b a) eqn:Hba; [apply ts_leb_spec, Hba |].
  assert (Ha : ~ ts_leb a b = true) by congruence.
  assert (Hb : ~ ts_leb b a = true) by congruence.
  rewrite ts_leb_spec in Ha, Hb. lia.
Qed.

Lemma ts_leb_trans a b c : ts_leb a b = true -> ts_leb b c = true -> ts_leb a c = true.
Proof. rewrite !ts_leb_spec. lia. Qed.

Lemma earliest_None ds : earliest ds = None <-> forall d, In d ds -> d = None.
Proof.
  induction ds as [| d ds IH]; simpl.
  - split; [intros _ d [] | reflexivity].
  - destruct d as [a |].
    + split.
      * destruct (earliest ds); discriminate.
      * intros H. discriminate (H (Some a) (or_introl eq_refl)).
    + rewrite IH. split.
      * intros H d [<- | Hd]; [reflexivity | apply H, Hd].
      * intros H d Hd. apply H. right. exact Hd.
Qed.

Lemma earliest_Some ds t :
  earliest ds = Some t ->
  In (Some t) ds /\ forall t', In (Some t') ds -> ts_leb t t' = true.
Proof.
  revert t. induction ds as [| d ds IH]; simpl; intros t H; [discriminate |].
  destruct d as [a |].
  - destruct (earliest ds) as [b |] eqn:Eb.
    + destruct (IH b eq_refl) as [Hin Hmin].
      destruct (ts_leb a b) eqn:Hab; inversion H; subst t.
      * split; [left; reflexivity |].
        intros t' [[= <-] | Ht']; [apply ts_leb_refl |].
        eapply ts_leb_trans; [exact Hab | apply Hmin, Ht'].
      * split; [right; exact Hin |].
        intros t' [[= <-] | Ht']; [apply ts_leb_total, Hab | apply Hmin, Ht'].
    + inversion H; subst t. split; [left; reflexivity |].
      intros t' [[= <-] | Ht']; [apply ts_leb_refl |].
      apply (proj1 (earliest_None ds) Eb) in Ht'. discriminate Ht'.
  - destruct (IH t H) as [Hin Hmin]. split; [right; exact Hin |].
    intros t' [Hd | Ht']; [discriminate Hd | apply Hmin, Ht'].
Qed.

Lemma pad2_first n : exists c rest, pad2 n = String c rest /\ c <> "N"%char.
Proof.
  unfold pad2.
  destruct (String.length (NilZero.string_of_uint (Nat.to_uint n)) <? 2)%nat eqn:Hlen.
  - exists "0"%char, (NilZero.string_of_uint (Nat.to_uint n)). split; [reflexivity | discriminate].
  - destruct (Nat.to_uint n) as [| u | u | u | u | u | u | u | u | u | u];
      [discriminate Hlen | ..]; simpl; eexists _, _; (split; [reflexivity | discriminate]).
Qed.

Lemma strftime_dmY_not_NA t : strftime_dmY t <> "N/A".
Proof.
  unfold strftime_dmY. destruct (pad2_first (ts_day t)) as (c & rest & -> & Hc).
  rewrite string_app_cons. intros [= E _]. apply Hc, E.
Qed.

(** X16.  The "Active Since" metric of [Peta-Selection.py] shows "N/A"
    exactly when no station of the table has an install date;
    otherwise it shows, as day/month/year, the install date of some
    station of the table, and no station has an earlier one: stations
    without an install date are skipped. *)
Theorem X16_active_since_is_the_earliest_install_date (rows : list Station) :
  (active_since rows = "N/A" <-> forall r, In r rows -> tgl_pasang (site r) = None) /\
  (forall r t, In r rows -> tgl_pasang (site r) = Some t ->
     exists r0 t0,
       In r0 rows /\ tgl_pasang (site r0) = Some t0 /\
       active_since rows = strftime_dmY t0 /\
       (forall r' t', In r' rows -> tgl_pasang (site r') = Some t' -> ts_leb t0 t' = true)).
Proof.
  unfold active_since.
  destruct (earliest (map (fun r => tgl_pasang (site r)) rows)) as [t0 |] eqn:E.
  - destruct (earliest_Some _ _ E) as [Hin Hmin].
    apply in_map_iff in Hin as (r0 & Hr0 & Hin0). split.
    + split; [intros H; destruct (strftime_dmY_not_NA t0 H) |].
      intros H. rewrite (H r0 Hin0) in Hr0. discriminate Hr0.
    + intros r t Hr Ht. exists r0, t0. repeat split; auto.
      intros r' t' Hr' Ht'. apply Hmin. apply in_map_iff. exists r'. auto.
  - pose proof (proj1 (earliest_None _) E) as Hnone. split.
    + split; [| reflexivity]. intros _ r Hr. apply Hnone, in_map_iff. exists r. auto.
    + intros r t Hr Ht. assert (Some t = None) as H; [| discriminate H].
      apply Hnone, in_map_iff. exists r. auto.
Qed.

Lemma col_max_None xs : col_max xs = None <-> forall x, In x xs -> x = None.
Proof.
  induction xs as [| x xs IH]; simpl.
  - split; [intros _ x [] | reflexivity].
  - destruct x as [a |].
    + split.
      * destruct (col_max xs); discriminate.
      * intros H. discriminate (H (Some a) (or_introl eq_refl)).
    + rewrite IH. split.
      * intros H x [<- | Hx]; [reflexivity | apply H, Hx].
      * intros H x Hx. apply H. right. exact Hx.
Qed.

Lemma col_min_None xs : col_min xs = None <-> forall x, In x xs -> x = None.
Proof.
  induction xs as [| x xs IH]; simpl.
  - split; [intros _ x [] | reflexivity].
  - destruct x as [a |].
    + split.
      * destruct (col_min xs); discriminate.
      * intros H. discriminate (H (Some a) (or_introl eq_refl)).
    + rewrite IH. split.
      * intros H x [<- | Hx]; [reflexivity | apply H, Hx].
      * intros H x Hx. apply H. right. exact Hx.
Qed.

Lemma Qle_bool_false a b : Qle_bool a b = false -> (b <= a)%Q.
Proof.
  intros H. destruct (Qlt_le_dec b a) as [Hlt | Hle]; [apply Qlt_le_weak, Hlt |].
  apply Qle_bool_iff in Hle. congruence.
Qed.

Lemma col_max_Some xs m :
  col_max xs = Some m -> In (Some m) xs /\ forall x, In (Some x) xs -> (x <= m)%Q.
Proof.
  revert m. induction xs as [| x xs IH]; simpl; intros m H; [discriminate |].
  destruct x as [a |].
  - destruct (col_max xs) as [b |] eqn:Eb.
    + destruct (IH b eq_refl) as [Hin Hmax].
      destruct (Qle_bool b a) eqn:Hba; inversion H; subst m.
      * apply Qle_bool_iff in Hba. split; [left; reflexivity |].
        intros x [[= <-] | Hx]; [apply Qle_refl |].
        eapply Qle_trans; [apply Hmax, Hx | exact Hba].
      * apply Qle_bool_false in Hba. split; [right; exact Hin |].
        intros x [[= <-] | Hx]; [exact Hba | apply Hmax, Hx].
    + inversion H; subst m. split; [left; reflexivity |].
      intros x [[= <-] | Hx]; [apply Qle_refl |].
      apply (proj1 (col_max_None xs) Eb) in Hx. discriminate Hx.
  - destruct (IH m H) as [Hin Hmax]. split; [right; exact Hin |].
    intros x [Hd | Hx]; [discriminate Hd | apply Hmax, Hx].
Qed.

Lemma col_min_Some xs m :
  col_min xs = Some m -> In (Some m) xs /\ forall x, In (Some x) xs -> (m <= x)%Q.
Proof.
  revert m. induction xs as [| x xs IH]; simpl; intros m H; [discriminate |].
  destruct x as [a |].
  - destruct (col_min xs) as [b |] eqn:Eb.
    + destruct (IH b eq_refl) as [Hin Hmin].
      destruct (Qle_bool a b) eqn:Hab; inversion H; subst m.
      * apply Qle_bool_iff in Hab. split; [left; reflexivity |].
        intros x [[= <-] | Hx]; [apply Qle_refl |].
        eapply Qle_trans; [exact Hab | apply Hmin, Hx].
      * apply Qle_bool_false in Hab. split; [right; exact Hin |].
        intros x [[= <-] | Hx]; [exact Hab | apply Hmin, Hx].
    + inversion H; subst m. split; [left; reflexivity |].
      intros x [[= <-] | Hx]; [apply Qle_refl |].
      apply (proj1 (col_min_None xs) Eb) in Hx. discriminate Hx.
  - destruct (IH m H) as [Hin Hmin]. split; [right; exact Hin |].
    intros x [Hd | Hx]; [discriminate Hd | apply Hmin, Hx].
Qed.

(** X17.  On the table the loader returns, unless it has no row, the
    four values of the "Geographic Coverage" box are all present; each
    is a coordinate of some station of the table, and they bound the
    table: every station lies between the southernmost and the
    northernmost latitude and between the westernmost and the
    easternmost longitude.  On a table with no row all four are
    missing (shown as nan). *)
Theorem X17_geographic_coverage_is_the_bounding_box (wb : Workbook) (table : DataFrame) :
  load_site_metadata wb = Some table ->
  match df_rows table with
  | [] => geographic_coverage (df_rows table) = (None, None, None, None)
  | _ :: _ =>
      exists north south east west,
        geographic_coverage (df_rows table) = (Some north, Some south, Some east, Some west) /\
        (exists r, In r (df_rows table) /\ latt_station (site r) = Some north) /\
        (exists r, In r (df_rows table) /\ latt_station (site r) = Some south) /\
        (exists r, In r (df_rows table) /\ long_station (site r) = Some east) /\
        (exists r, In r (df_rows table) /\ long_station (site r) = Some west) /\
        forall r, In r (df_rows table) ->
          exists lat lon,
            location_of r = Some (lat, lon) /\
            (south <= lat <= north)%Q /\ (west <= lon <= east)%Q
  end.
Proof.
  intros Hload.
  assert (Hc : forall r, In r (df_rows table) -> has_coordinates (site r) = true).
  { intros r Hr. destruct (load_Some_rows wb table Hload) as [_ ->]. simpl in Hr.
    apply in_concat in Hr as (f & Hf & Hr).
    apply in_map_iff in Hf as (s & <- & Hs).
    apply in_map_iff in Hr as (row & <- & Hrow).
    apply filter_In in Hrow as [_ Hc]. exact Hc. }
  destruct (df_rows table) as [| r1 rows'] eqn:Erows; [reflexivity |].
  set (rows := r1 :: rows') in *.
  assert (Hlat : forall r, In r rows -> exists a, latt_station (site r) = Some a).
  { intros r Hr. destruct (location_of_coordinates r (Hc r Hr)) as [[a b] H].
    unfold location_of in H. destruct (latt_station (site r)); [eauto | discriminate]. }
  assert (Hlon : forall r, In r rows -> exists b, long_station (site r) = Some b).
  { intros r Hr. destruct (location_of_coordinates r (Hc r Hr)) as [[a b] H].
    unfold location_of in H.
    destruct (latt_station (site r)); [| discriminate].
    destruct (long_station (site r)); [eauto | discriminate]. }
  assert (Hr1 : In r1 rows) by (left; reflexivity).
  unfold geographic_coverage.
  destruct (col_max (map (fun r => latt_station (site r)) rows)) as [north |] eqn:En.
  2:{ destruct (Hlat r1 Hr1) as [a Ha].
      assert (Some a = None) as H; [| discriminate H].
      apply (proj1 (col_max_None _) En), in_map_iff. exists r1. auto. }
  destruct (col_min (map (fun r => latt_station (site r)) rows)) as [south |] eqn:Es.
  2:{ destruct (Hlat r1 Hr1) as [a Ha].
      assert (Some a = None) as H; [| discriminate H].
      apply (proj1 (col_min_None _) Es), in_map_iff. exists r1. auto. }
  destruct (col_max (map (fun r => long_station (site r)) rows)) as [east |] eqn:Ee.
  2:{ destruct (Hlon r1 Hr1) as [a Ha].
      assert (Some a = None) as H; [| discriminate H].
      apply (proj1 (col_max_None _) Ee), in_map_iff. exists r1. auto. }
  destruct (col_min (map (fun r => long_station (site r)) rows)) as [west |] eqn:Ew.
  2:{ destruct (Hlon r1 Hr1) as [a Ha].
      assert (Some a = None) as H; [| discriminate H].
      apply (proj1 (col_min_None _) Ew), in_map_iff. exists r1. auto. }
  destruct (col_max_Some _ _ En) as [Hn1 Hn2]. destruct (col_min_Some _ _ Es) as [Hs1 Hs2].
  destruct (col_max_Some _ _ Ee) as [He1 He2]. destruct (col_min_Some _ _ Ew) as [Hw1 Hw2].
  exists north, south, east, west. split; [reflexivity |].
  apply in_map_iff in Hn1 as (rn & Hn1 & Hn1'). apply in_map_iff in Hs1 as (rs & Hs1 & Hs1').
  apply in_map_iff in He1 as (re & He1 & He1'). apply in_map_iff in Hw1 as (rw & Hw1 & Hw1').
  split; [eauto |]. split; [eauto |]. split; [eauto |]. split; [eauto |].
  intros r Hr. destruct (Hlat r Hr) as [a Ha]. destruct (Hlon r Hr) as [b Hb].
  exists a, b. unfold location_of. rewrite Ha, Hb. split; [reflexivity |].
  assert (Ia : In (Some a) (map (fun r => latt_station (site r)) rows))
    by (apply in_map_iff; eauto).
  assert (Ib : In (Some b) (map (fun r => long_station (site r)) rows))
    by (apply in_map_iff; eauto).
  repeat split; auto.
Qed.

Lemma X17_geographic_coverage_is_the_bounding_box_witness :
  load_site_metadata sample_workbook = Some (mkDataFrame sample_rows []) /\
  exists north south east west,
    geographic_coverage sample_rows = (Some north, Some south, Some east, Some west) /\
    forall r, In r sample_rows ->
      exists lat lon,
        location_of r = Some (lat, lon) /\
        (south <= lat <= north)%Q /\ (west <= lon <= east)%Q.
Proof.
  split; [reflexivity |].
  destruct (X17_geographic_coverage_is_the_bounding_box sample_workbook
              (mkDataFrame sample_rows []) eq_refl)
    as (north & south & east & west & Hg & _ & _ & _ & _ & Hb).
  exists north, south, east, west. split; [exact Hg | exact Hb].
Defined.
